(** * doc-management: the document-review assistant (main.py, app.py)

    A shallow embedding of the two Streamlit entry points of the repository:
    the link validator, the heuristic checker, the documentation cache, the
    review store, the agents, the orchestrator, the analysis, the rewrite and
    the two analysis buttons of [main.py]; the heuristic checker, the agents,
    the full review, the rewrite and the chat routing of [app.py]; and the
    buttons and the activity panel of the sidebars.

    Python strings are lists of Unicode code points.  Everything outside the
    repository (clock, HTTP, the chat-completion API, sqlite faults, the
    [re.search] calls that depend on the interpreter's Unicode tables) is an
    environment [Env] the functions are parameterised by; the process state
    (documentation cache, session state, store, call logs) is threaded
    through a state monad. *)

From Stdlib Require Import ZArith NArith QArith List String Ascii Lia Bool.
From Stdlib Require Import DecimalString Sorting.Sorted Permutation.
From stdpp Require Import gmap.
Import ListNotations.

Open Scope bool_scope.
Open Scope list_scope.

(* ===================================================================== *)
(** * Python strings *)
(* ===================================================================== *)

(** A [str] is a sequence of code points. *)
Abbreviation pystr := (list N).

(** Decoding of the UTF-8 bytes of a literal of the source. *)
Fixpoint utf8_decode (bs : list N) : pystr :=
  match bs with
  | [] => []
  | b :: rest =>
    if (b <? 128)%N then b :: utf8_decode rest
    else if (b <? 224)%N then
      match rest with
      | b1 :: r => ((b - 192) * 64 + (b1 - 128))%N :: utf8_decode r
      | _ => [b]
      end
    else if (b <? 240)%N then
      match rest with
      | b1 :: b2 :: r =>
        ((b - 224) * 4096 + (b1 - 128) * 64 + (b2 - 128))%N :: utf8_decode r
      | _ => [b]
      end
    else
      match rest with
      | b1 :: b2 :: b3 :: r =>
        ((b - 240) * 262144 + (b1 - 128) * 4096 + (b2 - 128) * 64 + (b3 - 128))%N
          :: utf8_decode r
      | _ => [b]
      end
  end.

(** [u "lit"] is the Python literal ["lit"]. *)
Definition u (s : string) : pystr :=
  utf8_decode (map N_of_ascii (list_ascii_of_string s)).

Arguments u : simpl never.

(** [s.startswith(p)] *)
Fixpoint startswith (p s : pystr) : bool :=
  match p, s with
  | [], _ => true
  | _ :: _, [] => false
  | a :: p', b :: s' => (a =? b)%N && startswith p' s'
  end.

(** [needle in hay] *)
Fixpoint contains (needle hay : pystr) : bool :=
  startswith needle hay ||
  match hay with
  | [] => false
  | _ :: hay' => contains needle hay'
  end.

(** [str.lower()].  Exact on Latin-1 and on the two code points outside it
    whose lowercase holds an ASCII letter (U+0130, U+212A); the other cased
    code points are left as they are.  The source only ever looks for ASCII
    needles in a lowered string, and such a test reads the ASCII letters of
    the result only. *)
Definition lower_char (c : N) : pystr :=
  if ((65 <=? c) && (c <=? 90))%N then [(c + 32)%N]
  else if ((192 <=? c) && (c <=? 222) && negb (c =? 215))%N then [(c + 32)%N]
  else if (c =? 304)%N then [105%N; 775%N]
  else if (c =? 8490)%N then [107%N]
  else [c].

Definition lower (s : pystr) : pystr := flat_map lower_char s.

(** [s[:n]] *)
Definition slice_to (n : nat) (s : pystr) : pystr := firstn n s.

(** [str(i)] for an [int]. *)
Definition str_of_Z (z : Z) : pystr :=
  u (NilZero.string_of_int (Z.to_int z)).

Definition str_of_nat (n : nat) : pystr := str_of_Z (Z.of_nat n).

(** [sep.join(parts)] *)
Fixpoint join (sep : pystr) (parts : list pystr) : pystr :=
  match parts with
  | [] => []
  | [p] => p
  | p :: rest => p ++ sep ++ join sep rest
  end.

(** Python's [str.isspace] on one code point, which is also what [\s]
    matches in a [str] pattern and what [str.split()] splits on. *)
Definition is_space (c : N) : bool :=
  ((9 <=? c) && (c <=? 13) || (28 <=? c) && (c <=? 32)
   || (c =? 133) || (c =? 160) || (c =? 5760)
   || (8192 <=? c) && (c <=? 8202)
   || (c =? 8232) || (c =? 8233) || (c =? 8239) || (c =? 8287)
   || (c =? 12288))%N.

(* ===================================================================== *)
(** * Patterns of the source that are embedded in full *)
(* ===================================================================== *)

(** ** The URL pattern of [run_link_validation] and [re.findall]

    The pattern is [https?://] followed by one or more characters of a
    negated class: white space, the closing round, square and curly brackets,
    the double quote and the greater-than sign are excluded. *)

(** The negated class: anything but white space and the five closing
    characters. *)
Definition url_char (c : N) : bool :=
  negb (is_space c || (c =? 41) || (c =? 93) || (c =? 125) || (c =? 34) || (c =? 62))%N.

(** The longest prefix of [s] in the class (the greedy [+]). *)
Fixpoint take_url_chars (s : pystr) : pystr :=
  match s with
  | [] => []
  | c :: s' => if url_char c then c :: take_url_chars s' else []
  end.

(** The match of the pattern anchored at the start of [text], if any:
    [http], an optional [s], [://], then one or more class characters. *)
Definition match_url (text : pystr) : option pystr :=
  let with_scheme (prefix : pystr) :=
    match take_url_chars (skipn (length prefix) text) with
    | [] => None
    | body => Some (prefix ++ body)
    end in
  if startswith (u "https://") text then with_scheme (u "https://")
  else if startswith (u "http://") text then with_scheme (u "http://")
  else None.

(** [re.findall]: scan from the left, take the match at the first position
    that has one and resume right after its end.  [skip] counts the characters
    of the last match still to be passed. *)
Fixpoint findall_from (skip : nat) (text : pystr) : list pystr :=
  match text with
  | [] => []
  | _ :: rest =>
    match skip with
    | S k => findall_from k rest
    | O =>
      match match_url text with
      | Some url => url :: findall_from (length url - 1) rest
      | None => findall_from 0 rest
      end
    end
  end.

Definition findall_urls (text : pystr) : list pystr := findall_from 0 text.

(** What it means for a string to match the pattern as a whole. *)
Definition url_pattern (s : pystr) : Prop :=
  exists body, body <> [] /\ forallb url_char body = true /\
    (s = u "http://" ++ body \/ s = u "https://" ++ body).

(** ** [re.split(r'[.!?]+', text)] and [str.split()] *)

Definition is_sentence_end (c : N) : bool :=
  ((c =? 46) || (c =? 33) || (c =? 63))%N.

(** [cur] is the piece being read, [in_sep] says that the last character
    read belonged to a run of separators. *)
Fixpoint re_split_aux (in_sep : bool) (cur : pystr) (text : pystr) : list pystr :=
  match text with
  | [] => [cur]
  | c :: rest =>
    if is_sentence_end c then
      if in_sep then re_split_aux true cur rest
      else cur :: re_split_aux true [] rest
    else re_split_aux false (cur ++ [c]) rest
  end.

Definition re_split_sentences (text : pystr) : list pystr :=
  re_split_aux false [] text.

(** [s.split()]: the maximal runs of characters that are not white space. *)
Fixpoint py_split_aux (cur : pystr) (s : pystr) : list pystr :=
  match s with
  | [] => match cur with [] => [] | _ => [cur] end
  | c :: rest =>
    if is_space c then
      match cur with
      | [] => py_split_aux [] rest
      | _ => cur :: py_split_aux [] rest
      end
    else py_split_aux (cur ++ [c]) rest
  end.

Definition py_split (s : pystr) : list pystr := py_split_aux [] s.

(* ===================================================================== *)
(** * The environment and the process state *)
(* ===================================================================== *)

(** What [urllib.request.urlopen] does for [check_single_link]: a response
    with its status, an [HTTPError] with its code, or any other exception
    with its [str(e)]. *)
Inductive urlopen_outcome :=
| Response (status : Z)
| HTTPError (code : Z)
| OtherException (message : pystr).

(** What [requests.get] followed by [raise_for_status] does for
    [fetch_documentation]: the response text, or a [RequestException]. *)
Inductive requests_outcome :=
| ResponseText (text : pystr)
| RequestException (message : pystr).

(** One call of [client.chat.completions.create]. *)
Record completion_request := {
  model : pystr;
  messages : list (pystr * pystr);   (* role, content *)
  max_tokens : Z;
  temperature : Q
}.

(** Its result: [response.choices[0].message.content], or an exception with
    its [str(e)]. *)
Inductive completion_outcome :=
| Completion (content : pystr)
| APIException (message : pystr).

(** Everything outside the repository.  Each oracle is asked with the number
    of calls made before, so a repeated request may get another answer. *)
Record Env := {
  (** the k-th reading of [datetime.now()], as a POSIX timestamp in seconds *)
  clock : nat -> Q;
  (** [strftime] of a reading, in the local time zone *)
  strftime : pystr -> Q -> pystr;
  urlopen : nat -> pystr -> urlopen_outcome;
  requests_get : nat -> pystr -> requests_outcome;
  chat_completions_create : nat -> completion_request -> completion_outcome;
  (** [Some message] when the k-th transaction on the sqlite file raises *)
  sqlite_fault : nat -> option pystr;
  (** [re.search(pattern, text, re.IGNORECASE)] finds a match: the patterns
      of the heuristic checker use [\w] and [\b] and ignore case, which
      follows the interpreter's Unicode tables *)
  re_search_ignorecase : pystr -> pystr -> bool
}.

(** An entry of [DOCS_CACHE]. *)
Record cache_entry := {
  ce_content : pystr;
  ce_timestamp : Q
}.

(** A row of the table [editorial_reviews] of main.py. *)
Record review_row := {
  row_id : Z;
  row_timestamp : pystr;
  row_document_type : pystr;
  row_document_title : pystr;
  row_original_text : pystr;
  row_review_notes : pystr;
  row_review_status : pystr
}.

(** A dictionary returned by an agent of phase 1: it holds either the key
    ["findings"] or the key ["error"]. *)
Inductive agent_report :=
| Findings (agent findings : pystr)
| AgentError (agent error : pystr).

(** The metadata dictionary; the agents read ['title'] and ['type'] with
    [dict.get] and a default. *)
Record doc_metadata := {
  md_title : option pystr;
  md_type : option pystr
}.

(** A chat message of [st.session_state['messages']]. *)
Record chat_message := {
  role : pystr;
  msg_content : pystr
}.

(** The mutable state of the process. *)
Record World := {
  DOCS_CACHE : gmap (list N) cache_entry;
  system_logs : list pystr;
  clock_reads : nat;
  link_requests : list pystr;
  docs_requests : list pystr;
  completions : list completion_request;
  editorial_reviews : list review_row;
  store_transactions : nat;
  (** [st.session_state] of app.py: ['last_review'] (absent or a review),
      ['messages'] and ['document_metadata'] *)
  last_review : option pystr;
  session_messages : list chat_message;
  document_metadata : option doc_metadata
}.

(** ** The state monad *)

Definition M (A : Type) : Type := World -> A * World.

Definition ret {A} (a : A) : M A := fun w => (a, w).

Definition bind {A B} (c : M A) (k : A -> M B) : M B :=
  fun w => let (a, w') := c w in k a w'.

Notation "'let*' x ':=' c 'in' k" := (bind c (fun x => k))
  (at level 10, x name, c at level 200, k at level 200).
Notation "'run' c 'then' k" := (bind c (fun _ => k))
  (at level 10, c at level 200, k at level 200).

Definition get_world : M World := fun w => (w, w).
Definition put_world (w : World) : M unit := fun _ => (tt, w).

(** [for x in xs: acc = body(acc, x)] *)
Fixpoint for_each {A S} (xs : list A) (acc : S) (body : S -> A -> M S) : M S :=
  match xs with
  | [] => ret acc
  | x :: xs' => let* acc' := body acc x in for_each xs' acc' body
  end.

Definition set_DOCS_CACHE (f : gmap (list N) cache_entry -> gmap (list N) cache_entry) (w : World) : World :=
  {| DOCS_CACHE := f (DOCS_CACHE w); system_logs := system_logs w;
     clock_reads := clock_reads w; link_requests := link_requests w;
     docs_requests := docs_requests w; completions := completions w;
     editorial_reviews := editorial_reviews w;
     store_transactions := store_transactions w;
     last_review := last_review w;
     session_messages := session_messages w;
     document_metadata := document_metadata w |}.

Definition set_system_logs (f : list pystr -> list pystr) (w : World) : World :=
  {| DOCS_CACHE := DOCS_CACHE w; system_logs := f (system_logs w);
     clock_reads := clock_reads w; link_requests := link_requests w;
     docs_requests := docs_requests w; completions := completions w;
     editorial_reviews := editorial_reviews w;
     store_transactions := store_transactions w;
     last_review := last_review w;
     session_messages := session_messages w;
     document_metadata := document_metadata w |}.

Definition set_clock_reads (f : nat -> nat) (w : World) : World :=
  {| DOCS_CACHE := DOCS_CACHE w; system_logs := system_logs w;
     clock_reads := f (clock_reads w); link_requests := link_requests w;
     docs_requests := docs_requests w; completions := completions w;
     editorial_reviews := editorial_reviews w;
     store_transactions := store_transactions w;
     last_review := last_review w;
     session_messages := session_messages w;
     document_metadata := document_metadata w |}.

Definition set_link_requests (f : list pystr -> list pystr) (w : World) : World :=
  {| DOCS_CACHE := DOCS_CACHE w; system_logs := system_logs w;
     clock_reads := clock_reads w; link_requests := f (link_requests w);
     docs_requests := docs_requests w; completions := completions w;
     editorial_reviews := editorial_reviews w;
     store_transactions := store_transactions w;
     last_review := last_review w;
     session_messages := session_messages w;
     document_metadata := document_metadata w |}.

Definition set_docs_requests (f : list pystr -> list pystr) (w : World) : World :=
  {| DOCS_CACHE := DOCS_CACHE w; system_logs := system_logs w;
     clock_reads := clock_reads w; link_requests := link_requests w;
     docs_requests := f (docs_requests w); completions := completions w;
     editorial_reviews := editorial_reviews w;
     store_transactions := store_transactions w;
     last_review := last_review w;
     session_messages := session_messages w;
     document_metadata := document_metadata w |}.

Definition set_completions (f : list completion_request -> list completion_request) (w : World) : World :=
  {| DOCS_CACHE := DOCS_CACHE w; system_logs := system_logs w;
     clock_reads := clock_reads w; link_requests := link_requests w;
     docs_requests := docs_requests w; completions := f (completions w);
     editorial_reviews := editorial_reviews w;
     store_transactions := store_transactions w;
     last_review := last_review w;
     session_messages := session_messages w;
     document_metadata := document_metadata w |}.

Definition set_store (rows : list review_row) (w : World) : World :=
  {| DOCS_CACHE := DOCS_CACHE w; system_logs := system_logs w;
     clock_reads := clock_reads w; link_requests := link_requests w;
     docs_requests := docs_requests w; completions := completions w;
     editorial_reviews := rows;
     store_transactions := S (store_transactions w);
     last_review := last_review w;
     session_messages := session_messages w;
     document_metadata := document_metadata w |}.

Definition set_session_messages (f : list chat_message -> list chat_message) (w : World) : World :=
  {| DOCS_CACHE := DOCS_CACHE w; system_logs := system_logs w;
     clock_reads := clock_reads w; link_requests := link_requests w;
     docs_requests := docs_requests w; completions := completions w;
     editorial_reviews := editorial_reviews w;
     store_transactions := store_transactions w;
     last_review := last_review w;
     session_messages := f (session_messages w);
     document_metadata := document_metadata w |}.

Definition nl : pystr := [10%N].

(** [x if x else dflt] on a string. *)
Definition or_else (x dflt : pystr) : pystr :=
  match x with [] => dflt | _ => x end.

(** [doc[:n] if doc else dflt] on a fetched document, which is [None] when
    the fetch failed. *)
Definition prefix_or (n : nat) (doc : option pystr) (dflt : pystr) : pystr :=
  match doc with
  | Some ((_ :: _) as d) => slice_to n d
  | _ => dflt
  end.

(** [d.get(key, dflt)] *)
Definition get_or {A} (x : option A) (dflt : A) : A :=
  match x with Some a => a | None => dflt end.

Definition Qltb (x y : Q) : bool :=
  (Qnum x * Zpos (Qden y) <? Qnum y * Zpos (Qden x))%Z.

(* ===================================================================== *)
(** * Configuration and utilities shared by main.py and app.py *)
(* ===================================================================== *)

Definition GITHUB_REPO_BASE : pystr :=
  u "https://raw.githubusercontent.com/Renda02/tech-101-handbook/main".

Definition DOCUMENTATION_URLS : list (pystr * pystr) :=
  [ (u "content_classification_guide",
     GITHUB_REPO_BASE ++ u "/editing-rules/content-classification-guide.md");
    (u "style_guide", GITHUB_REPO_BASE ++ u "/handbook/style-guide.md");
    (u "wordiness_examples",
     GITHUB_REPO_BASE ++ u "/editing-rules/examples/wordiness-examples.md");
    (u "clarity_examples",
     GITHUB_REPO_BASE ++ u "/editing-rules/examples/clarity-vague-language.md");
    (u "quick_reference", GITHUB_REPO_BASE ++ u "/editing-rules/quick-reference.md") ].

(** [DOCUMENTATION_URLS.get(doc_key)] *)
Fixpoint dict_get (d : list (pystr * pystr)) (key : pystr) : option pystr :=
  match d with
  | [] => None
  | (k, v) :: d' => if decide (k = key) then Some v else dict_get d' key
  end.

(** One hour in seconds. *)
Definition CACHE_EXPIRY : Q := 3600.

Section Utilities.
Variable env : Env.

(** [datetime.now()] *)
Definition datetime_now : M Q :=
  fun w => (clock env (clock_reads w), set_clock_reads S w).

(** Add a timestamped message to the system logs. *)
Definition log_system_message (message : pystr) : M unit :=
  let* now := datetime_now in
  let timestamp := strftime env (u "%H:%M:%S") now in
  fun w => (tt, set_system_logs
                  (fun logs => logs ++ [u "[" ++ timestamp ++ u "] " ++ message]) w).

(** [requests.get(url, timeout=10)] and [response.raise_for_status()] *)
Definition requests_get_call (url : pystr) : M requests_outcome :=
  fun w => (requests_get env (length (docs_requests w)) url,
            set_docs_requests (fun l => l ++ [url]) w).

(** Fetch documentation from GitHub with caching (the same function in
    main.py and in app.py). *)
Definition fetch_documentation (doc_key : pystr) : M (option pystr) :=
  let* now := datetime_now in
  let from_github : M (option pystr) :=
    match dict_get DOCUMENTATION_URLS doc_key with
    | None | Some [] =>
      run log_system_message (u "DOCS: Unknown documentation key: " ++ doc_key)
      then ret None
    | Some url =>
      run log_system_message (u "DOCS: Fetching " ++ doc_key ++ u " from GitHub") then
      let* response := requests_get_call url in
      match response with
      | ResponseText content =>
        run (fun w => (tt, set_DOCS_CACHE
               (insert doc_key {| ce_content := content; ce_timestamp := now |}) w)) then
        run log_system_message (u "DOCS: Successfully fetched " ++ doc_key) then
        ret (Some content)
      | RequestException e =>
        run log_system_message
              (u "DOCS ERROR: Failed to fetch " ++ doc_key ++ u ": " ++ e) then
        ret None
      end
    end in
  let* w := get_world in
  match DOCS_CACHE w !! doc_key with
  | Some cache_entry =>
    if Qltb (now - ce_timestamp cache_entry) CACHE_EXPIRY then
      run log_system_message (u "DOCS: Using cached " ++ doc_key) then
      ret (Some (ce_content cache_entry))
    else from_github
  | None => from_github
  end.

(** [client.chat.completions.create(...)] *)
Definition chat_completions_create_call (request : completion_request)
  : M completion_outcome :=
  fun w => (chat_completions_create env (length (completions w)) request,
            set_completions (fun l => l ++ [request]) w).

(** The Clear Cache button of the sidebar (the same in main.py and in
    app.py). *)
Definition clear_cache : M unit :=
  run (fun w => (tt, set_DOCS_CACHE (fun _ => ∅) w)) then
  log_system_message (u "SYSTEM: Documentation cache cleared").

End Utilities.

(** ** The activity panel of the sidebar *)

(** [s.lstrip()] and [s.rstrip()] *)
Fixpoint lstrip (s : pystr) : pystr :=
  match s with
  | [] => []
  | c :: s' => if is_space c then lstrip s' else s
  end.

Fixpoint rstrip (s : pystr) : pystr :=
  match s with
  | [] => []
  | c :: s' =>
    match rstrip s' with
    | [] => if is_space c then [] else [c]
    | r => c :: r
    end
  end.

(** [s.strip()] *)
Definition strip (s : pystr) : pystr := lstrip (rstrip s).

(** [s.split(sep, 1)[1]] for a one-character [sep] that occurs in [s]: what
    follows its first occurrence. *)
Fixpoint after_first (sep : N) (s : pystr) : pystr :=
  match s with
  | [] => []
  | c :: s' => if (c =? sep)%N then s' else after_first sep s'
  end.

(** Clean up log display: what the panel shows for one line of the system
    logs (the same in main.py and in app.py).  [parts] has two elements
    whenever the colon is in the line, so the test on its length holds. *)
Definition clean_log (log : pystr) : pystr :=
  if contains (u "]") log then
    let clean_log := strip (after_first 93 log) in
    if contains (u ":") clean_log then strip (after_first 58 clean_log)
    else clean_log
  else log.

(* ===================================================================== *)
(** * [urllib.parse.urlparse] *)
(* ===================================================================== *)

Record ParseResult := {
  scheme : pystr;
  netloc : pystr;
  path : pystr
}.

(** The prefix of [s] before the first character that satisfies [stop]. *)
Fixpoint take_until (stop : N -> bool) (s : pystr) : pystr :=
  match s with
  | [] => []
  | c :: s' => if stop c then [] else c :: take_until stop s'
  end.

Definition is_char (a : ascii) (c : N) : bool := (c =? N_of_ascii a)%N.

Definition scheme_char (c : N) : bool :=
  ((97 <=? c) && (c <=? 122) || (65 <=? c) && (c <=? 90)
   || (48 <=? c) && (c <=? 57) || (c =? 43) || (c =? 45) || (c =? 46))%N.

Definition ascii_alpha (c : N) : bool :=
  ((97 <=? c) && (c <=? 122) || (65 <=? c) && (c <=? 90))%N.

Definition uses_params : list pystr :=
  [ []; u "ftp"; u "hdl"; u "prospero"; u "http"; u "imap"; u "https";
    u "shttp"; u "rtsp"; u "rtspu"; u "sip"; u "sips"; u "mms"; u "sftp";
    u "tel" ].

(** [urlparse(url)], the three components the source reads.  The function is
    applied to matches of the URL pattern only: they begin with [http] and
    hold no white space, so the stripping of leading control characters and
    of tabs and line ends that [urlsplit] starts with leaves them as they
    are.  [urlsplit] raises [ValueError] on a host with an unmatched square
    bracket; no connection can be made to such a host, so no 404 answer leads
    [suggest_404_fixes] there, and the case is outside the model. *)
Definition urlparse (url : pystr) : ParseResult :=
  let before_colon := take_until (is_char ":") url in
  let has_scheme :=
    (length before_colon <? length url)%nat &&
    match before_colon with
    | c :: _ => ascii_alpha c && forallb scheme_char before_colon
    | [] => false
    end in
  let scheme := if has_scheme then lower before_colon else [] in
  let url := if has_scheme then skipn (S (length before_colon)) url else url in
  let is_delim c := is_char "/" c || is_char "?" c || is_char "#" c in
  let netloc := if startswith (u "//") url then take_until is_delim (skipn 2 url) else [] in
  let url := if startswith (u "//") url then skipn (2 + length netloc) url else url in
  let url := take_until (is_char "#") url in
  let url := take_until (is_char "?") url in
  let last_segment := rev (take_until (is_char "/") (rev url)) in
  let url :=
    if existsb (fun p => if decide (p = scheme) then true else false) uses_params then
      firstn (length url - length last_segment) url
        ++ take_until (is_char ";") last_segment
    else url in
  {| scheme := scheme; netloc := netloc; path := url |}.

(* ===================================================================== *)
(** * main.py *)
(* ===================================================================== *)

(** The value under ["code"] of a link result: the status, or the string
    ["ERROR"]. *)
Inductive link_code :=
| Code (n : Z)
| CodeERROR.

(** The dictionary [check_single_link] returns. *)
Record link_result := {
  r_url : pystr;
  r_status : pystr;
  r_code : link_code;
  r_suggestion : option pystr
}.

(** The dictionary [run_editorial_synthesis] and [run_multi_agent_review]
    return: a review with the reports it was made from, the synthesizer's
    error, or the orchestrator's [{"error": ...}]. *)
Inductive editorial_result :=
| Review (agent review : pystr) (agent_reports : list agent_report)
| EditorialError (agent error : pystr)
| OrchestratorError (error : pystr).

Module Main.

(** ** Link validation: the helpers nested in [run_link_validation] *)

(** Suggest intelligent fixes for 404 errors. *)
Definition suggest_404_fixes (url : pystr) : pystr :=
  let parsed := urlparse url in
  let domain := netloc parsed in
  let path := path parsed in
  let suggestions : list pystr := [] in
  let suggestions :=
    (* GitHub specific fixes *)
    if contains (u "github.com") domain then
      let suggestions :=
        if contains (u "/blob/") path then
          suggestions
            ++ [u "• Repository may have moved - check if it was renamed or transferred"]
            ++ [u "• Branch may have changed (master → main)"]
        else suggestions in
      suggestions ++ [u "• Try archive: https://web.archive.org/web/" ++ url]
    (* Documentation sites *)
    else if existsb (fun doc_site => contains doc_site domain)
                    [u "docs."; u "documentation."; u "wiki."] then
      suggestions
        ++ [u "• Documentation may have been restructured - check site's search"]
        ++ [u "• Try removing version numbers from URL path"]
    (* API endpoints *)
    else if contains (u "/api/") path
            || existsb (fun api_term => contains api_term path)
                       [u "/v1/"; u "/v2/"; u "/rest/"] then
      suggestions
        ++ [u "• API version may have changed - check for newer versions"]
        ++ [u "• Endpoint may have been deprecated - check API changelog"]
    else suggestions in
  (* General suggestions *)
  let suggestions :=
    suggestions ++ [u "• Check site manually: " ++ scheme parsed ++ u "://" ++ domain] in
  let suggestions :=
    suggestions ++ [u "• Search archive: https://web.archive.org/web/" ++ url] in
  match suggestions with
  | [] => u "Consider removing or finding an alternative"
  | _ => join nl suggestions
  end.

(** Suggest fixes based on error type. *)
Definition suggest_error_fixes (url error_msg : pystr) : pystr :=
  if contains (u "SSL") error_msg || contains (u "certificate") (lower error_msg) then
    u "SSL certificate issue - site may be misconfigured or unsafe"
  else if contains (u "Name or service not known") error_msg
          || contains (u "DNS") error_msg then
    u "Domain no longer exists - find alternative or remove link"
  else if contains (u "Connection refused") error_msg then
    u "Server is down - check if this is temporary or permanent"
  else
    u "Network error - verify URL is correct".

(** The body of [check_single_link] after [urlopen] has answered: the [with]
    block for a response, the two [except] clauses otherwise. *)
Definition link_result_of (url : pystr) (outcome : urlopen_outcome) : link_result :=
  match outcome with
  | Response status =>
    if (status =? 200)%Z then
      {| r_url := url; r_status := u "✅ Working"; r_code := Code status;
         r_suggestion := None |}
    else
      {| r_url := url; r_status := u "⚠️ HTTP " ++ str_of_Z status;
         r_code := Code status;
         r_suggestion := Some (u "Check if this is the intended behavior") |}
  | HTTPError code =>
    if (code =? 404)%Z then
      let suggestions := suggest_404_fixes url in
      {| r_url := url; r_status := u "❌ Not Found (404)"; r_code := Code 404;
         r_suggestion := Some suggestions |}
    else if (code =? 401)%Z || (code =? 403)%Z then
      {| r_url := url;
         r_status := u "🔒 Access Restricted (" ++ str_of_Z code ++ u ")";
         r_code := Code code;
         r_suggestion :=
           Some (u "Verify if authentication is required or if link should be public") |}
    else
      {| r_url := url; r_status := u "❌ HTTP " ++ str_of_Z code;
         r_code := Code code;
         r_suggestion := Some (u "Check server status or find alternative") |}
  | OtherException e =>
    {| r_url := url; r_status := u "❌ Error: " ++ slice_to 50 e;
       r_code := CodeERROR;
       r_suggestion := Some (suggest_error_fixes url e) |}
  end.

(** Formatting of the report from the two lists of the loop. *)
Definition format_issue (issue : link_result) : pystr :=
  u "**" ++ r_status issue ++ u "**" ++ nl
  ++ u "URL: `" ++ r_url issue ++ u "`" ++ nl
  ++ match r_suggestion issue with
     | Some ((_ :: _) as s) => u "💡 **Suggestion:** " ++ s ++ nl
     | _ => []
     end
  ++ nl.

Definition format_findings (urls : list pystr) (working_links issues : list link_result)
  : pystr :=
  let findings :=
    u "**Link Validation Report** (" ++ str_of_nat (length urls)
      ++ u " links checked)" ++ nl ++ nl in
  let findings :=
    match working_links with
    | [] => findings
    | _ => findings ++ u "✅ **" ++ str_of_nat (length working_links)
             ++ u " working links** - No action needed" ++ nl ++ nl
    end in
  let findings :=
    match issues with
    | [] => findings
    | _ => findings ++ u "⚠️ **" ++ str_of_nat (length issues)
             ++ u " links need attention:**" ++ nl ++ nl
             ++ flat_map format_issue issues
    end in
  match issues with
  | [] => findings ++ u "🎉 **All links are working perfectly!**"
  | _ => findings
  end.

Section WithEnv.
Variable env : Env.

(** Check a single URL and suggest fixes if broken. *)
Definition check_single_link (url : pystr) : M link_result :=
  let* outcome :=
    (fun w => (urlopen env (length (link_requests w)) url,
               set_link_requests (fun l => l ++ [url]) w)) in
  ret (link_result_of url outcome).

(** The [for url in urls] loop: every result goes to one of the two lists. *)
Definition check_all_links (urls : list pystr)
  : M (list link_result * list link_result) :=
  for_each urls ([], [])
    (fun '(working_links, issues) url =>
       let* result := check_single_link url in
       if startswith (u "✅") (r_status result)
       then ret (working_links ++ [result], issues)
       else ret (working_links, issues ++ [result])).

(** Link Validator Agent - checks external links and suggests fixes.  In the
    model nothing in the [try] block raises, so the handler that turns an
    exception into ["Link validation failed: ..."] is never entered. *)
Definition run_link_validation (document_text : pystr) (doc_metadata : doc_metadata)
  : M agent_report :=
  run log_system_message env (u "Link Validator: Starting link validation") then
  let urls := findall_urls document_text in
  match urls with
  | [] =>
    run log_system_message env (u "Link Validator: No external links found") then
    ret (Findings (u "Link Validator")
                  (u "✅ **No external links found** - Nothing to validate."))
  | _ =>
    run log_system_message env
          (u "Link Validator: Found " ++ str_of_nat (length urls) ++ u " links to check") then
    let* lists := check_all_links urls in
    let '(working_links, issues) := lists in
    let findings := format_findings urls working_links issues in
    run log_system_message env
          (u "Link Validator: Completed - " ++ str_of_nat (length working_links)
             ++ u " working, " ++ str_of_nat (length issues) ++ u " issues") then
    ret (Findings (u "Link Validator") findings)
  end.

(** ** Database functions *)

(** String comparison as sqlite's BINARY collation does it on TEXT: byte by
    byte on the UTF-8 encoding, which orders strings as their code points
    do. *)
Fixpoint str_leb (a b : pystr) : bool :=
  match a, b with
  | [], _ => true
  | _ :: _, [] => false
  | x :: a', y :: b' => (x <? y)%N || ((x =? y)%N && str_leb a' b')
  end.

(** [ORDER BY timestamp DESC]: a row goes before the first row whose
    timestamp is smaller.  SQL leaves the order of rows with equal timestamps
    open; here they stay in the order of their ids. *)
Fixpoint insert_desc (r : review_row) (sorted : list review_row) : list review_row :=
  match sorted with
  | [] => [r]
  | r' :: rest =>
    if str_leb (row_timestamp r') (row_timestamp r)
       && negb (str_leb (row_timestamp r) (row_timestamp r'))
    then r :: sorted
    else r' :: insert_desc r rest
  end.

Definition order_by_timestamp_desc (rows : list review_row) : list review_row :=
  fold_left (fun sorted r => insert_desc r sorted) rows [].

(** The id an [INTEGER PRIMARY KEY AUTOINCREMENT] column gives the next
    row. *)
Definition next_id (rows : list review_row) : Z :=
  fold_right Z.max 0%Z (map row_id rows) + 1.

(** Save editorial review to database.  [True] when the insert was
    committed; on an exception the message goes to [st.error] and the result
    is [False]. *)
Definition save_review (doc_type doc_title original_text review_notes : pystr)
  : M bool :=
  let* now := datetime_now env in
  let timestamp := strftime env (u "%Y-%m-%d %H:%M:%S") now in
  let* w := get_world in
  match sqlite_fault env (store_transactions w) with
  | None =>
    let row := {| row_id := next_id (editorial_reviews w);
                  row_timestamp := timestamp;
                  row_document_type := doc_type;
                  row_document_title := doc_title;
                  row_original_text := original_text;
                  row_review_notes := review_notes;
                  row_review_status := u "completed" |} in
    run put_world (set_store (editorial_reviews w ++ [row]) w) then
    ret true
  | Some e =>
    run put_world (set_store (editorial_reviews w) w) then
    ret false
  end.

(** Retrieve all editorial reviews from database: the rows of the data
    frame, which is empty when the query raised. *)
Definition get_reviews : M (list review_row) :=
  let* w := get_world in
  run put_world (set_store (editorial_reviews w) w) then
  match sqlite_fault env (store_transactions w) with
  | None => ret (order_by_timestamp_desc (editorial_reviews w))
  | Some e => ret []
  end.

(** ** Multi-agent analysis functions *)

(** Content Analyzer Agent - analyzes content quality issues. *)
Definition run_content_analysis (document_text : pystr) (doc_metadata : doc_metadata)
  : M agent_report :=
  run log_system_message env (u "Content Analyzer: Starting analysis") then
  let* content_guide := fetch_documentation env (u "content_classification_guide") in
  let* wordiness_examples := fetch_documentation env (u "wordiness_examples") in
  let* clarity_examples := fetch_documentation env (u "clarity_examples") in
  let system_prompt :=
    u "
    You are a Content Analyzer Agent specializing in technical documentation quality.

    Focus on identifying:
    1. Wordiness and filler text
    2. Vague language and unclear references  
    3. Missing context and logical gaps
    4. Abstract content lacking visualization
    5. Redundant information
    6. Missing outcomes and value statements

    Content Guide Reference:
    " ++ prefix_or 1500 content_guide (u "Guide not available") ++ u "

    Wordiness Examples:
    " ++ prefix_or 800 wordiness_examples (u "Examples not available") ++ u "

    Clarity Examples:
    " ++ prefix_or 800 clarity_examples (u "Examples not available") ++ u "

    Provide specific examples and actionable suggestions.
    " in
  let user_prompt :=
    u "
    Analyze this " ++ get_or (md_type doc_metadata) (u "document")
    ++ u " for content quality issues:
    
    Title: " ++ get_or (md_title doc_metadata) (u "Untitled") ++ u "
    
    Content:
    " ++ document_text ++ u "
    
    Focus on clarity, precision, and reader comprehension.
    " in
  let* response := chat_completions_create_call env
    {| model := u "gpt-4";
       messages := [(u "system", system_prompt); (u "user", user_prompt)];
       max_tokens := 1000;
       temperature := 0.2 |} in
  match response with
  | Completion analysis =>
    run log_system_message env (u "Content Analyzer: Analysis completed") then
    ret (Findings (u "Content Analyzer") analysis)
  | APIException e =>
    run log_system_message env (u "Content Analyzer: Error - " ++ e) then
    ret (AgentError (u "Content Analyzer") e)
  end.

(** Style Guide Agent - checks style compliance. *)
Definition run_style_analysis (document_text : pystr) (doc_metadata : doc_metadata)
  : M agent_report :=
  run log_system_message env (u "Style Guide Enforcer: Starting compliance check") then
  let* style_guide := fetch_documentation env (u "style_guide") in
  let* quick_reference := fetch_documentation env (u "quick_reference") in
  let system_prompt :=
    u "
    You are a Style Guide Enforcer Agent specializing in technical writing standards.

    Check for:
    1. Active vs passive voice
    2. Present tense usage
    3. Sentence length (max 26 words)
    4. UI element specifications
    5. Capitalization and formatting
    6. Grammar and punctuation

    Style Guide Reference:
    " ++ prefix_or 1500 style_guide (u "Guide not available") ++ u "

    Quick Reference:
    " ++ prefix_or 800 quick_reference (u "Reference not available") ++ u "

    Identify specific violations with corrections.
    " in
  let user_prompt :=
    u "
    Check this " ++ get_or (md_type doc_metadata) (u "document")
    ++ u " for style guide compliance:
    
    Title: " ++ get_or (md_title doc_metadata) (u "Untitled") ++ u "
    
    Content:
    " ++ document_text ++ u "
    
    Focus on voice, tense, and formatting standards.
    " in
  let* response := chat_completions_create_call env
    {| model := u "gpt-4";
       messages := [(u "system", system_prompt); (u "user", user_prompt)];
       max_tokens := 1000;
       temperature := 0.1 |} in
  match response with
  | Completion compliance_check =>
    run log_system_message env (u "Style Guide Enforcer: Check completed") then
    ret (Findings (u "Style Guide Enforcer") compliance_check)
  | APIException e =>
    run log_system_message env (u "Style Guide Enforcer: Error - " ++ e) then
    ret (AgentError (u "Style Guide Enforcer") e)
  end.

(** The text one report adds to [combined_findings]. *)
Definition report_section (report : agent_report) : pystr :=
  match report with
  | Findings agent findings =>
    nl ++ u "--- " ++ agent ++ u " Report ---" ++ nl ++ findings ++ nl
  | AgentError agent error =>
    nl ++ u "--- " ++ agent ++ u " ---" ++ nl ++ u "Error: " ++ error ++ nl
  end.

(** Combine agent reports. *)
Definition combine_findings (agent_reports : list agent_report) : pystr :=
  fold_left (fun combined_findings report => combined_findings ++ report_section report)
            agent_reports [].

Definition synthesis_system_prompt : pystr :=
  u "
    You are a Senior Editor Agent coordinating technical documentation review.

    Responsibilities:
    1. Synthesize findings from specialist agents
    2. Prioritize issues by impact
    3. Provide clear, actionable recommendations
    4. Create comprehensive editorial guidance
    5. Offer to provide a rewritten draft

    Create a professional review combining all specialist insights.
    ".

Definition synthesis_user_prompt (document_text : pystr) (doc_metadata : doc_metadata)
  (agent_reports : list agent_report) : pystr :=
  let combined_findings := combine_findings agent_reports in
  u "
    Create comprehensive editorial review based on specialist agent reports:
    
    Document: " ++ get_or (md_title doc_metadata) (u "Untitled")
  ++ u " (" ++ get_or (md_type doc_metadata) (u "Unknown") ++ u ")
    
    SPECIALIST FINDINGS:
    " ++ combined_findings ++ u "
    
    DOCUMENT PREVIEW:
    " ++ slice_to 800 document_text ++ u "...
    
    Provide:
    1. Executive summary
    2. Priority issues
    3. Specific improvements
    4. Overall assessment
    ".

Definition synthesis_request (document_text : pystr) (doc_metadata : doc_metadata)
  (agent_reports : list agent_report) : completion_request :=
  {| model := u "gpt-4";
     messages := [(u "system", synthesis_system_prompt);
                  (u "user", synthesis_user_prompt document_text doc_metadata agent_reports)];
     max_tokens := 1500;
     temperature := 0.3 |}.

(** Senior Editor Agent - synthesizes all agent findings. *)
Definition run_editorial_synthesis (document_text : pystr) (doc_metadata : doc_metadata)
  (agent_reports : list agent_report) : M editorial_result :=
  run log_system_message env (u "Senior Editor: Synthesizing review") then
  let* response := chat_completions_create_call env
    (synthesis_request document_text doc_metadata agent_reports) in
  match response with
  | Completion editorial_review =>
    run log_system_message env (u "Senior Editor: Review completed") then
    ret (Review (u "Senior Editor") editorial_review agent_reports)
  | APIException e =>
    run log_system_message env (u "Senior Editor: Error - " ++ e) then
    ret (EditorialError (u "Senior Editor") e)
  end.

(** Run full multi-agent document review.  The three coroutines of phase 1
    hold no [await], so [asyncio.gather] runs them to their end one after the
    other, in the order they were given.  Each agent turns its exceptions
    into an error report, so the handler that returns [{"error": ...}]
    ([OrchestratorError]) is never entered. *)
Definition run_multi_agent_review (document_text : pystr) (doc_metadata : doc_metadata)
  : M editorial_result :=
  run log_system_message env (u "Orchestrator: Starting multi-agent review") then
  (* Phase 1: Run content, style, and link analysis in parallel *)
  let* content_result := run_content_analysis document_text doc_metadata in
  let* style_result := run_style_analysis document_text doc_metadata in
  let* link_result := run_link_validation document_text doc_metadata in
  (* Phase 2: Editorial synthesis *)
  let agent_reports := [content_result; style_result; link_result] in
  let* editorial_result := run_editorial_synthesis document_text doc_metadata agent_reports in
  run log_system_message env (u "Orchestrator: Multi-agent review completed") then
  ret editorial_result.

(** ** Analysis functions *)

(** The sentences of [text] with more than [threshold] words. *)
Definition long_sentences_over (threshold : nat) (text : pystr) : list pystr :=
  List.filter (fun s => (threshold <? length (py_split s))%nat) (re_split_sentences text).

(** Quick technical writing analysis. *)
Definition quick_analysis (text : pystr) : list pystr :=
  let issues : list pystr := [] in
  (* Check for passive voice *)
  let issues :=
    if re_search_ignorecase env (u "(should be|can be|will be)\s+\w+ed") text then
      issues ++ [u "⚠️ **Passive Voice**: Use active voice for clearer instructions"]
    else issues in
  (* Check for future tense *)
  let issues :=
    if re_search_ignorecase env (u "\bwill\s+\w+") text then
      issues ++ [u "⚠️ **Future Tense**: Use present tense ('returns' not 'will return')"]
    else issues in
  (* Check for filler words *)
  let fillers := [u "actually"; u "basically"; u "really"; u "very"] in
  let found_fillers :=
    List.filter (fun word => re_search_ignorecase env (u "\b" ++ word ++ u "\b") text) fillers in
  let issues :=
    match found_fillers with
    | [] => issues
    | _ => issues ++ [u "⚠️ **Wordiness**: Remove unnecessary words: "
                        ++ join (u ", ") found_fillers]
    end in
  (* Check for vague references *)
  let issues :=
    if re_search_ignorecase env (u "\b(the button|the link|the field)\b") text then
      issues ++ [u "⚠️ **Vague Reference**: Be specific ('Save button' not 'the button')"]
    else issues in
  (* Check sentence length *)
  let long_sentences := long_sentences_over 25 text in
  let issues :=
    match long_sentences with
    | [] => issues
    | _ => issues ++ [u "⚠️ **Long Sentences**: " ++ str_of_nat (length long_sentences)
                        ++ u " sentences over 25 words"]
    end in
  issues.

(** ** The handlers of [main] and the functions they call *)

(** The text the Quick Analysis button stores as the content of the
    result. *)
Definition main_quick_analysis (document_text : pystr) : pystr :=
  let issues := quick_analysis document_text in
  match issues with
  | [] => u "✅ **No immediate issues found!**"
  | _ =>
    fold_left (fun result issue => result ++ issue ++ nl ++ nl) issues
              (u "**Found " ++ str_of_nat (length issues) ++ u " issues:**" ++ nl ++ nl)
  end.

(** What [multi_agent_analysis] returns: a message, or the result object of
    the review. *)
Inductive analysis :=
| AnalysisMessage (message : pystr)
| AnalysisResult (result : editorial_result).

(** Multi-agent AI analysis using GitHub style guides.  [client] tells
    whether the module's [client] is set.  The metadata holds the title, the
    type, the author and the ISO form of [datetime.now()], of which the agents
    read the first two. *)
Definition multi_agent_analysis (client : bool) (text doc_title doc_type : pystr)
  : M analysis :=
  if negb client then
    ret (AnalysisMessage
           (u "❌ OpenAI API not configured. Add your API key to use AI analysis."))
  else
    run datetime_now env then
    let doc_metadata := {| md_title := Some doc_title; md_type := Some doc_type |} in
    let* result := run_multi_agent_review text doc_metadata in
    match result with
    | Review _ _ _ => ret (AnalysisResult result)
    | EditorialError _ error | OrchestratorError error =>
      ret (AnalysisMessage (u "❌ Multi-agent analysis error: " ++ error))
    end.

(** Extract link fixes from analysis if available: the loop over the agent
    reports of [generate_rewrite]. *)
Definition link_fixes_of (agent_reports : list agent_report) : pystr :=
  fold_left
    (fun link_fixes report =>
       match report with
       | Findings agent findings =>
         if bool_decide (agent = u "Link Validator")
            && contains (u "need attention") findings
            && contains (u "💡 **Suggestion:**") findings
         then u "

LINK FIXES REQUIRED:
" ++ findings
         else link_fixes
       | AgentError _ _ => link_fixes
       end)
    agent_reports [].

Definition rewrite_prompt (style_guide content_guide : option pystr)
  (link_fixes doc_title doc_type original_text feedback : pystr) : pystr :=
  u "
        You are a Technical Writer Agent specializing in document improvement.

        CRITICAL RULES: 
        1. Only improve the existing content - never add new information, examples, or sections
        2. Fix all broken/problematic links identified by the Link Validator
        3. Apply style guide standards to existing content only

        Rewriting principles:
        1. Apply all style guide standards to existing content only
        2. Fix content quality issues in current text
        3. Fix broken links with correct URLs
        4. Maintain technical accuracy of existing information
        5. Preserve author intent and scope exactly
        6. Ensure logical flow of existing content
        7. Only optimize existing text - no additions

        Style Guide:
        " ++ prefix_or 800 style_guide (u "Use standard technical writing principles") ++ u "
        
        Content Rules:
        " ++ prefix_or 800 content_guide (u "Focus on clarity and precision") ++ u "
        
        " ++ link_fixes ++ u "
        
        IMPORTANT: 
        - Improve only what exists
        - Fix any broken links identified above
        - Do not add new content, examples, or explanations

        Original Title: " ++ doc_title ++ u "
        Document Type: " ++ doc_type ++ u "
        
        Original Content: " ++ original_text ++ u "
        
        Editorial Guidance: " ++ feedback ++ u "
        
        Provide improved version of the EXACT SAME content with:
        - Better writing quality
        - Fixed broken links
        - No additional information
        ".

(** The link fixes [generate_rewrite] takes from [analysis_result], which is
    what the caller passes on from [multi_agent_analysis], or [None].  Of a
    result object the function reads the key [agent_reports] only; on a
    message that holds the word [agent_reports] the call of [get] raises
    ([inr], with the message of the exception). *)
Definition link_fixes_for (analysis_result : option analysis) : pystr + pystr :=
  match analysis_result with
  | Some (AnalysisResult (Review _ _ agent_reports)) => inl (link_fixes_of agent_reports)
  | Some (AnalysisMessage ((_ :: _) as message)) =>
    if contains (u "agent_reports") message
    then inr (u "'str' object has no attribute 'get'")
    else inl []
  | _ => inl []
  end.

Definition rewrite_request (prompt : pystr) : completion_request :=
  {| model := u "gpt-4";
     messages := [(u "user", prompt)];
     max_tokens := 2500;
     temperature := 0.1 |}.

(** Generate improved version using style guides and link fixes.  The result
    is the text the function returns. *)
Definition generate_rewrite (client : bool)
  (original_text doc_title doc_type feedback : pystr) (analysis_result : option analysis)
  : M pystr :=
  if negb client then
    ret (u "❌ OpenAI API not configured. Add your API key to use rewrite functionality.")
  else
    (* Fetch style guides for rewrite *)
    let* style_guide := fetch_documentation env (u "style_guide") in
    let* content_guide := fetch_documentation env (u "content_classification_guide") in
    (* Extract link fixes from analysis if available *)
    match link_fixes_for analysis_result with
    | inr e => ret (u "❌ Rewrite error: " ++ e)
    | inl link_fixes =>
      let prompt :=
        rewrite_prompt style_guide content_guide link_fixes doc_title doc_type
          original_text feedback in
      let* response := chat_completions_create_call env (rewrite_request prompt) in
      match response with
      | Completion content => ret content
      | APIException e => ret (u "❌ Rewrite error: " ++ e)
      end
    end.

(** [save_review] called with the result object of the analysis as
    [review_notes]: sqlite3 binds [None], numbers, strings and bytes, and
    raises on a dictionary, so the insert is never committed; the handler
    of [save_review] shows the error and the result is [False]. *)
Definition save_review_of_result (doc_type doc_title original_text : pystr)
  (review_notes : editorial_result) : M bool :=
  run datetime_now env then
  let* w := get_world in
  run put_world (set_store (editorial_reviews w) w) then
  ret false.

(** The AI Analysis + Rewrite button of [main], which is behind [if client]:
    the analysis, then the rewrite with the review as feedback, then the
    save.  The result is the pair stored in the session, or [None] when
    [analysis_result.get] raised because the analysis is a message. *)
Definition main_ai_analysis_rewrite (document_text doc_title doc_type : pystr)
  : M (option (editorial_result * pystr)) :=
  let* analysis_result := multi_agent_analysis true document_text doc_title doc_type in
  match analysis_result with
  | AnalysisMessage _ => ret None
  | AnalysisResult result =>
    let feedback :=
      match result with
      | Review _ review _ => review
      | _ => u "Analysis completed"
      end in
    let* rewrite :=
      generate_rewrite true document_text doc_title doc_type feedback
        (Some analysis_result) in
    (* Save to database *)
    run save_review_of_result doc_type doc_title document_text result then
    ret (Some (result, rewrite))
  end.

End WithEnv.
End Main.

(* ===================================================================== *)
(** * app.py *)
(* ===================================================================== *)

(** An entry of the list [analyze_technical_writing_issues] returns. *)
Record issue := {
  issue_type : pystr;
  priority : pystr;
  suggestion : pystr
}.

(** The dictionary [run_document_rewrite] returns. *)
Inductive rewrite_result :=
| ImprovedDraft (agent improved_draft : pystr)
| RewriteError (agent error : pystr).

(** The dictionary [handle_chat_question] returns. *)
Inductive chat_result :=
| Guidance (agent guidance : pystr)
| ChatError (agent error : pystr).

Module App.
Section WithEnv.
Variable env : Env.

(** Quick analysis for immediate feedback. *)
Definition analyze_technical_writing_issues (text : pystr) : list issue :=
  let issues : list issue := [] in
  (* Passive voice detection *)
  let passive_patterns :=
    [u "should be\s+\w+ed"; u "can be\s+\w+ed"; u "will be\s+\w+ed"] in
  let issues :=
    fold_left
      (fun issues pattern =>
         if re_search_ignorecase env pattern text then
           issues ++ [{| issue_type := u "Passive Voice";
                         priority := u "High";
                         suggestion := u "Use active voice in instructions" |}]
         else issues)
      passive_patterns issues in
  (* Future tense detection *)
  let issues :=
    if re_search_ignorecase env (u "\bwill\s+\w+") text then
      issues ++ [{| issue_type := u "Future Tense";
                    priority := u "Medium";
                    suggestion := u "Use present tense: 'returns' not 'will return'" |}]
    else issues in
  (* Wordiness detection *)
  let filler_words := [u "actually"; u "basically"; u "really"; u "very"] in
  let issues :=
    fold_left
      (fun issues word =>
         if re_search_ignorecase env (u "\b" ++ word ++ u "\b") text then
           issues ++ [{| issue_type := u "Wordiness";
                         priority := u "High";
                         suggestion := u "Remove unnecessary '" ++ word ++ u "'" |}]
         else issues)
      filler_words issues in
  (* Vague UI references *)
  let issues :=
    if re_search_ignorecase env (u "\bthe button\b|\bthe link\b|\bthe field\b") text then
      issues ++ [{| issue_type := u "Vague UI Reference";
                    priority := u "High";
                    suggestion :=
                      u "Specify UI elements: 'the Save button' not 'the button'" |}]
    else issues in
  issues.

(** Technical Writer Agent - rewrites document with improvements. *)
Definition run_document_rewrite (original_text : pystr) (doc_metadata : doc_metadata)
  (editorial_guidance : pystr) : M rewrite_result :=
  run log_system_message env (u "Technical Writer: Starting rewrite") then
  let* style_guide := fetch_documentation env (u "style_guide") in
  let* content_guide := fetch_documentation env (u "content_classification_guide") in
  let system_prompt :=
    u "
    You are a Technical Writer Agent specializing in document improvement.

    Rewriting principles:
    1. Apply all style guide standards
    2. Fix content quality issues  
    3. Maintain technical accuracy
    4. Preserve author intent
    5. Ensure logical flow
    6. Optimize for user experience

    Style Guide:
    " ++ prefix_or 800 style_guide [] ++ u "
    
    Content Rules:
    " ++ prefix_or 800 content_guide [] ++ u "
    
    Create a polished, professional version.
    " in
  let user_prompt :=
    u "
    Rewrite this document incorporating editorial feedback:
    
    ORIGINAL:
    " ++ original_text ++ u "
    
    EDITORIAL GUIDANCE:
    " ++ editorial_guidance ++ u "
    
    Document: " ++ get_or (md_title doc_metadata) (u "Untitled")
    ++ u " (" ++ get_or (md_type doc_metadata) (u "Unknown") ++ u ")
    
    Provide complete improved version addressing all issues.
    " in
  let* response := chat_completions_create_call env
    {| model := u "gpt-4";
       messages := [(u "system", system_prompt); (u "user", user_prompt)];
       max_tokens := 2500;
       temperature := 0.2 |} in
  match response with
  | Completion rewritten_draft =>
    run log_system_message env (u "Technical Writer: Rewrite completed") then
    ret (ImprovedDraft (u "Technical Writer") rewritten_draft)
  | APIException e =>
    run log_system_message env (u "Technical Writer: Error - " ++ e) then
    ret (RewriteError (u "Technical Writer") e)
  end.

(** The request [handle_chat_question] sends, from the reference material
    it gathered. *)
Definition chat_request (user_question : pystr) (context : option pystr)
  (reference_material : pystr) : completion_request :=
  let system_prompt :=
    u "
    You are a Chat Assistant Agent for technical writers.

    Expertise:
    1. Technical writing principles
    2. Style guide standards
    3. Content improvement techniques
    4. Documentation processes

    Reference Material:
    " ++ or_else reference_material (u "Using general technical writing knowledge") ++ u "
    
    Provide helpful, specific guidance.
    " in
  let user_prompt :=
    u "
    User Question: " ++ user_question ++ u "
    
    Context: " ++ prefix_or 300 context (u "General inquiry") ++ u "
    
    Provide helpful technical writing guidance.
    " in
  {| model := u "gpt-4";
     messages := [(u "system", system_prompt); (u "user", user_prompt)];
     max_tokens := 800;
     temperature := 0.3 |}.

(** Fetch relevant docs based on question. *)
Definition docs_for_question (user_question : pystr) : list pystr :=
  let docs_to_fetch : list pystr := [] in
  let docs_to_fetch :=
    if existsb (fun word => contains word (lower user_question))
               [u "style"; u "format"; u "voice"; u "tense"]
    then docs_to_fetch ++ [u "style_guide"] else docs_to_fetch in
  let docs_to_fetch :=
    if existsb (fun word => contains word (lower user_question))
               [u "content"; u "clarity"; u "wordiness"]
    then docs_to_fetch ++ [u "content_classification_guide"] else docs_to_fetch in
  docs_to_fetch.

(** Chat Assistant Agent - handles user questions. *)
Definition handle_chat_question (user_question : pystr) (context : option pystr)
  : M chat_result :=
  run log_system_message env (u "Chat Assistant: Answering question") then
  let docs_to_fetch := docs_for_question user_question in
  let* reference_material :=
    for_each docs_to_fetch []
      (fun reference_material doc_key =>
         let* content := fetch_documentation env doc_key in
         match content with
         | Some ((_ :: _) as content) =>
           ret (reference_material ++ doc_key ++ u ": " ++ slice_to 600 content ++ nl ++ nl)
         | _ => ret reference_material
         end) in
  let* response := chat_completions_create_call env
    (chat_request user_question context reference_material) in
  match response with
  | Completion guidance =>
    run log_system_message env (u "Chat Assistant: Response provided") then
    ret (Guidance (u "Chat Assistant") guidance)
  | APIException e =>
    run log_system_message env (u "Chat Assistant: Error - " ++ e) then
    ret (ChatError (u "Chat Assistant") e)
  end.

Definition rewrite_keywords : list pystr :=
  [u "rewrite"; u "yes, rewrite"; u "yes please"; u "go ahead"; u "yes, go ahead";
   u "create new version"; u "improve draft"].

Definition is_rewrite_request (user_input : pystr) : bool :=
  existsb (fun keyword => contains keyword (lower user_input)) rewrite_keywords.

Definition append_message (r content : pystr) : M unit :=
  fun w => (tt, set_session_messages
                  (fun l => l ++ [{| role := r; msg_content := content |}]) w).

(** The heading literals of the two replies, as the file holds them. *)
Definition improved_draft_heading : pystr :=
  [35; 35; 32; 226; 339; 239; 184]%N ++ u " Improved Draft".
Definition improvements_heading : pystr :=
  [35; 35; 35; 32; 240; 376; 8221; 8222]%N ++ u " Improvements Applied:".
Definition assistant_heading : pystr :=
  [35; 35; 32; 240; 376; 8217; 172]%N ++ u " Assistant Response".

(** The chat input of [main]: the block under [if user_input], with the
    text area's [document_text].  It returns the reply it appended to the
    messages. *)
Definition main_chat_input (user_input document_text : pystr) : M pystr :=
  run append_message (u "user") user_input then
  (* Check for rewrite request *)
  let is_rewrite_request := is_rewrite_request user_input in
  let* w := get_world in
  let* response :=
    match is_rewrite_request, document_text, last_review w with
    | true, _ :: _, Some review =>
      (* Handle rewrite request *)
      let* rewrite_result :=
        run_document_rewrite document_text
          (get_or (document_metadata w) {| md_title := None; md_type := None |})
          review in
      match rewrite_result with
      | ImprovedDraft _ improved_draft =>
        ret (improved_draft_heading ++ nl ++ nl ++ improved_draft ++ u "

---

" ++ improvements_heading ++ u "
- Fixed clarity and structure issues
- Applied style guide rules (voice, tense, formatting)
- Coordinated overall improvements
- Rewrote for professional quality

You can copy this improved version or ask for specific adjustments!")
      | RewriteError _ error =>
        ret (u "I apologize, but there was an error with the rewrite: " ++ error)
      end
    | _, _, _ =>
      (* Handle regular chat question *)
      let* chat_result :=
        handle_chat_question user_input
          (match document_text with [] => None | _ => Some (slice_to 500 document_text) end) in
      match chat_result with
      | Guidance _ guidance => ret (assistant_heading ++ nl ++ nl ++ guidance)
      | ChatError _ error => ret (u "I apologize, but there was an error: " ++ error)
      end
    end in
  run append_message (u "assistant") response then
  ret response.

(** ** The agents of the full review *)

(** Content Analyzer Agent - analyzes content quality issues. *)
Definition run_content_analysis (document_text : pystr) (doc_metadata : doc_metadata)
  : M agent_report :=
  run log_system_message env (u "Content Analyzer: Starting analysis") then
  let* content_guide := fetch_documentation env (u "content_classification_guide") in
  let system_prompt :=
    u "
    You are a Content Analyzer Agent specializing in technical documentation quality.

    Focus on identifying:
    1. Wordiness and filler text
    2. Vague language and unclear references  
    3. Missing context and logical gaps
    4. Abstract content lacking visualization
    5. Redundant information
    6. Missing outcomes and value statements

    Content Guide Reference:
    " ++ prefix_or 1500 content_guide (u "Guide not available") ++ u "

    Provide specific examples and actionable suggestions.
    " in
  let user_prompt :=
    u "
    Analyze this " ++ get_or (md_type doc_metadata) (u "document") ++ u " for content quality issues:
    
    Title: " ++ get_or (md_title doc_metadata) (u "Untitled") ++ u "
    
    Content:
    " ++ document_text ++ u "
    
    Focus on clarity, precision, and reader comprehension.
    " in
  let* response := chat_completions_create_call env
    {| model := u "gpt-4";
       messages := [(u "system", system_prompt); (u "user", user_prompt)];
       max_tokens := 1000;
       temperature := 0.2 |} in
  match response with
  | Completion analysis =>
    run log_system_message env (u "Content Analyzer: Analysis completed") then
    ret (Findings (u "Content Analyzer") analysis)
  | APIException e =>
    run log_system_message env (u "Content Analyzer: Error - " ++ e) then
    ret (AgentError (u "Content Analyzer") e)
  end.

(** Style Guide Agent - checks style compliance. *)
Definition run_style_analysis (document_text : pystr) (doc_metadata : doc_metadata)
  : M agent_report :=
  run log_system_message env (u "Style Guide Enforcer: Starting compliance check") then
  let* style_guide := fetch_documentation env (u "style_guide") in
  let system_prompt :=
    u "
    You are a Style Guide Enforcer Agent specializing in technical writing standards.

    Check for:
    1. Active vs passive voice
    2. Present tense usage
    3. Sentence length (max 26 words)
    4. UI element specifications
    5. Capitalization and formatting
    6. Grammar and punctuation

    Style Guide Reference:
    " ++ prefix_or 1500 style_guide (u "Guide not available") ++ u "

    Identify specific violations with corrections.
    " in
  let user_prompt :=
    u "
    Check this " ++ get_or (md_type doc_metadata) (u "document") ++ u " for style guide compliance:
    
    Title: " ++ get_or (md_title doc_metadata) (u "Untitled") ++ u "
    
    Content:
    " ++ document_text ++ u "
    
    Focus on voice, tense, and formatting standards.
    " in
  let* response := chat_completions_create_call env
    {| model := u "gpt-4";
       messages := [(u "system", system_prompt); (u "user", user_prompt)];
       max_tokens := 1000;
       temperature := 0.1 |} in
  match response with
  | Completion compliance_check =>
    run log_system_message env (u "Style Guide Enforcer: Check completed") then
    ret (Findings (u "Style Guide Enforcer") compliance_check)
  | APIException e =>
    run log_system_message env (u "Style Guide Enforcer: Error - " ++ e) then
    ret (AgentError (u "Style Guide Enforcer") e)
  end.

Definition synthesis_system_prompt : pystr :=
  u "
    You are a Senior Editor Agent coordinating technical documentation review.

    Responsibilities:
    1. Synthesize findings from specialist agents
    2. Prioritize issues by impact
    3. Provide clear, actionable recommendations
    4. Create comprehensive editorial guidance
    5. Ask if user wants a rewritten draft

    Create a professional review combining all specialist insights.
    ".

(** The loop that combines the agent reports is the one of main.py. *)
Definition synthesis_user_prompt (document_text : pystr) (doc_metadata : doc_metadata)
  (agent_reports : list agent_report) : pystr :=
  let combined_findings := Main.combine_findings agent_reports in
  u "
    Create comprehensive editorial review based on specialist agent reports:
    
    Document: " ++ get_or (md_title doc_metadata) (u "Untitled") ++ u " (" ++ get_or (md_type doc_metadata) (u "Unknown") ++ u ")
    
    SPECIALIST FINDINGS:
    " ++ combined_findings ++ u "
    
    DOCUMENT PREVIEW:
    " ++ slice_to 800 document_text ++ u "...
    
    Provide:
    1. Executive summary
    2. Priority issues
    3. Specific improvements
    4. Overall assessment
    5. Ask if user wants rewritten draft
    ".

Definition synthesis_request (document_text : pystr) (doc_metadata : doc_metadata)
  (agent_reports : list agent_report) : completion_request :=
  {| model := u "gpt-4";
     messages := [(u "system", synthesis_system_prompt);
                  (u "user", synthesis_user_prompt document_text doc_metadata agent_reports)];
     max_tokens := 1500;
     temperature := 0.3 |}.

(** Senior Editor Agent - synthesizes all agent findings. *)
Definition run_editorial_synthesis (document_text : pystr) (doc_metadata : doc_metadata)
  (agent_reports : list agent_report) : M editorial_result :=
  run log_system_message env (u "Senior Editor: Synthesizing review") then
  let* response := chat_completions_create_call env
    (synthesis_request document_text doc_metadata agent_reports) in
  match response with
  | Completion editorial_review =>
    run log_system_message env (u "Senior Editor: Review completed") then
    ret (Review (u "Senior Editor") editorial_review agent_reports)
  | APIException e =>
    run log_system_message env (u "Senior Editor: Error - " ++ e) then
    ret (EditorialError (u "Senior Editor") e)
  end.

(** [st.session_state['last_review'] = review] *)
Definition set_last_review (review : pystr) : M unit :=
  fun w =>
    (tt, {| DOCS_CACHE := DOCS_CACHE w; system_logs := system_logs w;
            clock_reads := clock_reads w; link_requests := link_requests w;
            docs_requests := docs_requests w; completions := completions w;
            editorial_reviews := editorial_reviews w;
            store_transactions := store_transactions w;
            last_review := Some review;
            session_messages := session_messages w;
            document_metadata := document_metadata w |}).

(** Run full multi-agent document review.  The two coroutines of phase 1
    hold no [await], so [asyncio.gather] runs them one after the other, in
    the order they were given, and no step raises, so the handler that
    returns [{"error": ...}] is never entered.  Of the three keys stored for
    a rewrite the program reads [last_review] only; [last_document] and
    [agent_reports] are written here and deleted by New Session, and are not
    part of the state. *)
Definition run_multi_agent_review (document_text : pystr) (doc_metadata : doc_metadata)
  : M editorial_result :=
  run log_system_message env (u "Orchestrator: Starting multi-agent review") then
  (* Phase 1: Run content and style analysis in parallel *)
  let* content_result := run_content_analysis document_text doc_metadata in
  let* style_result := run_style_analysis document_text doc_metadata in
  (* Phase 2: Editorial synthesis *)
  let agent_reports := [content_result; style_result] in
  let* editorial_result := run_editorial_synthesis document_text doc_metadata agent_reports in
  run log_system_message env (u "Orchestrator: Multi-agent review completed") then
  (* Store for potential rewrite *)
  run match editorial_result with
      | Review _ review _ => set_last_review review
      | _ => ret tt
      end then
  ret editorial_result.

(** The New Session button of the sidebar: the keys of the session are
    deleted ([last_document] and [agent_reports], which nothing reads, are
    not part of the state), and [main] puts the empty list of messages back
    at its next run. *)
Definition new_session : M unit :=
  fun w =>
    (tt, {| DOCS_CACHE := DOCS_CACHE w; system_logs := system_logs w;
            clock_reads := clock_reads w; link_requests := link_requests w;
            docs_requests := docs_requests w; completions := completions w;
            editorial_reviews := editorial_reviews w;
            store_transactions := store_transactions w;
            last_review := None;
            session_messages := [];
            document_metadata := None |}).

End WithEnv.
End App.

(* ===================================================================== *)
(** * Vocabulary of the statements *)
(* ===================================================================== *)

(** [needle] occurs in [hay]. *)
Definition substring (needle hay : pystr) : Prop :=
  exists pre post, hay = pre ++ needle ++ post.

(** The computation [c] leaves the component [f] of the state as it is. *)
Definition preserves {A B} (f : World -> B) (c : M A) : Prop :=
  forall w, f (snd (c w)) = f w.

(** The test of the loop of [run_link_validation]. *)
Definition is_working (r : link_result) : bool :=
  startswith (u "✅") (r_status r).

(** What the checks of [urls], one after the other, return when [k] link
    requests were made before. *)
Fixpoint link_results (env : Env) (k : nat) (urls : list pystr) : list link_result :=
  match urls with
  | [] => []
  | url :: rest =>
    Main.link_result_of url (urlopen env k url) :: link_results env (S k) rest
  end.

(** ** Sample inputs *)

(** The state of a process that has just started. *)
Definition fresh_world : World :=
  {| DOCS_CACHE := ∅; system_logs := []; clock_reads := 0;
     link_requests := []; docs_requests := []; completions := [];
     editorial_reviews := []; store_transactions := 0;
     last_review := None; session_messages := []; document_metadata := None |}.

(** An environment in which the services answer: a link with [missing] in
    it is not found, one with [created] in it answers 201, any other answers
    200. *)
Definition sample_env : Env :=
  {| clock := fun k => inject_Z (1700000000 + Z.of_nat k);
     strftime := fun _ _ => u "2023-11-14 22:13:20";
     urlopen := fun _ url =>
       if contains (u "missing") url then HTTPError 404
       else if contains (u "created") url then Response 201
       else Response 200;
     requests_get := fun _ _ => ResponseText (u "# Guide");
     chat_completions_create := fun _ _ => Completion (u "Looks good.");
     sqlite_fault := fun _ => None;
     re_search_ignorecase := fun _ _ => false |}.

(** An environment in which the network is down: every request raises. *)
Definition outage_env : Env :=
  {| clock := fun k => inject_Z (1700000000 + Z.of_nat k);
     strftime := fun _ _ => u "2023-11-14 22:13:20";
     urlopen := fun _ _ =>
       OtherException (u "<urlopen error [Errno 111] Connection refused>");
     requests_get := fun _ _ => RequestException (u "Connection refused");
     chat_completions_create := fun _ _ => APIException (u "Connection error.");
     sqlite_fault := fun _ => None;
     re_search_ignorecase := fun _ _ => false |}.

Definition sample_metadata : doc_metadata :=
  {| md_title := Some (u "API Integration Guide"); md_type := Some (u "User Guide") |}.

Definition two_links_text : pystr :=
  u "Docs: https://api.example.com/docs and https://example.com/missing (old)".

(** ** The 404 suggestion as the specification words it

    The three URL shapes are alternatives tried in order, the first being
    a code-hosting host together with a blob segment in the path; the two
    general lines follow in every case. *)
Definition suggest_404_fixes_as_specified (url : pystr) : pystr :=
  let parsed := urlparse url in
  let domain := netloc parsed in
  let path := path parsed in
  let by_shape : list pystr :=
    if contains (u "github.com") domain && contains (u "/blob/") path then
      [u "• Repository may have moved - check if it was renamed or transferred";
       u "• Branch may have changed (master → main)";
       u "• Try archive: https://web.archive.org/web/" ++ url]
    else if existsb (fun doc_site => contains doc_site domain)
                    [u "docs."; u "documentation."; u "wiki."] then
      [u "• Documentation may have been restructured - check site's search";
       u "• Try removing version numbers from URL path"]
    else if contains (u "/api/") path
            || existsb (fun api_term => contains api_term path)
                       [u "/v1/"; u "/v2/"; u "/rest/"] then
      [u "• API version may have changed - check for newer versions";
       u "• Endpoint may have been deprecated - check API changelog"]
    else [] in
  join nl (by_shape
           ++ [u "• Check site manually: " ++ scheme parsed ++ u "://" ++ domain;
               u "• Search archive: https://web.archive.org/web/" ++ url]).

(** The two general lines of a 404 suggestion. *)
Definition general_suggestions (url : pystr) : list pystr :=
  [u "• Check site manually: " ++ scheme (urlparse url) ++ u "://" ++ netloc (urlparse url);
   u "• Search archive: https://web.archive.org/web/" ++ url].

(** One sentence of thirty words. *)
Definition thirty_words : pystr :=
  u "one two three four five six seven eight nine ten one two three four five six seven eight nine ten one two three four five six seven eight nine ten.".

(** The entry [quick_analysis] adds for [n] long sentences. *)
Definition long_sentences_entry (n : nat) : pystr :=
  u "⚠️ **Long Sentences**: " ++ str_of_nat n ++ u " sentences over 25 words".

(** A process whose cache holds the style guide, fetched a thousand seconds
    before the clock of [sample_env] is first read. *)
Definition cached_world : World :=
  set_DOCS_CACHE
    (insert (u "style_guide")
            {| ce_content := u "# Style guide"; ce_timestamp := 1699999000 |})
    fresh_world.

(** The rows are in descending order of their timestamps. *)
Definition timestamp_desc (rows : list review_row) : Prop :=
  StronglySorted
    (fun a b => Main.str_leb (row_timestamp b) (row_timestamp a) = true) rows.

(** The reports of a phase 1 in which every agent failed. *)
Definition three_failed_reports : list agent_report :=
  [AgentError (u "Content Analyzer") (u "Connection error.");
   AgentError (u "Style Guide Enforcer") (u "Connection error.");
   AgentError (u "Link Validator") (u "Link validation failed: timed out")].

(** The cache holds an entry for the key that is less than [CACHE_EXPIRY]
    old at the next reading of the clock. *)
Definition has_fresh_entry (env : Env) (w : World) (doc_key : pystr) : bool :=
  match DOCS_CACHE w !! doc_key with
  | Some entry => Qltb (clock env (clock_reads w) - ce_timestamp entry) CACHE_EXPIRY
  | None => false
  end.

(** An environment like [sample_env] whose clock advances by 4000 seconds
    from one reading to the next. *)
Definition slow_clock_env : Env :=
  {| clock := fun k => inject_Z (1700000000 + 4000 * Z.of_nat k);
     strftime := strftime sample_env;
     urlopen := urlopen sample_env;
     requests_get := requests_get sample_env;
     chat_completions_create := chat_completions_create sample_env;
     sqlite_fault := sqlite_fault sample_env;
     re_search_ignorecase := re_search_ignorecase sample_env |}.

(** The parts of the state the agents of phase 1 share: the requests to the
    model and the requests to the links. *)
Definition calls (w : World) : list completion_request * list pystr :=
  (completions w, link_requests w).

(** The findings of the link validator for [document_text] when [k] link
    requests were made before. *)
Definition link_validator_findings (env : Env) (k : nat) (document_text : pystr) : pystr :=
  let urls := findall_urls document_text in
  let results := link_results env k urls in
  match urls with
  | [] => u "✅ **No external links found** - Nothing to validate."
  | _ => Main.format_findings urls (List.filter is_working results)
           (List.filter (fun r => negb (is_working r)) results)
  end.


(** Every link of the document answers 200, when [k] link requests were made
    before. *)
Definition all_links_work (env : Env) (k : nat) (document_text : pystr) : bool :=
  forallb is_working (link_results env k (findall_urls document_text)).

(** [report['agent']] *)
Definition report_agent (report : agent_report) : pystr :=
  match report with
  | Findings agent _ => agent
  | AgentError agent _ => agent
  end.

(** The parts of the state a handler of main.py can change for the user: the
    requests it sent and the rows of the table. *)
Definition effects (w : World)
  : (list completion_request * list pystr) * list review_row :=
  (calls w, editorial_reviews w).

(** The report of the content analyzer, from what its request gave as the
    [k]-th request to the model; likewise for the style enforcer. *)
Definition content_report (env : Env) (k : nat) (request : completion_request)
  : agent_report :=
  match chat_completions_create env k request with
  | Completion analysis => Findings (u "Content Analyzer") analysis
  | APIException e => AgentError (u "Content Analyzer") e
  end.

Definition style_report (env : Env) (k : nat) (request : completion_request)
  : agent_report :=
  match chat_completions_create env k request with
  | Completion compliance_check => Findings (u "Style Guide Enforcer") compliance_check
  | APIException e => AgentError (u "Style Guide Enforcer") e
  end.

(** The three reports of phase 1 of main.py, from the state the review
    starts in and the requests of the two model agents. *)
Definition phase1_reports (env : Env) (w : World) (document_text : pystr)
  (content_request style_request : completion_request) : list agent_report :=
  [content_report env (length (completions w)) content_request;
   style_report env (S (length (completions w))) style_request;
   Findings (u "Link Validator")
     (link_validator_findings env (length (link_requests w)) document_text)].


(** The requests sent and the review kept in the session of app.py. *)
Definition review_state (w : World)
  : (list completion_request * list pystr) * option pystr :=
  (calls w, last_review w).

(** [result.get('review')] *)
Definition result_review (result : editorial_result) : option pystr :=
  match result with
  | Review _ review _ => Some review
  | _ => None
  end.


(** The test of the chat input of app.py: a rewrite phrase, a document in
    the text area and a review in the session. *)
Definition takes_rewrite_branch (user_input document_text : pystr) (w : World) : bool :=
  App.is_rewrite_request user_input
  && match document_text with [] => false | _ => true end
  && match last_review w with Some _ => true | None => false end.


(** The cache and the documentation requests sent. *)
Definition docs (w : World) : gmap (list N) cache_entry * list pystr :=
  (DOCS_CACHE w, docs_requests w).

(** The cache holds every guide of [DOCUMENTATION_URLS], each less than
    [CACHE_EXPIRY] old at every reading of the clock. *)
Definition warm_cache (env : Env) (d : gmap (list N) cache_entry * list pystr) : Prop :=
  forall doc_key, In doc_key (map fst DOCUMENTATION_URLS) ->
    exists entry,
      fst d !! doc_key = Some entry
      /\ forall k, (clock env k - ce_timestamp entry < CACHE_EXPIRY)%Q.

(** The computation [c] leaves the component [f] of the state as it is, from
    a state in which [P] holds of it. *)
Definition preserves_if {A B} (P : B -> Prop) (f : World -> B) (c : M A) : Prop :=
  forall w, P (f w) -> f (snd (c w)) = f w.

(** An environment like [sample_env] whose clock stands still, and a process
    that fetched the five guides a minute before. *)
Definition frozen_clock_env : Env :=
  {| clock := fun _ => inject_Z 1700000000;
     strftime := strftime sample_env;
     urlopen := urlopen sample_env;
     requests_get := requests_get sample_env;
     chat_completions_create := chat_completions_create sample_env;
     sqlite_fault := sqlite_fault sample_env;
     re_search_ignorecase := re_search_ignorecase sample_env |}.

Definition warm_world : World :=
  set_DOCS_CACHE
    (fun _ =>
       list_to_map
         (map (fun '(doc_key, _) =>
                 (doc_key, {| ce_content := u "# Guide"; ce_timestamp := 1699999940 |}))
              DOCUMENTATION_URLS))
    fresh_world.


(** The characters that end the host of a URL. *)
Definition is_delim (c : N) : bool := is_char "/" c || is_char "?" c || is_char "#" c.


(* ===================================================================== *)
(** * The embedding on concrete inputs *)
(* ===================================================================== *)

Example u_working : u "✅ Working" = [9989; 32; 87; 111; 114; 107; 105; 110; 103]%N.
Proof. reflexivity. Qed.

Example str_of_Z_404 : str_of_Z 404 = u "404".
Proof. reflexivity. Qed.

Example str_of_Z_neg : str_of_Z (-7) = u "-7".
Proof. reflexivity. Qed.

Example str_of_Z_0 : str_of_Z 0 = u "0".
Proof. reflexivity. Qed.

Example findall_two :
  findall_urls (u "see https://a.io/x) and (http://b.org/y?q=1#f> or http:// no")
  = [u "https://a.io/x"; u "http://b.org/y?q=1#f"].
Proof. reflexivity. Qed.

Example findall_nested :
  findall_urls (u "http://a.io/http://b.io http://a.io") = [u "http://a.io/http://b.io"; u "http://a.io"].
Proof. reflexivity. Qed.

Example re_split_ex :
  re_split_sentences (u "Hi there. Really?! yes") = [u "Hi there"; u " Really"; u " yes"].
Proof. reflexivity. Qed.

Example re_split_edges :
  re_split_sentences (u ".a.") = [[]; u "a"; []] /\ re_split_sentences [] = [[]].
Proof. split; reflexivity. Qed.

Example py_split_ex : py_split (u "  one two   three ") = [u "one"; u "two"; u "three"].
Proof. reflexivity. Qed.

Example urlparse_blob :
  urlparse (u "https://github.com/o/r/blob/master/a.md?x=1#top")
  = {| scheme := u "https"; netloc := u "github.com"; path := u "/o/r/blob/master/a.md" |}.
Proof. reflexivity. Qed.

Example urlparse_bare :
  urlparse (u "http://docs.example.com")
  = {| scheme := u "http"; netloc := u "docs.example.com"; path := [] |}.
Proof. reflexivity. Qed.

Example urlparse_params :
  urlparse (u "http://h.io/a;b/c;d;e?q")
  = {| scheme := u "http"; netloc := u "h.io"; path := u "/a;b/c" |}.
Proof. reflexivity. Qed.

Example warning_sign : u "⚠️" = [9888; 65039]%N.
Proof. reflexivity. Qed.

Example suggest_404_blob :
  Main.suggest_404_fixes (u "https://github.com/o/r/blob/master/a.md")
  = u "• Repository may have moved - check if it was renamed or transferred
• Branch may have changed (master → main)
• Try archive: https://web.archive.org/web/https://github.com/o/r/blob/master/a.md
• Check site manually: https://github.com
• Search archive: https://web.archive.org/web/https://github.com/o/r/blob/master/a.md".
Proof. reflexivity. Qed.

(* ===================================================================== *)
(** * Strings and patterns: what the functions compute *)
(* ===================================================================== *)

Lemma startswith_spec (p s : pystr) :
  startswith p s = true <-> exists t, s = p ++ t.
Proof.
  revert s. induction p as [|a p IH]; intros s; simpl.
  - split; [intros _; exists s; reflexivity | reflexivity].
  - destruct s as [|b s]; simpl.
    + split; [discriminate | intros [t Ht]; discriminate].
    + rewrite andb_true_iff, N.eqb_eq, IH. split.
      * intros [-> [t ->]]. exists t. reflexivity.
      * intros [t Ht]. injection Ht as -> ->. split; [reflexivity | eauto].
Qed.

Lemma contains_spec (needle hay : pystr) :
  contains needle hay = true <-> substring needle hay.
Proof.
  unfold substring. induction hay as [|c hay IH].
  - simpl. rewrite orb_false_r, startswith_spec. split.
    + intros [t Ht]. exists [], t. exact Ht.
    + intros [pre [post H]]. destruct pre; [exists post; exact H | discriminate].
  - cbn [contains]. rewrite orb_true_iff, startswith_spec, IH. split.
    + intros [[t Ht] | [pre [post H]]].
      * exists [], t. exact Ht.
      * exists (c :: pre), post. simpl. rewrite H. reflexivity.
    + intros [pre [post H]]. destruct pre as [|d pre].
      * left. exists post. exact H.
      * right. injection H as -> H. exists pre, post. exact H.
Qed.

Lemma contains_false (needle hay : pystr) :
  contains needle hay = false <-> ~ substring needle hay.
Proof.
  rewrite <- contains_spec. destruct (contains needle hay); split; congruence.
Qed.

Lemma Qltb_spec (x y : Q) : Qltb x y = true <-> (x < y)%Q.
Proof. unfold Qltb, Qlt. apply Z.ltb_lt. Qed.

(** ** The URL pattern *)

Lemma take_url_chars_all (s : pystr) : forallb url_char (take_url_chars s) = true.
Proof.
  induction s as [|c s IH]; simpl; [reflexivity|].
  destruct (url_char c) eqn:E; simpl; [rewrite E; exact IH | reflexivity].
Qed.

Lemma take_url_chars_prefix (s : pystr) :
  exists post, s = take_url_chars s ++ post.
Proof.
  induction s as [|c s [post IH]]; simpl; [exists []; reflexivity|].
  destruct (url_char c).
  - exists post. simpl. rewrite <- IH. reflexivity.
  - exists (c :: s). reflexivity.
Qed.

(** A match anchored at the start of a text is a prefix of the text and
    matches the pattern. *)
Lemma match_url_sound (text url : pystr) :
  match_url text = Some url -> url_pattern url /\ exists post, text = url ++ post.
Proof.
  unfold match_url.
  assert (Hgen : forall prefix,
            startswith prefix text = true ->
            match take_url_chars (skipn (length prefix) text) with
            | [] => None
            | body => Some (prefix ++ body)
            end = Some url ->
            exists body post, body <> [] /\ forallb url_char body = true /\
                              url = prefix ++ body /\ text = url ++ post).
  { intros prefix Hp Hm. apply startswith_spec in Hp as [t ->].
    rewrite skipn_app, Nat.sub_diag, skipn_all, skipn_O in Hm. simpl in Hm.
    pose proof (take_url_chars_all t) as Hall.
    destruct (take_url_chars_prefix t) as [post Hpost].
    destruct (take_url_chars t) as [|b body] eqn:E; [discriminate|].
    injection Hm as <-. exists (b :: body), post.
    repeat split; [discriminate | exact Hall |].
    rewrite <- app_assoc, <- Hpost. reflexivity. }
  destruct (startswith (u "https://") text) eqn:E1.
  - intros H. destruct (Hgen _ E1 H) as (body & post & Hne & Hall & -> & ->).
    split; [exists body; auto | exists post; reflexivity].
  - destruct (startswith (u "http://") text) eqn:E2; [|discriminate].
    intros H. destruct (Hgen _ E2 H) as (body & post & Hne & Hall & -> & ->).
    split; [exists body; auto | exists post; reflexivity].
Qed.

(** Wherever a string that matches the pattern starts, the anchored match
    succeeds. *)
Lemma match_url_complete (s post : pystr) :
  url_pattern s -> exists url, match_url (s ++ post) = Some url.
Proof.
  intros (body & Hne & Hall & Hs).
  destruct body as [|b body]; [congruence|].
  simpl in Hall. apply andb_true_iff in Hall as [Hb _].
  destruct Hs as [-> | ->]; unfold match_url.
  - change (startswith (u "https://") ((u "http://" ++ b :: body) ++ post)) with false.
    change (startswith (u "http://") ((u "http://" ++ b :: body) ++ post)) with true.
    change (skipn (length (u "http://")) ((u "http://" ++ b :: body) ++ post))
      with (b :: body ++ post).
    cbn [take_url_chars]. rewrite Hb. eauto.
  - change (startswith (u "https://") ((u "https://" ++ b :: body) ++ post)) with true.
    change (skipn (length (u "https://")) ((u "https://" ++ b :: body) ++ post))
      with (b :: body ++ post).
    cbn [take_url_chars]. rewrite Hb. eauto.
Qed.

(** Every string [re.findall] yields occurs in the text and matches the
    pattern. *)
Lemma findall_from_sound (text : pystr) :
  forall skip url, In url (findall_from skip text) ->
    url_pattern url /\ substring url text.
Proof.
  induction text as [|c text IH]; intros skip url Hin; [contradiction|].
  assert (Hrest : forall k, In url (findall_from k text) ->
                            url_pattern url /\ substring url (c :: text)).
  { intros k Hk. destruct (IH _ _ Hk) as [Hp (pre & post & ->)].
    split; [exact Hp | exists (c :: pre), post; reflexivity]. }
  cbn [findall_from] in Hin. destruct skip as [|k]; [|eauto].
  destruct (match_url (c :: text)) as [m|] eqn:E; [|eauto].
  destruct Hin as [<- | Hin]; [|eauto].
  apply match_url_sound in E as [Hp [post Hpost]].
  split; [exact Hp | exists [], post; exact Hpost].
Qed.

Lemma findall_from_nonempty (pre rest : pystr) :
  (exists url, match_url rest = Some url) ->
  findall_from 0 (pre ++ rest) <> [].
Proof.
  intros [url Hm]. induction pre as [|c pre IH]; simpl.
  - destruct rest as [|c rest]; [discriminate Hm|].
    cbn [findall_from]. rewrite Hm. discriminate.
  - destruct (match_url (c :: pre ++ rest)); [discriminate | exact IH].
Qed.

(** [re.findall] finds nothing exactly when no substring of the text
    matches the pattern. *)
Lemma findall_urls_nil_iff (text : pystr) :
  findall_urls text = [] <->
  ~ exists s, url_pattern s /\ substring s text.
Proof.
  unfold findall_urls. split.
  - intros Hnil (s & Hp & pre & post & ->).
    apply (findall_from_nonempty pre (s ++ post)); [|exact Hnil].
    apply match_url_complete. exact Hp.
  - intros Hno. destruct (findall_from 0 text) as [|url l] eqn:E; [reflexivity|].
    exfalso. apply Hno. exists url. apply (findall_from_sound text 0).
    rewrite E. left. reflexivity.
Qed.

(* ===================================================================== *)
(** * What a computation leaves untouched *)
(* ===================================================================== *)

Lemma preserves_ret {A B} (f : World -> B) (a : A) : preserves f (ret a).
Proof. intros w. reflexivity. Qed.

Lemma preserves_bind {A B C} (f : World -> C) (c : M A) (k : A -> M B) :
  preserves f c -> (forall a, preserves f (k a)) -> preserves f (bind c k).
Proof.
  intros Hc Hk w. unfold bind. destruct (c w) as [a w'] eqn:E.
  rewrite Hk. specialize (Hc w). rewrite E in Hc. exact Hc.
Qed.

Lemma preserves_get_world {B} (f : World -> B) : preserves f get_world.
Proof. intros w. reflexivity. Qed.

Lemma preserves_for_each {A S B} (f : World -> B) (xs : list A) (body : S -> A -> M S) :
  (forall acc x, preserves f (body acc x)) ->
  forall acc, preserves f (for_each xs acc body).
Proof.
  intros Hbody. induction xs as [|x xs IH]; intros acc; simpl.
  - apply preserves_ret.
  - apply preserves_bind; [apply Hbody | intros a; apply IH].
Qed.

(** The log touches the clock and the log only. *)
Lemma log_preserves_network env message :
  preserves link_requests (log_system_message env message) /\
  preserves docs_requests (log_system_message env message) /\
  preserves completions (log_system_message env message) /\
  preserves DOCS_CACHE (log_system_message env message).
Proof. repeat split; intros w; reflexivity. Qed.

Lemma log_preserves_session env message :
  preserves last_review (log_system_message env message) /\
  preserves editorial_reviews (log_system_message env message) /\
  preserves store_transactions (log_system_message env message) /\
  preserves session_messages (log_system_message env message).
Proof. repeat split; intros w; reflexivity. Qed.

Ltac frame_step :=
  first
    [ apply preserves_ret
    | apply preserves_get_world
    | apply log_preserves_network
    | apply log_preserves_session
    | apply preserves_bind; [|intros ?]
    | apply preserves_for_each; intros ? ?
    | match goal with
      | |- preserves _ (match ?x with _ => _ end) => destruct x
      | |- preserves _ (if ?x then _ else _) => destruct x
      | |- preserves _ (let '(_, _) := ?x in _) => destruct x
      end ].

Ltac frame := repeat frame_step; try (intros ?; reflexivity).

(* ===================================================================== *)
(** * The link validator *)
(* ===================================================================== *)

Lemma set_link_requests_twice (f g : list pystr -> list pystr) (w : World) :
  set_link_requests g (set_link_requests f w) = set_link_requests (fun l => g (f l)) w.
Proof. reflexivity. Qed.

Lemma set_link_requests_ext (f g : list pystr -> list pystr) (w : World) :
  f (link_requests w) = g (link_requests w) ->
  set_link_requests f w = set_link_requests g w.
Proof. intros H. unfold set_link_requests. rewrite H. reflexivity. Qed.

Lemma bind_run {A B} (c : M A) (k : A -> M B) (w w' : World) (a : A) :
  c w = (a, w') -> bind c k w = k a w'.
Proof. intros H. unfold bind. rewrite H. reflexivity. Qed.

Lemma check_single_link_run env (url : pystr) (w : World) :
  Main.check_single_link env url w
  = (Main.link_result_of url (urlopen env (length (link_requests w)) url),
     set_link_requests (fun l => l ++ [url]) w).
Proof. reflexivity. Qed.

(** The loop: its two lists are the working and the other results of the
    checks, in the order of the URLs, and it makes one request per URL. *)
Lemma for_each_link_spec env (urls : list pystr) :
  forall working_links issues w,
    for_each urls (working_links, issues)
      (fun '(working_links, issues) url =>
         let* result := Main.check_single_link env url in
         if startswith (u "✅") (r_status result)
         then ret (working_links ++ [result], issues)
         else ret (working_links, issues ++ [result])) w
    = let results := link_results env (length (link_requests w)) urls in
      ((working_links ++ List.filter is_working results,
        issues ++ List.filter (fun r => negb (is_working r)) results),
       set_link_requests (fun l => l ++ urls) w).
Proof.
  induction urls as [|url urls IH]; intros working_links issues w.
  - cbn [for_each link_results List.filter]. rewrite !app_nil_r. unfold ret. f_equal.
    destruct w. unfold set_link_requests. cbn. rewrite app_nil_r. reflexivity.
  - cbn [for_each link_results List.filter].
    remember (Main.link_result_of url (urlopen env (length (link_requests w)) url))
      as result eqn:Hresult.
    assert (Hlen : length (link_requests (set_link_requests (fun l => l ++ [url]) w))
                   = S (length (link_requests w))).
    { cbn. rewrite length_app. cbn. lia. }
    erewrite bind_run; cycle 1.
    { cbv beta iota. erewrite bind_run by apply check_single_link_run.
      rewrite <- Hresult. fold (is_working result).
      instantiate (1 := set_link_requests (fun l => l ++ [url]) w).
      instantiate (1 := if is_working result then (working_links ++ [result], issues)
                        else (working_links, issues ++ [result])).
      destruct (is_working result); reflexivity. }
    destruct (is_working result) eqn:Ew;
      rewrite IH, Hlen, set_link_requests_twice; cbv zeta;
      rewrite (set_link_requests_ext (fun l => (l ++ [url]) ++ urls)
                 (fun l => l ++ url :: urls) w)
        by (rewrite <- app_assoc; reflexivity);
      cbn [List.filter]; rewrite ?Ew; cbn [negb];
      rewrite <- ?app_assoc; reflexivity.
Qed.

Lemma check_all_links_spec env (urls : list pystr) (w : World) :
  Main.check_all_links env urls w
  = let results := link_results env (length (link_requests w)) urls in
    ((List.filter is_working results, List.filter (fun r => negb (is_working r)) results),
     set_link_requests (fun l => l ++ urls) w).
Proof. unfold Main.check_all_links. rewrite for_each_link_spec. reflexivity. Qed.

Lemma link_result_of_url (url : pystr) (outcome : urlopen_outcome) :
  r_url (Main.link_result_of url outcome) = url.
Proof.
  destruct outcome as [status|code|e]; unfold Main.link_result_of.
  - destruct (status =? 200)%Z; reflexivity.
  - destruct (code =? 404)%Z; [reflexivity|].
    destruct ((code =? 401)%Z || (code =? 403)%Z); reflexivity.
  - reflexivity.
Qed.

Lemma link_results_urls env (urls : list pystr) :
  forall k, map r_url (link_results env k urls) = urls.
Proof.
  induction urls as [|url urls IH]; intros k; cbn [link_results map]; [reflexivity|].
  rewrite IH, link_result_of_url. reflexivity.
Qed.

Lemma link_results_nth env (urls : list pystr) :
  forall k i url, nth_error urls i = Some url ->
    nth_error (link_results env k urls) i
    = Some (Main.link_result_of url (urlopen env (k + i) url)).
Proof.
  induction urls as [|x urls IH]; intros k i url H; destruct i as [|i]; try discriminate.
  - injection H as ->. cbn. rewrite Nat.add_0_r. reflexivity.
  - cbn [link_results nth_error]. rewrite (IH (S k) i url H).
    replace (S k + i)%nat with (k + S i)%nat by lia. reflexivity.
Qed.

(** The validator with links: the report is made from the two lists of the
    loop, and the only network traffic is one link request per URL. *)
Lemma run_link_validation_links env (document_text : pystr) (md : doc_metadata) (w : World) :
  findall_urls document_text <> [] ->
  let urls := findall_urls document_text in
  let results := link_results env (length (link_requests w)) urls in
  fst (Main.run_link_validation env document_text md w)
  = Findings (u "Link Validator")
      (Main.format_findings urls (List.filter is_working results)
         (List.filter (fun r => negb (is_working r)) results)).
Proof.
  intros Hne. unfold Main.run_link_validation.
  destruct (findall_urls document_text) as [|url urls] eqn:E; [congruence|].
  cbv zeta. unfold bind at 1.
  destruct (log_system_message env _ w) as [[] w1] eqn:E1.
  unfold bind at 1.
  destruct (log_system_message env _ w1) as [[] w2] eqn:E2.
  unfold bind at 1. rewrite check_all_links_spec. cbv zeta.
  assert (Hreq : link_requests w2 = link_requests w).
  { pose proof (proj1 (log_preserves_network env
      (u "Link Validator: Starting link validation")) w) as H1.
    rewrite E1 in H1. cbn [snd] in H1.
    pose proof (proj1 (log_preserves_network env
      (u "Link Validator: Found " ++ str_of_nat (length (url :: urls))
         ++ u " links to check")) w1) as H2.
    rewrite E2 in H2. cbn [snd] in H2. congruence. }
  rewrite Hreq. reflexivity.
Qed.

(** The validator without links: the informational report, and no effect
    but two log entries. *)
Lemma run_link_validation_no_links env (document_text : pystr) (md : doc_metadata)
  (w : World) :
  findall_urls document_text = [] ->
  fst (Main.run_link_validation env document_text md w)
  = Findings (u "Link Validator")
             (u "✅ **No external links found** - Nothing to validate.")
  /\ link_requests (snd (Main.run_link_validation env document_text md w)) = link_requests w
  /\ docs_requests (snd (Main.run_link_validation env document_text md w)) = docs_requests w
  /\ completions (snd (Main.run_link_validation env document_text md w)) = completions w.
Proof.
  intros E. unfold Main.run_link_validation. rewrite E. repeat split; reflexivity.
Qed.

(** C7.  When no substring of the document matches the URL pattern, the
    link validator returns the single report that says no external links
    were found, and it makes no network call: no link request, no
    documentation request and no completion request is added. *)
Theorem no_links_single_report_no_network env (document_text : pystr)
  (md : doc_metadata) (w : World) :
  (~ exists s, url_pattern s /\ substring s document_text) ->
  fst (Main.run_link_validation env document_text md w)
  = Findings (u "Link Validator")
             (u "✅ **No external links found** - Nothing to validate.")
  /\ link_requests (snd (Main.run_link_validation env document_text md w)) = link_requests w
  /\ docs_requests (snd (Main.run_link_validation env document_text md w)) = docs_requests w
  /\ completions (snd (Main.run_link_validation env document_text md w)) = completions w.
Proof.
  intros Hno. apply run_link_validation_no_links.
  apply findall_urls_nil_iff. exact Hno.
Qed.

Lemma NoDup_map_injective {A B} (f : A -> B) (l : list A) :
  List.NoDup (map f l) ->
  forall x y, In x l -> In y l -> f x = f y -> x = y.
Proof.
  induction l as [|a l IH]; intros Hnd x y Hx Hy Hxy; [contradiction|].
  cbn [map] in Hnd. apply NoDup_cons_iff in Hnd as [Hnot Hnd].
  destruct Hx as [<- | Hx], Hy as [<- | Hy].
  - reflexivity.
  - exfalso. apply Hnot. rewrite Hxy. apply in_map. exact Hy.
  - exfalso. apply Hnot. rewrite <- Hxy. apply in_map. exact Hx.
  - apply IH; assumption.
Qed.


(** Only the answer 200 without an exception gives a working link. *)
Lemma is_working_iff (url : pystr) (outcome : urlopen_outcome) :
  is_working (Main.link_result_of url outcome) = true <-> outcome = Response 200.
Proof.
  unfold is_working. destruct outcome as [status|code|e]; unfold Main.link_result_of.
  - destruct (status =? 200)%Z eqn:E.
    + apply Z.eqb_eq in E. subst. split; reflexivity.
    + apply Z.eqb_neq in E. split; [intros H; discriminate H | congruence].
  - split; [|discriminate].
    destruct (code =? 404)%Z; [intros H; discriminate H|].
    destruct ((code =? 401)%Z || (code =? 403)%Z); intros H; discriminate H.
  - split; [intros H; discriminate H | discriminate].
Qed.


Lemma join_two_last (sep : pystr) (l : list pystr) (a b : pystr) :
  sep <> [] -> join sep ((l ++ [a]) ++ [b]) <> [].
Proof.
  intros Hsep. induction l as [|x l IH].
  - cbn. intros H. apply app_eq_nil in H as [_ H]. apply app_eq_nil in H as [H _].
    contradiction.
  - cbn [app join]. destruct ((l ++ [a]) ++ [b]) as [|y rest] eqn:E.
    + apply app_eq_nil in E as [_ E]. discriminate.
    + intros H. apply app_eq_nil in H as [_ H]. apply app_eq_nil in H as [H _].
      contradiction.
Qed.

(** The suggestion for a 404 is never empty: the two general lines are
    always there. *)
Lemma suggest_404_fixes_nonempty (url : pystr) : Main.suggest_404_fixes url <> [].
Proof.
  unfold Main.suggest_404_fixes. cbv zeta.
  match goal with
  | |- match (?X ++ [?a]) ++ [?b] with _ => _ end <> [] =>
    generalize X; intros l; generalize a b; intros x y
  end.
  destruct ((l ++ [x]) ++ [y]) as [|z rest] eqn:E.
  - apply app_eq_nil in E as [_ E]. discriminate.
  - rewrite <- E. apply join_two_last. discriminate.
Qed.



Lemma no_links_witness :
  fst (Main.run_link_validation sample_env (u "Send GET requests to /api/v1/users.")
         sample_metadata fresh_world)
  = Findings (u "Link Validator")
             (u "✅ **No external links found** - Nothing to validate.")
  /\ link_requests (snd (Main.run_link_validation sample_env
                           (u "Send GET requests to /api/v1/users.")
                           sample_metadata fresh_world)) = link_requests fresh_world
  /\ docs_requests (snd (Main.run_link_validation sample_env
                           (u "Send GET requests to /api/v1/users.")
                           sample_metadata fresh_world)) = docs_requests fresh_world
  /\ completions (snd (Main.run_link_validation sample_env
                         (u "Send GET requests to /api/v1/users.")
                         sample_metadata fresh_world)) = completions fresh_world.
Proof.
  apply (no_links_single_report_no_network sample_env
           (u "Send GET requests to /api/v1/users.") sample_metadata fresh_world).
  apply findall_urls_nil_iff. vm_compute. reflexivity.
Defined.




(** From [b = true <-> P] with [b] known, [P] or its negation. *)
Ltac decide_iff H :=
  match type of H with
  | true = true <-> _ => apply proj1 in H; specialize (H eq_refl)
  | false = true <-> ?P =>
    let H' := fresh H in
    assert (H' : ~ P) by (let X := fresh in intros X; apply H in X; discriminate X);
    clear H
  end.

Lemma existsb_contains_3 (a b c hay : pystr) :
  existsb (fun needle => contains needle hay) [a; b; c] = true
  <-> substring a hay \/ substring b hay \/ substring c hay.
Proof.
  cbn [existsb]. rewrite orb_false_r, !orb_true_iff, !contains_spec. tauto.
Qed.

(** The list of suggestions ends with the two general lines, so the
    fallback for an empty list is never taken. *)
Lemma suggestions_join (l : list pystr) (x y fallback : pystr) :
  match (l ++ [x]) ++ [y] with
  | [] => fallback
  | _ => join nl ((l ++ [x]) ++ [y])
  end = join nl (l ++ [x; y]).
Proof.
  rewrite <- app_assoc. cbn [app].
  destruct (l ++ [x; y]) as [|z rest] eqn:E; [|reflexivity].
  apply app_eq_nil in E as [_ E]. discriminate E.
Qed.


(* ===================================================================== *)
(** * The heuristic checkers *)
(* ===================================================================== *)

(** A loop that appends [g x] for the [x] that pass a test. *)
Lemma fold_left_append_In {A B} (test : A -> bool) (g : A -> B) (xs : list A) :
  forall (init : list B) (i : B),
    In i (fold_left (fun acc x => if test x then acc ++ [g x] else acc) xs init) ->
    In i init \/ exists x, In x xs /\ i = g x.
Proof.
  induction xs as [|x xs IH]; intros init i H; cbn [fold_left] in H; [auto|].
  apply IH in H as [H | (y & Hy & ->)].
  - destruct (test x); [|auto]. apply in_app_or in H as [H | [<- | []]]; [auto|].
    right. exists x. split; [left; reflexivity | reflexivity].
  - right. exists y. split; [right; exact Hy | reflexivity].
Qed.

Lemma if_append_In {B} (b : bool) (l : list B) (x i : B) :
  In i (if b then l ++ [x] else l) -> In i l \/ i = x.
Proof.
  destruct b; [|auto]. intros H. apply in_app_or in H as [H | [<- | []]]; auto.
Qed.

(** The issue types [analyze_technical_writing_issues] of app.py can
    report: it has no rule on sentence length. *)
Lemma app_issue_types env (text : pystr) (i : issue) :
  In i (App.analyze_technical_writing_issues env text) ->
  issue_type i = u "Passive Voice" \/ issue_type i = u "Future Tense"
  \/ issue_type i = u "Wordiness" \/ issue_type i = u "Vague UI Reference".
Proof.
  unfold App.analyze_technical_writing_issues. cbv zeta. intros H.
  apply if_append_In in H as [H | ->]; [|right; right; right; reflexivity].
  apply (fold_left_append_In
           (fun word => re_search_ignorecase env (u "\b" ++ word ++ u "\b") text)
           (fun word => {| issue_type := u "Wordiness"; priority := u "High";
                           suggestion := u "Remove unnecessary '" ++ word ++ u "'" |}))
    in H as [H | (word & _ & ->)]; [|right; right; left; reflexivity].
  apply if_append_In in H as [H | ->]; [|right; left; reflexivity].
  apply (fold_left_append_In
           (fun pattern => re_search_ignorecase env pattern text)
           (fun _ => {| issue_type := u "Passive Voice"; priority := u "High";
                        suggestion := u "Use active voice in instructions" |}))
    in H as [[] | (pattern & _ & ->)].
  left. reflexivity.
Qed.

Lemma match_append_In {A B} (found : list A) (l : list B) (x i : B) :
  In i (match found with [] => l | _ => l ++ [x] end) -> In i l \/ i = x.
Proof.
  destruct found; [auto|]. intros H. apply in_app_or in H as [H | [<- | []]]; auto.
Qed.

Lemma wordiness_entry_not_long (found : pystr -> bool) :
  contains (u "Long Sentences")
    (u "⚠️ **Wordiness**: Remove unnecessary words: "
       ++ join (u ", ")
            (List.filter found [u "actually"; u "basically"; u "really"; u "very"]))
  = false.
Proof.
  cbn [List.filter].
  generalize (found (u "actually")), (found (u "basically")), (found (u "really")),
    (found (u "very")).
  intros [] [] [] []; vm_compute; reflexivity.
Qed.

(** An entry of [quick_analysis] that mentions long sentences is the entry
    of its last rule, which is there when some sentence is long. *)
Lemma quick_analysis_entries env (text : pystr) (e : pystr) :
  In e (Main.quick_analysis env text) ->
  contains (u "Long Sentences") e = false
  \/ (Main.long_sentences_over 25 text <> []
      /\ e = long_sentences_entry (length (Main.long_sentences_over 25 text))).
Proof.
  unfold Main.quick_analysis, long_sentences_entry. cbv zeta. intros H.
  destruct (Main.long_sentences_over 25 text) as [|s rest] eqn:E.
  - left.
    apply if_append_In in H as [H | ->]; [|vm_compute; reflexivity].
    apply match_append_In in H as [H | ->]; [|apply wordiness_entry_not_long].
    apply if_append_In in H as [H | ->]; [|vm_compute; reflexivity].
    apply if_append_In in H as [[] | ->]. vm_compute. reflexivity.
  - apply in_app_or in H as [H | [<- | []]]; [left | right; split; [discriminate | reflexivity]].
    apply if_append_In in H as [H | ->]; [|vm_compute; reflexivity].
    apply match_append_In in H as [H | ->]; [|apply wordiness_entry_not_long].
    apply if_append_In in H as [H | ->]; [|vm_compute; reflexivity].
    apply if_append_In in H as [[] | ->]. vm_compute. reflexivity.
Qed.

Lemma quick_analysis_has_entry env (text : pystr) :
  Main.long_sentences_over 25 text <> [] ->
  In (long_sentences_entry (length (Main.long_sentences_over 25 text)))
     (Main.quick_analysis env text).
Proof.
  unfold Main.quick_analysis, long_sentences_entry. cbv zeta. intros H.
  destruct (Main.long_sentences_over 25 text) as [|s rest] eqn:E; [congruence|].
  apply in_or_app. right. left. reflexivity.
Qed.

Lemma long_sentences_entry_mentions (n : nat) :
  substring (u "Long Sentences") (long_sentences_entry n).
Proof.
  exists (u "⚠️ **"), (u "**: " ++ str_of_nat n ++ u " sentences over 25 words").
  reflexivity.
Qed.

Lemma app_issue_not_long env (text : pystr) (i : issue) :
  In i (App.analyze_technical_writing_issues env text) ->
  contains (u "Long Sentences") (issue_type i) = false.
Proof.
  intros H. apply app_issue_types in H as [-> | [-> | [-> | ->]]];
    vm_compute; reflexivity.
Qed.

(** C4, as stated, fails for the checker of app.py: on a sentence of thirty
    words, over both thresholds, it reports nothing, whatever the pattern
    searches of its other rules find. *)
Lemma app_checker_long_sentence_counterexample :
  length (Main.long_sentences_over 25 thirty_words) = 1%nat
  /\ length (Main.long_sentences_over 26 thirty_words) = 1%nat
  /\ App.analyze_technical_writing_issues sample_env thirty_words = []
  /\ (forall env,
        existsb (fun i => contains (u "Long Sentences") (issue_type i))
                (App.analyze_technical_writing_issues env thirty_words) = false).
Proof.
  split; [vm_compute; reflexivity|]. split; [vm_compute; reflexivity|].
  split; [vm_compute; reflexivity|].
  intros env.
  destruct (existsb _ _) eqn:E; [|reflexivity].
  apply existsb_exists in E as (i & Hin & Hi).
  rewrite (app_issue_not_long env thirty_words i Hin) in Hi. discriminate Hi.
Qed.

(** C4, amended.  When [n > 0] sentences of the text (the pieces between
    runs of sentence-ending punctuation) have more than 25 words,
    [quick_analysis] of main.py reports the entry on long sentences with the
    count [n], and that is its only entry on long sentences;
    [analyze_technical_writing_issues] of app.py has no rule on sentence
    length and never reports one. *)
Theorem long_sentences_rule env (text : pystr) :
  let n := length (Main.long_sentences_over 25 text) in
  (0 < n)%nat ->
  In (long_sentences_entry n) (Main.quick_analysis env text)
  /\ (forall e, In e (Main.quick_analysis env text) ->
                substring (u "Long Sentences") e -> e = long_sentences_entry n)
  /\ (forall i, In i (App.analyze_technical_writing_issues env text) ->
                contains (u "Long Sentences") (issue_type i) = false).
Proof.
  intros n Hn.
  assert (Hne : Main.long_sentences_over 25 text <> []).
  { subst n. destruct (Main.long_sentences_over 25 text); [inversion Hn | discriminate]. }
  split; [|split].
  - apply quick_analysis_has_entry. exact Hne.
  - intros e Hin Hsub. apply quick_analysis_entries in Hin as [Hno | [_ ->]].
    + apply contains_spec in Hsub. congruence.
    + reflexivity.
  - intros i Hin. apply (app_issue_not_long env text i Hin).
Qed.

Lemma long_sentences_rule_witness :
  In (long_sentences_entry 1) (Main.quick_analysis sample_env thirty_words).
Proof.
  assert (Hn : (0 < length (Main.long_sentences_over 25 thirty_words))%nat).
  { vm_compute. lia. }
  exact (proj1 (long_sentences_rule sample_env thirty_words Hn)).
Defined.

(* ===================================================================== *)
(** * The documentation cache *)
(* ===================================================================== *)

(** The path of [fetch_documentation] through an unexpired entry. *)
Lemma fetch_documentation_cached env (doc_key : pystr) (w : World) (entry : cache_entry) :
  DOCS_CACHE w !! doc_key = Some entry ->
  (clock env (clock_reads w) - ce_timestamp entry < CACHE_EXPIRY)%Q ->
  fst (fetch_documentation env doc_key w) = Some (ce_content entry)
  /\ docs_requests (snd (fetch_documentation env doc_key w)) = docs_requests w
  /\ link_requests (snd (fetch_documentation env doc_key w)) = link_requests w
  /\ completions (snd (fetch_documentation env doc_key w)) = completions w
  /\ DOCS_CACHE (snd (fetch_documentation env doc_key w)) = DOCS_CACHE w.
Proof.
  intros Hlookup Hfresh. apply Qltb_spec in Hfresh.
  unfold fetch_documentation.
  rewrite (bind_run _ _ w (set_clock_reads S w) (clock env (clock_reads w)))
    by reflexivity.
  cbv zeta.
  rewrite (bind_run _ _ _ (set_clock_reads S w) (set_clock_reads S w)) by reflexivity.
  change (DOCS_CACHE (set_clock_reads S w)) with (DOCS_CACHE w).
  rewrite Hlookup, Hfresh.
  repeat match goal with |- _ /\ _ => split end; reflexivity.
Qed.



(** A fetch that goes to the network and succeeds returns the response text
    and writes it to the cache with the time read at the start of the call,
    so an unexpired entry holds the result of the fetch that wrote it. *)
Lemma network_fetch_fills_cache env (doc_key url content : pystr) (w : World) :
  DOCS_CACHE w !! doc_key = None ->
  dict_get DOCUMENTATION_URLS doc_key = Some url -> url <> [] ->
  requests_get env (length (docs_requests w)) url = ResponseText content ->
  fst (fetch_documentation env doc_key w) = Some content
  /\ DOCS_CACHE (snd (fetch_documentation env doc_key w)) !! doc_key
     = Some {| ce_content := content; ce_timestamp := clock env (clock_reads w) |}
  /\ docs_requests (snd (fetch_documentation env doc_key w)) = docs_requests w ++ [url].
Proof.
  intros Hnone Hurl Hne Hget.
  remember (fetch_documentation env doc_key w) as r eqn:Hr.
  unfold fetch_documentation in Hr.
  rewrite (bind_run _ _ w (set_clock_reads S w) (clock env (clock_reads w))) in Hr
    by reflexivity.
  cbv zeta in Hr.
  rewrite (bind_run _ _ _ (set_clock_reads S w) (set_clock_reads S w)) in Hr
    by reflexivity.
  change (DOCS_CACHE (set_clock_reads S w)) with (DOCS_CACHE w) in Hr.
  rewrite Hnone, Hurl in Hr. destruct url as [|c url]; [congruence|].
  unfold bind at 1 in Hr.
  destruct (log_system_message env _ (set_clock_reads S w)) as [[] w1] eqn:E1.
  assert (Hreq : docs_requests w1 = docs_requests w).
  { pose proof (proj1 (proj2 (log_preserves_network env
       (u "DOCS: Fetching " ++ doc_key ++ u " from GitHub"))) (set_clock_reads S w)) as H.
    rewrite E1 in H. exact H. }
  unfold bind at 1 in Hr. unfold requests_get_call at 1 in Hr.
  rewrite Hreq, Hget in Hr. subst r.
  repeat match goal with |- _ /\ _ => split end.
  - reflexivity.
  - apply lookup_insert_eq.
  - cbn. rewrite Hreq. reflexivity.
Qed.

(* ===================================================================== *)
(** * The review store *)
(* ===================================================================== *)

Lemma str_leb_total (a b : pystr) :
  Main.str_leb a b = false -> Main.str_leb b a = true.
Proof.
  revert b. induction a as [|x a IH]; intros [|y b]; cbn; try congruence.
  intros H. apply orb_false_iff in H as [Hlt H].
  apply N.ltb_ge in Hlt.
  destruct (N.eqb_spec x y) as [->|Hne].
  - cbn in H. rewrite N.eqb_refl, (IH b H). apply orb_true_r.
  - assert (Hyx : (y <? x)%N = true) by (apply N.ltb_lt; lia).
    rewrite Hyx. reflexivity.
Qed.

Lemma str_leb_trans (a b c : pystr) :
  Main.str_leb a b = true -> Main.str_leb b c = true -> Main.str_leb a c = true.
Proof.
  revert b c. induction a as [|x a IH]; intros [|y b] [|z c]; cbn; try congruence.
  intros Hab Hbc.
  apply orb_true_iff in Hab as [Hab | Hab]; apply orb_true_iff in Hbc as [Hbc | Hbc];
    repeat match goal with
           | H : (_ <? _)%N = true |- _ => apply N.ltb_lt in H
           | H : _ && _ = true |- _ => apply andb_true_iff in H as [? ?]
           | H : (_ =? _)%N = true |- _ => apply N.eqb_eq in H; subst
           end.
  - assert (H : (x <? z)%N = true) by (apply N.ltb_lt; lia). rewrite H. reflexivity.
  - assert (H : (x <? z)%N = true) by (apply N.ltb_lt; lia). rewrite H. reflexivity.
  - assert (H : (y <? z)%N = true) by (apply N.ltb_lt; lia). rewrite H. reflexivity.
  - rewrite N.eqb_refl. rewrite (IH b c) by assumption. apply orb_true_r.
Qed.

Lemma insert_desc_In (r x : review_row) (sorted : list review_row) :
  In x (Main.insert_desc r sorted) <-> x = r \/ In x sorted.
Proof.
  induction sorted as [|r' rest IH]; cbn [Main.insert_desc].
  - cbn. intuition congruence.
  - destruct (_ && _); cbn [In]; [|rewrite IH]; intuition congruence.
Qed.

Lemma insert_desc_sorted (r : review_row) (sorted : list review_row) :
  timestamp_desc sorted -> timestamp_desc (Main.insert_desc r sorted).
Proof.
  unfold timestamp_desc. induction 1 as [|r' rest Hsorted IH Hall]; cbn [Main.insert_desc].
  - repeat constructor.
  - destruct (Main.str_leb (row_timestamp r') (row_timestamp r)) eqn:Hle;
      [destruct (Main.str_leb (row_timestamp r) (row_timestamp r')) eqn:Hge|]; cbn [andb negb].
    + constructor; [exact IH|].
      apply List.Forall_forall. intros x Hx. apply insert_desc_In in Hx as [-> | Hx];
        [exact Hge | exact (proj1 (List.Forall_forall _ _) Hall x Hx)].
    + constructor; [constructor; assumption|].
      constructor; [exact Hle|].
      apply List.Forall_forall. intros x Hx.
      apply (str_leb_trans _ (row_timestamp r')); [|exact Hle].
      exact (proj1 (List.Forall_forall _ _) Hall x Hx).
    + constructor; [exact IH|].
      apply List.Forall_forall. intros x Hx. apply insert_desc_In in Hx as [-> | Hx];
        [apply str_leb_total; exact Hle | exact (proj1 (List.Forall_forall _ _) Hall x Hx)].
Qed.

(** [ORDER BY timestamp DESC] returns the rows of the table, each once, in
    descending order of the timestamps. *)
Lemma order_by_timestamp_desc_spec (rows : list review_row) :
  timestamp_desc (Main.order_by_timestamp_desc rows)
  /\ (forall x, In x (Main.order_by_timestamp_desc rows) <-> In x rows)
  /\ length (Main.order_by_timestamp_desc rows) = length rows.
Proof.
  unfold Main.order_by_timestamp_desc.
  assert (Hgen : forall acc,
             timestamp_desc acc ->
             timestamp_desc (fold_left (fun sorted r => Main.insert_desc r sorted) rows acc)
             /\ (forall x, In x (fold_left (fun sorted r => Main.insert_desc r sorted) rows acc)
                           <-> In x acc \/ In x rows)
             /\ length (fold_left (fun sorted r => Main.insert_desc r sorted) rows acc)
                = (length acc + length rows)%nat).
  { induction rows as [|r rows IH]; intros acc Hacc; cbn [fold_left].
    - split; [exact Hacc|]. split; [intros x; cbn; tauto | cbn; lia].
    - destruct (IH (Main.insert_desc r acc) (insert_desc_sorted r acc Hacc))
        as (Hs & Hin & Hlen).
      split; [exact Hs|]. split.
      + intros x. rewrite Hin, insert_desc_In. cbn [In]. intuition congruence.
      + rewrite Hlen. cbn [length].
        assert (Hl : length (Main.insert_desc r acc) = S (length acc)).
        { clear. induction acc as [|a acc IHa]; cbn [Main.insert_desc]; [reflexivity|].
          destruct (_ && _); cbn [length]; [reflexivity | rewrite IHa; reflexivity]. }
        lia. }
  destruct (Hgen [] ltac:(constructor)) as (Hs & Hin & Hlen).
  split; [exact Hs|]. split; [|exact Hlen].
  intros x. rewrite Hin. cbn. tauto.
Qed.



(* ===================================================================== *)
(** * The agents and the orchestrator *)
(* ===================================================================== *)

(** Fetching documentation sends no completion request and no link
    request, and leaves the session and the store alone. *)
Lemma fetch_documentation_preserves env (doc_key : pystr) :
  preserves completions (fetch_documentation env doc_key)
  /\ preserves link_requests (fetch_documentation env doc_key)
  /\ preserves last_review (fetch_documentation env doc_key)
  /\ preserves session_messages (fetch_documentation env doc_key).
Proof.
  unfold fetch_documentation. cbv zeta.
  repeat match goal with |- _ /\ _ => split end; frame.
Qed.

(** What a computation returns and the state it leaves, from a state where
    it leaves [f] alone. *)
Lemma run_preserving {A B} (f : World -> B) (c : M A) (w : World) :
  preserves f c -> exists a w', c w = (a, w') /\ f w' = f w.
Proof.
  intros H. destruct (c w) as [a w'] eqn:E. exists a, w'. split; [reflexivity|].
  specialize (H w). rewrite E in H. exact H.
Qed.

(** The chat assistant sends exactly one completion request, the chat
    request made from the question, the context and the reference material
    it fetched, and answers with what that request gives. *)
Lemma handle_chat_question_spec env (user_question : pystr) (context : option pystr)
  (w : World) :
  exists reference_material,
    fst (App.handle_chat_question env user_question context w)
    = match chat_completions_create env (length (completions w))
              (App.chat_request user_question context reference_material) with
      | Completion guidance => Guidance (u "Chat Assistant") guidance
      | APIException e => ChatError (u "Chat Assistant") e
      end
    /\ completions (snd (App.handle_chat_question env user_question context w))
       = completions w ++ [App.chat_request user_question context reference_material]
    /\ session_messages (snd (App.handle_chat_question env user_question context w))
       = session_messages w.
Proof.
  remember (App.handle_chat_question env user_question context w) as r eqn:Hr.
  unfold App.handle_chat_question in Hr. cbv zeta in Hr.
  unfold bind at 1 in Hr.
  destruct (log_system_message env _ w) as [[] w1] eqn:E1.
  assert (H1 : completions w1 = completions w /\ session_messages w1 = session_messages w).
  { pose proof (f_equal snd E1) as H. cbn [snd] in H. subst w1. split; reflexivity. }
  destruct H1 as [Hc1 Hm1].
  unfold bind at 1 in Hr.
  match type of Hr with
  | context [for_each ?xs ?acc ?body w1] =>
    destruct (run_preserving (fun w => (completions w, session_messages w))
                (for_each xs acc body) w1) as (rm & w2 & E2 & H2)
  end.
  { apply preserves_for_each. intros acc doc_key.
    apply preserves_bind.
    - intros w0.
      rewrite (proj1 (fetch_documentation_preserves env doc_key) w0).
      rewrite (proj2 (proj2 (proj2 (fetch_documentation_preserves env doc_key))) w0).
      reflexivity.
    - intros [[|c content]|]; apply preserves_ret. }
  rewrite E2 in Hr. injection H2 as Hc2 Hm2.
  exists rm.
  unfold bind at 1 in Hr. unfold chat_completions_create_call at 1 in Hr.
  rewrite Hc2, Hc1 in Hr.
  destruct (chat_completions_create env (length (completions w)) _) as [guidance|e];
    subst r; cbn; rewrite Hc2, Hc1, Hm2, Hm1; repeat split.
Qed.

(** C3, as stated, fails: with no review in the session the input
    [Yes please, rewrite it] is not answered by a guidance message of the
    program; it is sent to the chat assistant, which issues a completion
    request, and the reply shown is what the model returned. *)
Lemma rewrite_without_review_counterexample :
  App.is_rewrite_request (u "Yes please, rewrite it") = true
  /\ last_review fresh_world = None
  /\ length (completions
               (snd (App.main_chat_input sample_env (u "Yes please, rewrite it")
                       (u "The API will return user data.") fresh_world))) = 1%nat
  /\ fst (App.main_chat_input sample_env (u "Yes please, rewrite it")
            (u "The API will return user data.") fresh_world)
     = App.assistant_heading ++ nl ++ nl ++ u "Looks good.".
Proof. repeat match goal with |- _ /\ _ => split end; vm_compute; reflexivity. Qed.

(** C3, amended.  When the chat input holds a rewrite phrase and the
    session holds no review, the input goes to the chat assistant: exactly
    one completion request is issued, the chat request for the input with
    the first 500 characters of the document as context, and the reply is
    the assistant's guidance under its heading, or an apology with the
    message of the error when the request raised.  The rewrite agent is not
    called. *)
Theorem rewrite_without_review_goes_to_chat env (user_input document_text : pystr)
  (w : World) :
  App.is_rewrite_request user_input = true ->
  last_review w = None ->
  let context :=
    match document_text with [] => None | _ => Some (slice_to 500 document_text) end in
  exists reference_material,
    let request := App.chat_request user_input context reference_material in
    completions (snd (App.main_chat_input env user_input document_text w))
    = completions w ++ [request]
    /\ fst (App.main_chat_input env user_input document_text w)
       = match chat_completions_create env (length (completions w)) request with
         | Completion guidance => App.assistant_heading ++ nl ++ nl ++ guidance
         | APIException e => u "I apologize, but there was an error: " ++ e
         end
    /\ session_messages (snd (App.main_chat_input env user_input document_text w))
       = session_messages w
         ++ [{| role := u "user"; msg_content := user_input |};
             {| role := u "assistant";
                msg_content := fst (App.main_chat_input env user_input document_text w) |}].
Proof.
  intros Hrewrite Hnone context.
  remember (App.main_chat_input env user_input document_text w) as r eqn:Hr.
  unfold App.main_chat_input in Hr. cbv zeta in Hr.
  unfold bind at 1, App.append_message at 1 in Hr.
  unfold bind at 1, get_world at 1 in Hr.
  change (last_review (set_session_messages _ w)) with (last_review w) in Hr.
  rewrite Hrewrite, Hnone in Hr.
  set (w0 := set_session_messages
               (fun l => l ++ [{| role := u "user"; msg_content := user_input |}]) w) in Hr.
  assert (Hchat : r = (let* response :=
                         (let* chat_result := App.handle_chat_question env user_input context in
                          match chat_result with
                          | Guidance _ guidance =>
                            ret (App.assistant_heading ++ nl ++ nl ++ guidance)
                          | ChatError _ error =>
                            ret (u "I apologize, but there was an error: " ++ error)
                          end) in
                       run App.append_message (u "assistant") response then ret response) w0).
  { rewrite Hr. subst context. destruct document_text; reflexivity. }
  clear Hr.
  destruct (handle_chat_question_spec env user_input context w0) as (rm & Hres & Hcomp & Hmsg).
  exists rm. cbv zeta.
  destruct (App.handle_chat_question env user_input context w0) as [chat_result w1] eqn:E.
  cbn [fst snd] in Hres, Hcomp, Hmsg.
  change (completions w0) with (completions w) in Hres, Hcomp.
  unfold bind at 1 in Hchat. unfold bind at 1 in Hchat. rewrite E in Hchat.
  destruct (chat_completions_create env (length (completions w)) _) as [guidance|e];
    subst chat_result r; cbn; rewrite Hcomp, Hmsg; subst w0; cbn;
    rewrite <- app_assoc; repeat split.
Qed.

Lemma rewrite_without_review_witness :
  exists reference_material,
    completions (snd (App.main_chat_input sample_env (u "Yes please, rewrite it")
                        (u "The API will return user data.") fresh_world))
    = completions fresh_world
      ++ [App.chat_request (u "Yes please, rewrite it")
            (Some (slice_to 500 (u "The API will return user data.")))
            reference_material].
Proof.
  destruct (rewrite_without_review_goes_to_chat sample_env (u "Yes please, rewrite it")
              (u "The API will return user data.") fresh_world)
    as (reference_material & Hcompletions & _).
  - vm_compute. reflexivity.
  - reflexivity.
  - exists reference_material. exact Hcompletions.
Defined.

(** The section of every report is part of the combined findings. *)
Lemma combine_findings_section (agent_reports : list agent_report) (report : agent_report) :
  In report agent_reports ->
  substring (Main.report_section report) (Main.combine_findings agent_reports).
Proof.
  unfold Main.combine_findings.
  assert (Hgen : forall acc,
            (substring (Main.report_section report) acc \/ In report agent_reports) ->
            substring (Main.report_section report)
              (fold_left (fun combined_findings r => combined_findings ++ Main.report_section r)
                         agent_reports acc)).
  { induction agent_reports as [|r rest IH]; intros acc [H | H]; cbn [fold_left].
    - exact H.
    - contradiction.
    - apply IH. left. destruct H as (a & b & ->). exists a, (b ++ Main.report_section r).
      rewrite <- !app_assoc. reflexivity.
    - destruct H as [-> | H]; apply IH; [left | right; exact H].
      exists acc, []. rewrite app_nil_r. reflexivity. }
  intros H. apply Hgen. right. exact H.
Qed.

(** What the synthesizer does: one completion request, the synthesis
    request, and a review with the reports or the error of that request. *)
Lemma run_editorial_synthesis_spec env (document_text : pystr) (md : doc_metadata)
  (agent_reports : list agent_report) (w : World) :
  completions (snd (Main.run_editorial_synthesis env document_text md agent_reports w))
  = completions w ++ [Main.synthesis_request document_text md agent_reports]
  /\ fst (Main.run_editorial_synthesis env document_text md agent_reports w)
     = match chat_completions_create env (length (completions w))
               (Main.synthesis_request document_text md agent_reports) with
       | Completion review => Review (u "Senior Editor") review agent_reports
       | APIException e => EditorialError (u "Senior Editor") e
       end.
Proof.
  remember (Main.run_editorial_synthesis env document_text md agent_reports w) as r eqn:Hr.
  unfold Main.run_editorial_synthesis in Hr.
  unfold bind at 1 in Hr.
  destruct (log_system_message env _ w) as [[] w1] eqn:E1.
  assert (Hc1 : completions w1 = completions w).
  { pose proof (f_equal snd E1) as H. cbn [snd] in H. subst w1. reflexivity. }
  unfold bind at 1 in Hr. unfold chat_completions_create_call at 1 in Hr.
  rewrite Hc1 in Hr.
  destruct (chat_completions_create env (length (completions w)) _) as [review|e];
    subst r; cbn; rewrite Hc1; split; reflexivity.
Qed.


Lemma substring_pre (needle pre hay : pystr) :
  substring needle hay -> substring needle (pre ++ hay).
Proof.
  intros (a & b & ->). exists (pre ++ a), b. rewrite <- app_assoc. reflexivity.
Qed.

Lemma substring_post (needle hay post : pystr) :
  substring needle hay -> substring needle (hay ++ post).
Proof.
  intros (a & b & ->). exists a, (b ++ post). rewrite <- !app_assoc. reflexivity.
Qed.


(* ===================================================================== *)
(** * Sentences and words *)
(* ===================================================================== *)

Lemma re_split_aux_spec (text : pystr) :
  forall in_sep cur,
    forallb (fun c => negb (is_sentence_end c)) cur = true ->
    List.Forall (fun piece => forallb (fun c => negb (is_sentence_end c)) piece = true)
                (re_split_aux in_sep cur text)
    /\ concat (re_split_aux in_sep cur text)
       = cur ++ List.filter (fun c => negb (is_sentence_end c)) text.
Proof.
  induction text as [|c text IH]; intros in_sep cur Hcur; cbn [re_split_aux List.filter].
  - split; [repeat constructor; exact Hcur | cbn; rewrite !app_nil_r; reflexivity].
  - destruct (is_sentence_end c) eqn:Ec; cbn [negb].
    + destruct in_sep.
      * apply IH. exact Hcur.
      * destruct (IH true [] eq_refl) as [Hall Hcat]. split.
        -- constructor; assumption.
        -- cbn [concat]. rewrite Hcat. reflexivity.
    + destruct (IH false (cur ++ [c])) as [Hall Hcat].
      { rewrite forallb_app, Hcur. cbn. rewrite Ec. reflexivity. }
      split; [exact Hall|]. rewrite Hcat, <- app_assoc. reflexivity.
Qed.

Lemma py_split_aux_spec (s : pystr) :
  forall cur,
    forallb (fun c => negb (is_space c)) cur = true ->
    List.Forall (fun word => word <> []
                             /\ forallb (fun c => negb (is_space c)) word = true)
                (py_split_aux cur s)
    /\ concat (py_split_aux cur s) = cur ++ List.filter (fun c => negb (is_space c)) s.
Proof.
  induction s as [|c s IH]; intros cur Hcur; cbn [py_split_aux List.filter].
  - destruct cur as [|x cur]; [split; [constructor | reflexivity]|].
    split; [repeat constructor; [discriminate | exact Hcur]|].
    cbn. rewrite !app_nil_r. reflexivity.
  - destruct (is_space c) eqn:Ec; cbn [negb].
    + destruct (IH [] eq_refl) as [Hall Hcat].
      destruct cur as [|x cur]; [split; assumption|].
      split; [constructor; [split; [discriminate | exact Hcur] | exact Hall]|].
      cbn [concat]. rewrite Hcat. reflexivity.
    + destruct (IH (cur ++ [c])) as [Hall Hcat].
      { rewrite forallb_app, Hcur. cbn. rewrite Ec. reflexivity. }
      split; [exact Hall|]. rewrite Hcat, <- app_assoc. reflexivity.
Qed.

(* ===================================================================== *)
(** * Further properties of the link validator, the sentences and the store *)
(* ===================================================================== *)

(** X1.  What [re.findall] yields for the URL pattern: every string it yields
    occurs in the text and matches the pattern, and it yields nothing
    exactly when no substring of the text matches. *)
Theorem findall_urls_spec (text : pystr) :
  List.Forall (fun url => url_pattern url /\ substring url text) (findall_urls text)
  /\ (findall_urls text = [] <-> ~ exists s, url_pattern s /\ substring s text).
Proof.
  split; [|apply findall_urls_nil_iff].
  apply List.Forall_forall. intros url Hin.
  exact (findall_from_sound text 0 url Hin).
Qed.

(** X2.  The sentences of a text hold no sentence-ending punctuation and are,
    put together, the text without it; the words of a string are not empty,
    hold no white space and are, put together, the string without it. *)
Theorem sentences_and_words_spec (text : pystr) :
  List.Forall (fun piece => forallb (fun c => negb (is_sentence_end c)) piece = true)
              (re_split_sentences text)
  /\ concat (re_split_sentences text)
     = List.filter (fun c => negb (is_sentence_end c)) text
  /\ List.Forall (fun word => word <> []
                              /\ forallb (fun c => negb (is_space c)) word = true)
                 (py_split text)
  /\ concat (py_split text) = List.filter (fun c => negb (is_space c)) text.
Proof.
  destruct (re_split_aux_spec text false [] eq_refl) as [H1 H2].
  destruct (py_split_aux_spec text [] eq_refl) as [H3 H4].
  repeat match goal with |- _ /\ _ => split end; assumption.
Qed.


Lemma insert_desc_perm (r : review_row) (sorted : list review_row) :
  Permutation (r :: sorted) (Main.insert_desc r sorted).
Proof.
  induction sorted as [|r' rest IH]; cbn [Main.insert_desc]; [reflexivity|].
  destruct (_ && _); [reflexivity|].
  rewrite perm_swap. apply perm_skip. exact IH.
Qed.


Lemma next_id_above (rows : list review_row) (r : review_row) :
  In r rows -> (row_id r < Main.next_id rows)%Z.
Proof.
  unfold Main.next_id. induction rows as [|x rows IH]; intros Hin; [contradiction|].
  cbn [map fold_right]. destruct Hin as [-> | Hin]; [lia|].
  specialize (IH Hin). lia.
Qed.


(** X5.  [save_review]: when the transaction raises, the result is [False]
    and the table is as before; otherwise the result is [True] and the table
    has one more row at its end, with the given type, title, text and notes,
    the status [completed] and an id greater than every id in the table. *)
Theorem save_review_outcome env (doc_type doc_title original_text review_notes : pystr)
  (w : World) :
  let result := Main.save_review env doc_type doc_title original_text review_notes w in
  match sqlite_fault env (store_transactions w) with
  | Some e => fst result = false /\ editorial_reviews (snd result) = editorial_reviews w
  | None =>
    fst result = true
    /\ (exists row,
          editorial_reviews (snd result) = editorial_reviews w ++ [row]
          /\ row_document_type row = doc_type
          /\ row_document_title row = doc_title
          /\ row_original_text row = original_text
          /\ row_review_notes row = review_notes
          /\ row_review_status row = u "completed"
          /\ List.Forall (fun r => (row_id r < row_id row)%Z) (editorial_reviews w))
  end.
Proof.
  cbv zeta. unfold Main.save_review.
  rewrite (bind_run _ _ w (set_clock_reads S w) (clock env (clock_reads w)))
    by reflexivity.
  cbv zeta.
  rewrite (bind_run _ _ _ (set_clock_reads S w) (set_clock_reads S w)) by reflexivity.
  change (store_transactions (set_clock_reads S w)) with (store_transactions w).
  destruct (sqlite_fault env (store_transactions w)) as [e|].
  - split; reflexivity.
  - split; [reflexivity|]. eexists. split; [reflexivity|].
    cbn [row_document_type row_document_title row_original_text row_review_notes
         row_review_status row_id].
    repeat match goal with |- _ /\ _ => split end; try reflexivity.
    apply List.Forall_forall. intros r Hin. apply next_id_above. exact Hin.
Qed.

(* ===================================================================== *)
(** * Further properties of the documentation cache *)
(* ===================================================================== *)

(** The path of [fetch_documentation] past the cache: an unknown key ends
    the call, a known one costs one request, and only a response is written
    to the cache. *)
Lemma fetch_documentation_network env (doc_key : pystr) (w : World) :
  has_fresh_entry env w doc_key = false ->
  let result := fetch_documentation env doc_key w in
  match dict_get DOCUMENTATION_URLS doc_key with
  | None | Some [] =>
    fst result = None
    /\ DOCS_CACHE (snd result) = DOCS_CACHE w
    /\ docs_requests (snd result) = docs_requests w
  | Some url =>
    docs_requests (snd result) = docs_requests w ++ [url]
    /\ match requests_get env (length (docs_requests w)) url with
       | ResponseText content =>
         fst result = Some content
         /\ DOCS_CACHE (snd result)
            = <[doc_key := {| ce_content := content;
                              ce_timestamp := clock env (clock_reads w) |}]> (DOCS_CACHE w)
       | RequestException e =>
         fst result = None /\ DOCS_CACHE (snd result) = DOCS_CACHE w
       end
  end.
Proof.
  intros Hstale result. subst result.
  remember (fetch_documentation env doc_key w) as r eqn:Hr.
  unfold fetch_documentation in Hr.
  rewrite (bind_run _ _ w (set_clock_reads S w) (clock env (clock_reads w))) in Hr
    by reflexivity.
  cbv zeta in Hr.
  rewrite (bind_run _ _ _ (set_clock_reads S w) (set_clock_reads S w)) in Hr
    by reflexivity.
  change (DOCS_CACHE (set_clock_reads S w)) with (DOCS_CACHE w) in Hr.
  unfold has_fresh_entry in Hstale.
  destruct (DOCS_CACHE w !! doc_key) as [entry|]; [rewrite Hstale in Hr|];
    clear Hstale;
    (destruct (dict_get DOCUMENTATION_URLS doc_key) as [[|c url]|];
     [ subst r; repeat split
     | unfold bind at 1 in Hr;
       destruct (log_system_message env _ (set_clock_reads S w)) as [[] w1] eqn:E1;
       assert (H1 : docs_requests w1 = docs_requests w /\ DOCS_CACHE w1 = DOCS_CACHE w)
         by (pose proof (f_equal snd E1) as H; cbn [snd] in H; subst w1;
             split; reflexivity);
       destruct H1 as [Hreq Hcache];
       unfold bind at 1 in Hr; unfold requests_get_call at 1 in Hr;
       rewrite Hreq in Hr;
       destruct (requests_get env (length (docs_requests w)) (c :: url)) as [content|e];
       subst r; cbn; rewrite Hreq, ?Hcache; repeat split
     | subst r; repeat split ]).
Qed.

Lemma dict_get_url_nonempty (doc_key url : pystr) :
  dict_get DOCUMENTATION_URLS doc_key = Some url -> url <> [].
Proof.
  unfold DOCUMENTATION_URLS. cbn [dict_get].
  repeat match goal with
         | |- context [decide (?k = doc_key)] => destruct (decide (k = doc_key))
         end; intros H; try discriminate H;
    injection H as <-; intros H; apply (f_equal (@length N)) in H;
    vm_compute in H; discriminate H.
Qed.

(** The first fetch of a known key, from a cache without it. *)
Lemma first_fetch env (doc_key url : pystr) (w : World) :
  DOCS_CACHE w !! doc_key = None ->
  dict_get DOCUMENTATION_URLS doc_key = Some url ->
  let result := fetch_documentation env doc_key w in
  docs_requests (snd result) = docs_requests w ++ [url]
  /\ match requests_get env (length (docs_requests w)) url with
     | ResponseText content =>
       fst result = Some content
       /\ DOCS_CACHE (snd result)
          = <[doc_key := {| ce_content := content;
                            ce_timestamp := clock env (clock_reads w) |}]> (DOCS_CACHE w)
     | RequestException e =>
       fst result = None /\ DOCS_CACHE (snd result) = DOCS_CACHE w
     end.
Proof.
  intros Hnone Hurl.
  assert (Hstale : has_fresh_entry env w doc_key = false).
  { unfold has_fresh_entry. rewrite Hnone. reflexivity. }
  pose proof (fetch_documentation_network env doc_key w Hstale) as H.
  cbv zeta in H. rewrite Hurl in H.
  destruct url as [|c url]; [exfalso; exact (dict_get_url_nonempty _ _ Hurl eq_refl)|].
  exact H.
Qed.



(** X7.  Expiry: after a fetch that went to the network and succeeded, a
    second fetch of the same key with the clock [CACHE_EXPIRY] or more past
    the reading of the first sends a second request to the same URL and
    returns what that request gives; when it fails the result is [None] and
    the old entry stays in the cache. *)
Theorem refetch_after_expiry env (doc_key url content : pystr) (w : World) :
  DOCS_CACHE w !! doc_key = None ->
  dict_get DOCUMENTATION_URLS doc_key = Some url ->
  requests_get env (length (docs_requests w)) url = ResponseText content ->
  let w1 := snd (fetch_documentation env doc_key w) in
  ~ (clock env (clock_reads w1) - clock env (clock_reads w) < CACHE_EXPIRY)%Q ->
  docs_requests (snd (fetch_documentation env doc_key w1)) = docs_requests w ++ [url; url]
  /\ match requests_get env (S (length (docs_requests w))) url with
     | ResponseText content2 =>
       fst (fetch_documentation env doc_key w1) = Some content2
       /\ DOCS_CACHE (snd (fetch_documentation env doc_key w1)) !! doc_key
          = Some {| ce_content := content2;
                    ce_timestamp := clock env (clock_reads w1) |}
     | RequestException e =>
       fst (fetch_documentation env doc_key w1) = None
       /\ DOCS_CACHE (snd (fetch_documentation env doc_key w1)) !! doc_key
          = Some {| ce_content := content;
                    ce_timestamp := clock env (clock_reads w) |}
     end.
Proof.
  intros Hnone Hurl Hget w1 Hexpired.
  destruct (first_fetch env doc_key url w Hnone Hurl) as [Hreq H].
  rewrite Hget in H. destruct H as [_ Hcache]. fold w1 in Hreq, Hcache.
  assert (Hentry : DOCS_CACHE w1 !! doc_key
                   = Some {| ce_content := content;
                             ce_timestamp := clock env (clock_reads w) |}).
  { rewrite Hcache. apply lookup_insert_eq. }
  assert (Hstale : has_fresh_entry env w1 doc_key = false).
  { unfold has_fresh_entry. rewrite Hentry. cbn [ce_timestamp].
    destruct (Qltb _ _) eqn:E; [|reflexivity].
    apply Qltb_spec in E. contradiction. }
  pose proof (fetch_documentation_network env doc_key w1 Hstale) as H.
  cbv zeta in H. rewrite Hurl in H.
  destruct url as [|c url]; [exfalso; exact (dict_get_url_nonempty _ _ Hurl eq_refl)|].
  destruct H as [Hreq2 H]. rewrite Hreq in H.
  rewrite length_app, Nat.add_1_r in H.
  split; [rewrite Hreq2, Hreq, <- app_assoc; reflexivity|].
  destruct (requests_get env (S (length (docs_requests w))) (c :: url)) as [content2|e];
    destruct H as [Hres Hc2]; (split; [exact Hres|]); rewrite Hc2;
    [apply lookup_insert_eq | exact Hentry].
Qed.

Lemma refetch_after_expiry_witness :
  docs_requests
    (snd (fetch_documentation slow_clock_env (u "style_guide")
            (snd (fetch_documentation slow_clock_env (u "style_guide") fresh_world))))
  = docs_requests fresh_world
    ++ [GITHUB_REPO_BASE ++ u "/handbook/style-guide.md";
        GITHUB_REPO_BASE ++ u "/handbook/style-guide.md"].
Proof.
  refine (proj1 (refetch_after_expiry slow_clock_env (u "style_guide")
            (GITHUB_REPO_BASE ++ u "/handbook/style-guide.md") (u "# Guide")
            fresh_world _ _ _ _)).
  - reflexivity.
  - vm_compute. reflexivity.
  - reflexivity.
  - intros H. vm_compute in H. discriminate H.
Defined.

(** X8.  A failed fetch is not remembered: when the request for a key that
    is not in the cache raises, the result is [None], the cache is as
    before, and the next fetch of the key sends the request again. *)
Theorem failed_fetch_is_retried env (doc_key url e : pystr) (w : World) :
  DOCS_CACHE w !! doc_key = None ->
  dict_get DOCUMENTATION_URLS doc_key = Some url ->
  requests_get env (length (docs_requests w)) url = RequestException e ->
  let w1 := snd (fetch_documentation env doc_key w) in
  fst (fetch_documentation env doc_key w) = None
  /\ DOCS_CACHE w1 = DOCS_CACHE w
  /\ docs_requests (snd (fetch_documentation env doc_key w1)) = docs_requests w ++ [url; url].
Proof.
  intros Hnone Hurl Hget w1.
  destruct (first_fetch env doc_key url w Hnone Hurl) as [Hreq H].
  rewrite Hget in H. destruct H as [Hfirst Hcache]. fold w1 in Hreq, Hcache.
  split; [exact Hfirst|]. split; [exact Hcache|].
  assert (Hnone1 : DOCS_CACHE w1 !! doc_key = None) by (rewrite Hcache; exact Hnone).
  destruct (first_fetch env doc_key url w1 Hnone1 Hurl) as [Hreq2 _].
  rewrite Hreq2, Hreq, <- app_assoc. reflexivity.
Qed.

Lemma failed_fetch_is_retried_witness :
  fst (fetch_documentation outage_env (u "quick_reference") fresh_world) = None.
Proof.
  refine (proj1 (failed_fetch_is_retried outage_env (u "quick_reference")
            (GITHUB_REPO_BASE ++ u "/editing-rules/quick-reference.md")
            (u "Connection refused") fresh_world _ _ _)).
  - reflexivity.
  - vm_compute. reflexivity.
  - reflexivity.
Defined.

(** X9.  A key that is neither in the cache nor in [DOCUMENTATION_URLS]
    gives [None] without any request, and the cache stays as it is. *)
Theorem unknown_key_no_request env (doc_key : pystr) (w : World) :
  DOCS_CACHE w !! doc_key = None ->
  dict_get DOCUMENTATION_URLS doc_key = None ->
  fst (fetch_documentation env doc_key w) = None
  /\ docs_requests (snd (fetch_documentation env doc_key w)) = docs_requests w
  /\ DOCS_CACHE (snd (fetch_documentation env doc_key w)) = DOCS_CACHE w.
Proof.
  intros Hnone Hurl.
  assert (Hstale : has_fresh_entry env w doc_key = false).
  { unfold has_fresh_entry. rewrite Hnone. reflexivity. }
  pose proof (fetch_documentation_network env doc_key w Hstale) as H.
  cbv zeta in H. rewrite Hurl in H. tauto.
Qed.

Lemma unknown_key_no_request_witness :
  fst (fetch_documentation sample_env (u "glossary") fresh_world) = None.
Proof.
  refine (proj1 (unknown_key_no_request sample_env (u "glossary") fresh_world _ _)).
  - reflexivity.
  - vm_compute. reflexivity.
Defined.


(* ===================================================================== *)
(** * Further properties of the link report *)
(* ===================================================================== *)

Lemma literal_nonempty (s : pystr) : (0 < length s)%nat -> s <> [].
Proof. intros H ->. cbn in H. lia. Qed.

Lemma suggest_error_fixes_nonempty (url e : pystr) : Main.suggest_error_fixes url e <> [].
Proof.
  unfold Main.suggest_error_fixes.
  generalize (contains (u "SSL") e || contains (u "certificate") (lower e)),
    (contains (u "Name or service not known") e || contains (u "DNS") e),
    (contains (u "Connection refused") e).
  intros [] [] []; apply literal_nonempty; vm_compute; lia.
Qed.

Lemma link_result_suggestion (url : pystr) (outcome : urlopen_outcome) :
  match r_suggestion (Main.link_result_of url outcome) with
  | None => outcome = Response 200
  | Some suggestion => suggestion <> [] /\ outcome <> Response 200
  end.
Proof.
  destruct outcome as [status|code|e]; unfold Main.link_result_of.
  - destruct (status =? 200)%Z eqn:E; cbn [r_suggestion].
    + apply Z.eqb_eq in E. subst. reflexivity.
    + apply Z.eqb_neq in E. split; [apply literal_nonempty; vm_compute; lia | congruence].
  - destruct (code =? 404)%Z; [|destruct ((code =? 401)%Z || (code =? 403)%Z)];
      cbn [r_suggestion]; (split; [|discriminate]).
    + apply suggest_404_fixes_nonempty.
    + apply literal_nonempty. vm_compute. lia.
    + apply literal_nonempty. vm_compute. lia.
  - cbn [r_suggestion]. split; [apply suggest_error_fixes_nonempty | discriminate].
Qed.


Lemma substring_refl (s : pystr) : substring s s.
Proof. exists [], []. cbn. rewrite app_nil_r. reflexivity. Qed.

Lemma flat_map_substring {A} (f : A -> pystr) (l : list A) (x : A) :
  In x l -> substring (f x) (flat_map f l).
Proof.
  induction l as [|y l IH]; intros Hin; [contradiction|]. cbn [flat_map].
  destruct Hin as [-> | Hin].
  - exists [], (flat_map f l). reflexivity.
  - apply substring_pre. apply IH. exact Hin.
Qed.

(** The report for a document with links and at least one issue. *)
Lemma format_findings_issue (urls : list pystr) (working_links issues : list link_result)
  (issue : link_result) :
  In issue issues ->
  substring (Main.format_issue issue) (Main.format_findings urls working_links issues)
  /\ substring (u " links need attention:**") (Main.format_findings urls working_links issues).
Proof.
  intros Hin. unfold Main.format_findings. cbv zeta.
  destruct issues as [|first rest] eqn:E; [contradiction|]. rewrite <- E in *.
  split.
  - rewrite !app_assoc. apply substring_pre. apply flat_map_substring. exact Hin.
  - destruct working_links; rewrite <- !app_assoc.
    + do 7 apply substring_pre. apply substring_post.
      apply substring_refl.
    + do 12 apply substring_pre. apply substring_post.
      apply substring_refl.
Qed.



Lemma link_results_all_working env (urls : list pystr) :
  forall k,
    (forall i url, nth_error urls i = Some url -> urlopen env (k + i) url = Response 200) ->
    List.filter is_working (link_results env k urls) = link_results env k urls
    /\ List.filter (fun r => negb (is_working r)) (link_results env k urls) = [].
Proof.
  induction urls as [|url urls IH]; intros k Hall; [split; reflexivity|].
  cbn [link_results List.filter].
  assert (Hw : is_working (Main.link_result_of url (urlopen env k url)) = true).
  { apply is_working_iff. rewrite <- (Nat.add_0_r k). apply Hall. reflexivity. }
  rewrite Hw. cbn [negb].
  destruct (IH (S k)) as [H1 H2].
  { intros i u' Hi. replace (S k + i)%nat with (k + S i)%nat by lia.
    apply Hall. exact Hi. }
  rewrite H1, H2. split; reflexivity.
Qed.

(** X12.  When every link of a document that has links answers 200, the
    report is the heading with the number of links, the count of working
    links, and the line that all links are working; it lists no link. *)
Theorem all_working_report env (document_text : pystr) (md : doc_metadata) (w : World) :
  findall_urls document_text <> [] ->
  (forall i url, nth_error (findall_urls document_text) i = Some url ->
                 urlopen env (length (link_requests w) + i) url = Response 200) ->
  fst (Main.run_link_validation env document_text md w)
  = Findings (u "Link Validator")
      (u "**Link Validation Report** ("
         ++ str_of_nat (length (findall_urls document_text))
         ++ u " links checked)" ++ nl ++ nl
         ++ u "✅ **" ++ str_of_nat (length (findall_urls document_text))
         ++ u " working links** - No action needed" ++ nl ++ nl
         ++ u "🎉 **All links are working perfectly!**").
Proof.
  intros Hne Hall.
  rewrite (run_link_validation_links env document_text md w Hne). cbv zeta.
  destruct (link_results_all_working env (findall_urls document_text)
              (length (link_requests w)) Hall) as [H1 H2].
  rewrite H1, H2. unfold Main.format_findings. cbv zeta.
  assert (Hlen : length (link_results env (length (link_requests w))
                           (findall_urls document_text))
                 = length (findall_urls document_text)).
  { rewrite <- (link_results_urls env (findall_urls document_text)
                  (length (link_requests w))) at 2.
    symmetry. apply length_map. }
  destruct (link_results env (length (link_requests w)) (findall_urls document_text))
    as [|r rest] eqn:E.
  - exfalso. apply Hne. destruct (findall_urls document_text); [reflexivity|].
    cbn in Hlen. discriminate Hlen.
  - rewrite Hlen. rewrite <- !app_assoc. reflexivity.
Qed.

Lemma all_working_report_witness :
  fst (Main.run_link_validation sample_env
         (u "See https://api.example.com/docs for details") sample_metadata fresh_world)
  = Findings (u "Link Validator")
      (u "**Link Validation Report** (1 links checked)

✅ **1 working links** - No action needed

🎉 **All links are working perfectly!**").
Proof.
  refine (eq_trans (all_working_report sample_env
            (u "See https://api.example.com/docs for details") sample_metadata
            fresh_world _ _) _).
  - vm_compute. discriminate.
  - intros [|[|i]] url H; vm_compute in H; try discriminate H.
    injection H as <-. vm_compute. reflexivity.
  - vm_compute. reflexivity.
Defined.

(* ===================================================================== *)
(** * Further properties of the agents and the orchestrator of main.py *)
(* ===================================================================== *)

Lemma fetch_documentation_calls env (doc_key : pystr) :
  preserves calls (fetch_documentation env doc_key).
Proof.
  intros w. unfold calls.
  rewrite (proj1 (fetch_documentation_preserves env doc_key) w).
  rewrite (proj1 (proj2 (fetch_documentation_preserves env doc_key)) w).
  reflexivity.
Qed.

Lemma log_calls env (message : pystr) (w : World) :
  calls (snd (log_system_message env message w)) = calls w.
Proof. reflexivity. Qed.

Lemma run_content_analysis_spec env (document_text : pystr) (md : doc_metadata)
  (w : World) :
  exists system_prompt user_prompt,
    let request :=
      {| model := u "gpt-4";
         messages := [(u "system", system_prompt); (u "user", user_prompt)];
         max_tokens := 1000;
         temperature := 0.2 |} in
    substring document_text user_prompt
    /\ completions (snd (Main.run_content_analysis env document_text md w))
       = completions w ++ [request]
    /\ link_requests (snd (Main.run_content_analysis env document_text md w))
       = link_requests w
    /\ fst (Main.run_content_analysis env document_text md w)
       = match chat_completions_create env (length (completions w)) request with
         | Completion analysis => Findings (u "Content Analyzer") analysis
         | APIException e => AgentError (u "Content Analyzer") e
         end.
Proof.
  remember (Main.run_content_analysis env document_text md w) as r eqn:Hr.
  unfold Main.run_content_analysis in Hr.
  unfold bind at 1 in Hr.
  destruct (log_system_message env _ w) as [[] w0] eqn:E0.
  assert (H0 : calls w0 = calls w).
  { pose proof (f_equal snd E0) as H. cbn [snd] in H. subst w0. reflexivity. }
  unfold bind at 1 in Hr.
  destruct (run_preserving calls _ w0 (fetch_documentation_calls env
              (u "content_classification_guide"))) as (g1 & w1 & E1 & H1).
  rewrite E1 in Hr.
  unfold bind at 1 in Hr.
  destruct (run_preserving calls _ w1 (fetch_documentation_calls env
              (u "wordiness_examples"))) as (g2 & w2 & E2 & H2).
  rewrite E2 in Hr.
  unfold bind at 1 in Hr.
  destruct (run_preserving calls _ w2 (fetch_documentation_calls env
              (u "clarity_examples"))) as (g3 & w3 & E3 & H3).
  rewrite E3 in Hr.
  cbv zeta in Hr.
  assert (H : calls w3 = calls w) by congruence.
  injection H as Hc Hl.
  unfold bind at 1 in Hr. unfold chat_completions_create_call at 1 in Hr.
  rewrite Hc in Hr.
  match type of Hr with
  | context [chat_completions_create env _
               {| model := _; messages := [(_, ?s); (_, ?p)];
                  max_tokens := _; temperature := _ |}] => exists s, p
  end.
  cbv zeta. split.
  { do 5 apply substring_pre. apply substring_post. apply substring_refl. }
  destruct (chat_completions_create env (length (completions w)) _) as [a|e];
    subst r; cbn; rewrite Hc, Hl; (split; [reflexivity|split; reflexivity]).
Qed.

Lemma run_style_analysis_spec env (document_text : pystr) (md : doc_metadata)
  (w : World) :
  exists system_prompt user_prompt,
    let request :=
      {| model := u "gpt-4";
         messages := [(u "system", system_prompt); (u "user", user_prompt)];
         max_tokens := 1000;
         temperature := 0.1 |} in
    substring document_text user_prompt
    /\ completions (snd (Main.run_style_analysis env document_text md w))
       = completions w ++ [request]
    /\ link_requests (snd (Main.run_style_analysis env document_text md w))
       = link_requests w
    /\ fst (Main.run_style_analysis env document_text md w)
       = match chat_completions_create env (length (completions w)) request with
         | Completion compliance_check =>
           Findings (u "Style Guide Enforcer") compliance_check
         | APIException e => AgentError (u "Style Guide Enforcer") e
         end.
Proof.
  remember (Main.run_style_analysis env document_text md w) as r eqn:Hr.
  unfold Main.run_style_analysis in Hr.
  unfold bind at 1 in Hr.
  destruct (log_system_message env _ w) as [[] w0] eqn:E0.
  assert (H0 : calls w0 = calls w).
  { pose proof (f_equal snd E0) as H. cbn [snd] in H. subst w0. reflexivity. }
  unfold bind at 1 in Hr.
  destruct (run_preserving calls _ w0 (fetch_documentation_calls env
              (u "style_guide"))) as (g1 & w1 & E1 & H1).
  rewrite E1 in Hr.
  unfold bind at 1 in Hr.
  destruct (run_preserving calls _ w1 (fetch_documentation_calls env
              (u "quick_reference"))) as (g2 & w2 & E2 & H2).
  rewrite E2 in Hr.
  cbv zeta in Hr.
  assert (H : calls w2 = calls w) by congruence.
  injection H as Hc Hl.
  unfold bind at 1 in Hr. unfold chat_completions_create_call at 1 in Hr.
  rewrite Hc in Hr.
  match type of Hr with
  | context [chat_completions_create env _
               {| model := _; messages := [(_, ?s); (_, ?p)];
                  max_tokens := _; temperature := _ |}] => exists s, p
  end.
  cbv zeta. split.
  { do 5 apply substring_pre. apply substring_post. apply substring_refl. }
  destruct (chat_completions_create env (length (completions w)) _) as [a|e];
    subst r; cbn; rewrite Hc, Hl; (split; [reflexivity|split; reflexivity]).
Qed.

Lemma run_link_validation_spec env (document_text : pystr) (md : doc_metadata)
  (w : World) :
  fst (Main.run_link_validation env document_text md w)
  = Findings (u "Link Validator")
      (link_validator_findings env (length (link_requests w)) document_text)
  /\ link_requests (snd (Main.run_link_validation env document_text md w))
     = link_requests w ++ findall_urls document_text
  /\ completions (snd (Main.run_link_validation env document_text md w))
     = completions w.
Proof.
  unfold link_validator_findings. cbv zeta.
  destruct (findall_urls document_text) as [|url urls] eqn:E.
  - destruct (run_link_validation_no_links env document_text md w E)
      as (H1 & H2 & _ & H4).
    rewrite app_nil_r. split; [exact H1|split; assumption].
  - split.
    + pose proof (run_link_validation_links env document_text md w) as H.
      cbv zeta in H. rewrite E in H. apply H. discriminate.
    + remember (Main.run_link_validation env document_text md w) as r eqn:Hr.
      unfold Main.run_link_validation in Hr. rewrite E in Hr. cbv zeta in Hr.
      unfold bind at 1 in Hr.
      destruct (log_system_message env _ w) as [[] w1] eqn:E1.
      assert (H1 : calls w1 = calls w).
      { pose proof (f_equal snd E1) as H. cbn [snd] in H. subst w1. reflexivity. }
      unfold bind at 1 in Hr.
      destruct (log_system_message env _ w1) as [[] w2] eqn:E2.
      assert (H2 : calls w2 = calls w1).
      { pose proof (f_equal snd E2) as H. cbn [snd] in H. subst w2. reflexivity. }
      unfold bind at 1 in Hr. rewrite check_all_links_spec in Hr. cbv zeta in Hr.
      assert (H : calls w2 = calls w) by congruence.
      injection H as Hc Hl.
      subst r. cbn. rewrite Hc, Hl. split; reflexivity.
Qed.

Lemma run_editorial_synthesis_links env (document_text : pystr) (md : doc_metadata)
  (agent_reports : list agent_report) :
  preserves link_requests (Main.run_editorial_synthesis env document_text md agent_reports).
Proof. unfold Main.run_editorial_synthesis. frame. Qed.

(** X13.  Each of the two model agents of phase 1 sends exactly one request
    to the model and none to a link: a request to gpt-4 of at most 1000
    tokens, with a system and a user message, the user message holding the
    whole document; its report is the findings the request gave, or the
    error with the message of the exception it raised. *)
Theorem model_agents_one_request env (document_text : pystr) (md : doc_metadata)
  (w : World) :
  (exists request system_prompt user_prompt,
     completions (snd (Main.run_content_analysis env document_text md w))
     = completions w ++ [request]
     /\ link_requests (snd (Main.run_content_analysis env document_text md w))
        = link_requests w
     /\ model request = u "gpt-4" /\ max_tokens request = 1000%Z
     /\ messages request = [(u "system", system_prompt); (u "user", user_prompt)]
     /\ substring document_text user_prompt
     /\ fst (Main.run_content_analysis env document_text md w)
        = match chat_completions_create env (length (completions w)) request with
          | Completion analysis => Findings (u "Content Analyzer") analysis
          | APIException e => AgentError (u "Content Analyzer") e
          end)
  /\ (exists request system_prompt user_prompt,
       completions (snd (Main.run_style_analysis env document_text md w))
       = completions w ++ [request]
       /\ link_requests (snd (Main.run_style_analysis env document_text md w))
          = link_requests w
       /\ model request = u "gpt-4" /\ max_tokens request = 1000%Z
       /\ messages request = [(u "system", system_prompt); (u "user", user_prompt)]
       /\ substring document_text user_prompt
       /\ fst (Main.run_style_analysis env document_text md w)
          = match chat_completions_create env (length (completions w)) request with
            | Completion compliance_check =>
              Findings (u "Style Guide Enforcer") compliance_check
            | APIException e => AgentError (u "Style Guide Enforcer") e
            end).
Proof.
  split.
  - destruct (run_content_analysis_spec env document_text md w)
      as (s & p & Hsub & Hc & Hl & Hres).
    eexists. exists s, p.
    split; [exact Hc|]. split; [exact Hl|]. split; [reflexivity|].
    split; [reflexivity|]. split; [reflexivity|]. split; [exact Hsub | exact Hres].
  - destruct (run_style_analysis_spec env document_text md w)
      as (s & p & Hsub & Hc & Hl & Hres).
    eexists. exists s, p.
    split; [exact Hc|]. split; [exact Hl|]. split; [reflexivity|].
    split; [reflexivity|]. split; [reflexivity|]. split; [exact Hsub | exact Hres].
Qed.

Lemma run_multi_agent_review_spec env (document_text : pystr) (md : doc_metadata) (w : World) :
  exists content_request style_request,
    let content_result :=
      match chat_completions_create env (length (completions w)) content_request with
      | Completion analysis => Findings (u "Content Analyzer") analysis
      | APIException e => AgentError (u "Content Analyzer") e
      end in
    let style_result :=
      match chat_completions_create env (S (length (completions w))) style_request with
      | Completion compliance_check =>
        Findings (u "Style Guide Enforcer") compliance_check
      | APIException e => AgentError (u "Style Guide Enforcer") e
      end in
    let link_result :=
      Findings (u "Link Validator")
        (link_validator_findings env (length (link_requests w)) document_text) in
    let agent_reports := [content_result; style_result; link_result] in
    let synthesis := Main.synthesis_request document_text md agent_reports in
    completions (snd (Main.run_multi_agent_review env document_text md w))
    = completions w ++ [content_request; style_request; synthesis]
    /\ link_requests (snd (Main.run_multi_agent_review env document_text md w))
       = link_requests w ++ findall_urls document_text
    /\ fst (Main.run_multi_agent_review env document_text md w)
       = match chat_completions_create env (S (S (length (completions w)))) synthesis with
         | Completion review => Review (u "Senior Editor") review agent_reports
         | APIException e => EditorialError (u "Senior Editor") e
         end.
Proof.
  remember (Main.run_multi_agent_review env document_text md w) as r eqn:Hr.
  unfold Main.run_multi_agent_review in Hr.
  unfold bind at 1 in Hr.
  destruct (log_system_message env _ w) as [[] w0] eqn:E0.
  assert (H0 : calls w0 = calls w).
  { pose proof (f_equal snd E0) as H. cbn [snd] in H. subst w0. reflexivity. }
  injection H0 as Hc0 Hl0.
  unfold bind at 1 in Hr.
  destruct (run_content_analysis_spec env document_text md w0)
    as (s1 & p1 & _ & Hc1 & Hl1 & Hr1).
  cbv zeta in Hc1, Hr1.
  destruct (Main.run_content_analysis env document_text md w0) as [content_result w1].
  cbn [fst snd] in Hc1, Hl1, Hr1.
  unfold bind at 1 in Hr.
  destruct (run_style_analysis_spec env document_text md w1)
    as (s2 & p2 & _ & Hc2 & Hl2 & Hr2).
  cbv zeta in Hc2, Hr2.
  destruct (Main.run_style_analysis env document_text md w1) as [style_result w2].
  cbn [fst snd] in Hc2, Hl2, Hr2.
  unfold bind at 1 in Hr.
  destruct (run_link_validation_spec env document_text md w2) as (Hr3 & Hl3 & Hc3).
  destruct (Main.run_link_validation env document_text md w2) as [link_result w3].
  cbn [fst snd] in Hc3, Hl3, Hr3.
  cbv zeta in Hr. unfold bind at 1 in Hr.
  destruct (run_editorial_synthesis_spec env document_text md
              [content_result; style_result; link_result] w3) as (Hc4 & Hr4).
  pose proof (run_editorial_synthesis_links env document_text md
                [content_result; style_result; link_result] w3) as Hl4.
  destruct (Main.run_editorial_synthesis env document_text md
              [content_result; style_result; link_result] w3) as [result w4].
  cbn [fst snd] in Hc4, Hr4, Hl4.
  unfold bind at 1 in Hr.
  destruct (log_system_message env _ w4) as [[] w5] eqn:E5.
  assert (H5 : calls w5 = calls w4).
  { pose proof (f_equal snd E5) as H. cbn [snd] in H. subst w5. reflexivity. }
  injection H5 as Hc5 Hl5.
  subst r. cbn [fst snd ret].
  assert (Hlen1 : length (completions w1) = S (length (completions w))).
  { rewrite Hc1, Hc0, length_app. cbn. lia. }
  assert (Hlen3 : length (completions w3) = S (S (length (completions w)))).
  { rewrite Hc3, Hc2, length_app, Hlen1. cbn. lia. }
  rewrite Hlen1 in Hr2. rewrite Hlen3 in Hr4. rewrite Hc0 in Hr1.
  rewrite Hl2, Hl1, Hl0 in Hr3.
  eexists. eexists. cbv zeta.
  rewrite <- Hr1, <- Hr2, <- Hr3.
  split; [|split; [|exact Hr4]].
  - rewrite Hc5, Hc4, Hc3, Hc2, Hc1, Hc0, <- !app_assoc. reflexivity.
  - rewrite Hl5, Hl4, Hl3, Hl2, Hl1, Hl0. reflexivity.
Qed.


(* ===================================================================== *)
(** * Further properties of the chat input of app.py *)
(* ===================================================================== *)

Lemma fetch_documentation_chat env (doc_key : pystr) :
  preserves (fun w => (completions w, session_messages w)) (fetch_documentation env doc_key).
Proof.
  intros w.
  rewrite (proj1 (fetch_documentation_preserves env doc_key) w).
  rewrite (proj2 (proj2 (proj2 (fetch_documentation_preserves env doc_key))) w).
  reflexivity.
Qed.

Lemma run_document_rewrite_spec env (original_text : pystr) (md : doc_metadata)
  (editorial_guidance : pystr) (w : World) :
  exists system_prompt user_prompt,
    let request :=
      {| model := u "gpt-4";
         messages := [(u "system", system_prompt); (u "user", user_prompt)];
         max_tokens := 2500;
         temperature := 0.2 |} in
    substring original_text user_prompt
    /\ substring editorial_guidance user_prompt
    /\ completions (snd (App.run_document_rewrite env original_text md editorial_guidance w))
       = completions w ++ [request]
    /\ session_messages
         (snd (App.run_document_rewrite env original_text md editorial_guidance w))
       = session_messages w
    /\ fst (App.run_document_rewrite env original_text md editorial_guidance w)
       = match chat_completions_create env (length (completions w)) request with
         | Completion rewritten_draft =>
           ImprovedDraft (u "Technical Writer") rewritten_draft
         | APIException e => RewriteError (u "Technical Writer") e
         end.
Proof.
  remember (App.run_document_rewrite env original_text md editorial_guidance w) as r eqn:Hr.
  unfold App.run_document_rewrite in Hr.
  unfold bind at 1 in Hr.
  destruct (log_system_message env _ w) as [[] w0] eqn:E0.
  assert (H0 : (completions w0, session_messages w0) = (completions w, session_messages w)).
  { pose proof (f_equal snd E0) as H. cbn [snd] in H. subst w0. reflexivity. }
  unfold bind at 1 in Hr.
  destruct (run_preserving _ _ w0 (fetch_documentation_chat env (u "style_guide")))
    as (g1 & w1 & E1 & H1).
  rewrite E1 in Hr.
  unfold bind at 1 in Hr.
  destruct (run_preserving _ _ w1 (fetch_documentation_chat env
              (u "content_classification_guide"))) as (g2 & w2 & E2 & H2).
  rewrite E2 in Hr.
  cbv zeta in Hr.
  assert (H : (completions w2, session_messages w2) = (completions w, session_messages w))
    by congruence.
  injection H as Hc Hm.
  unfold bind at 1 in Hr. unfold chat_completions_create_call at 1 in Hr.
  rewrite Hc in Hr.
  match type of Hr with
  | context [chat_completions_create env _
               {| model := _; messages := [(_, ?s); (_, ?p)];
                  max_tokens := _; temperature := _ |}] => exists s, p
  end.
  cbv zeta. split.
  { apply substring_pre. apply substring_post. apply substring_refl. }
  split.
  { do 3 apply substring_pre. apply substring_post. apply substring_refl. }
  destruct (chat_completions_create env (length (completions w)) _) as [a|e];
    subst r; cbn; rewrite Hc, Hm; (split; [reflexivity|split; reflexivity]).
Qed.

Lemma main_chat_input_rewrite_spec env (user_input document_text review : pystr)
  (w : World) :
  App.is_rewrite_request user_input = true ->
  document_text <> [] ->
  last_review w = Some review ->
  exists request system_prompt user_prompt closing,
    completions (snd (App.main_chat_input env user_input document_text w))
    = completions w ++ [request]
    /\ max_tokens request = 2500%Z
    /\ messages request = [(u "system", system_prompt); (u "user", user_prompt)]
    /\ substring document_text user_prompt
    /\ substring review user_prompt
    /\ fst (App.main_chat_input env user_input document_text w)
       = match chat_completions_create env (length (completions w)) request with
         | Completion improved_draft =>
           App.improved_draft_heading ++ nl ++ nl ++ improved_draft ++ closing
         | APIException e =>
           u "I apologize, but there was an error with the rewrite: " ++ e
         end
    /\ session_messages (snd (App.main_chat_input env user_input document_text w))
       = session_messages w
         ++ [{| role := u "user"; msg_content := user_input |};
             {| role := u "assistant";
                msg_content := fst (App.main_chat_input env user_input document_text w) |}].
Proof.
  intros Hrewrite Hdoc Hreview.
  remember (App.main_chat_input env user_input document_text w) as r eqn:Hr.
  unfold App.main_chat_input in Hr. cbv zeta in Hr.
  unfold bind at 1, App.append_message at 1 in Hr.
  unfold bind at 1, get_world at 1 in Hr.
  change (last_review (set_session_messages _ w)) with (last_review w) in Hr.
  change (document_metadata (set_session_messages _ w)) with (document_metadata w) in Hr.
  rewrite Hrewrite, Hreview in Hr.
  destruct document_text as [|c document_text]; [congruence|].
  set (text := c :: document_text) in *.
  set (w0 := set_session_messages
               (fun l => l ++ [{| role := u "user"; msg_content := user_input |}]) w) in Hr.
  set (md := get_or (document_metadata w) {| md_title := None; md_type := None |}) in Hr.
  destruct (run_document_rewrite_spec env text md review w0)
    as (s & p & Hdocsub & Hrevsub & Hcomp & Hmsg & Hres).
  cbv zeta in Hcomp, Hres.
  change (completions w0) with (completions w) in Hres, Hcomp.
  unfold bind at 1 in Hr. unfold bind at 1 in Hr.
  destruct (App.run_document_rewrite env text md review w0) as [rewrite_result w1] eqn:E.
  cbn [fst snd] in Hres, Hcomp, Hmsg.
  exists {| model := u "gpt-4";
            messages := [(u "system", s); (u "user", p)];
            max_tokens := 2500;
            temperature := 0.2 |}, s, p.
  match type of Hr with
  | context [ret (App.improved_draft_heading ++ nl ++ nl ++ _ ++ ?closing)] =>
    exists closing
  end.
  split; [|split; [reflexivity|split; [reflexivity|split;
            [exact Hdocsub|split; [exact Hrevsub|]]]]].
  - destruct rewrite_result; subst r; unfold ret, bind, App.append_message;
      cbn [fst snd completions set_session_messages]; exact Hcomp.
  - destruct (chat_completions_create env (length (completions w)) _) as [draft|e];
      subst rewrite_result r; unfold ret, bind, App.append_message;
      cbn [fst snd session_messages set_session_messages]; rewrite Hmsg; subst w0;
      cbn [session_messages set_session_messages];
      rewrite <- app_assoc; (split; reflexivity).
Qed.

(** X15.  A rewrite request with a document and a review in the session
    goes to the rewrite agent: exactly one request is sent to the model, of
    at most 2500 tokens, whose user message holds the whole document and the
    review; the reply is the draft the model returned, under the heading of
    the improved draft and followed by a closing text, or an apology with the
    message of the error; the input and the reply are appended to the
    messages. *)
Theorem rewrite_with_review_goes_to_writer env (user_input document_text review : pystr)
  (w : World) :
  App.is_rewrite_request user_input = true ->
  document_text <> [] ->
  last_review w = Some review ->
  exists request system_prompt user_prompt closing,
    completions (snd (App.main_chat_input env user_input document_text w))
    = completions w ++ [request]
    /\ max_tokens request = 2500%Z
    /\ messages request = [(u "system", system_prompt); (u "user", user_prompt)]
    /\ substring document_text user_prompt
    /\ substring review user_prompt
    /\ fst (App.main_chat_input env user_input document_text w)
       = match chat_completions_create env (length (completions w)) request with
         | Completion improved_draft =>
           App.improved_draft_heading ++ nl ++ nl ++ improved_draft ++ closing
         | APIException e =>
           u "I apologize, but there was an error with the rewrite: " ++ e
         end
    /\ session_messages (snd (App.main_chat_input env user_input document_text w))
       = session_messages w
         ++ [{| role := u "user"; msg_content := user_input |};
             {| role := u "assistant";
                msg_content := fst (App.main_chat_input env user_input document_text w) |}].
Proof. apply main_chat_input_rewrite_spec. Qed.

Lemma rewrite_with_review_witness :
  exists request,
    completions (snd (App.main_chat_input sample_env (u "Yes please, rewrite it")
                        (u "The API will return user data.")
                        {| DOCS_CACHE := DOCS_CACHE fresh_world;
                           system_logs := [];
                           clock_reads := 0;
                           link_requests := [];
                           docs_requests := [];
                           completions := [];
                           editorial_reviews := [];
                           store_transactions := 0;
                           last_review := Some (u "Use the present tense.");
                           session_messages := [];
                           document_metadata := None |}))
    = [request]
    /\ max_tokens request = 2500%Z.
Proof.
  destruct (rewrite_with_review_goes_to_writer sample_env (u "Yes please, rewrite it")
              (u "The API will return user data.") (u "Use the present tense.")
              {| DOCS_CACHE := DOCS_CACHE fresh_world;
                 system_logs := [];
                 clock_reads := 0;
                 link_requests := [];
                 docs_requests := [];
                 completions := [];
                 editorial_reviews := [];
                 store_transactions := 0;
                 last_review := Some (u "Use the present tense.");
                 session_messages := [];
                 document_metadata := None |})
    as (request & _ & _ & _ & Hc & Hmax & _).
  - vm_compute. reflexivity.
  - discriminate.
  - reflexivity.
  - exists request. split; [exact Hc | exact Hmax].
Defined.

(* ===================================================================== *)
(** * Numbers in the reports *)
(* ===================================================================== *)

Lemma utf8_decode_ascii (bs : list N) :
  List.Forall (fun b => (b < 128)%N) bs -> utf8_decode bs = bs.
Proof.
  induction 1 as [|b bs Hb _ IH]; [reflexivity|].
  cbn [utf8_decode]. apply N.ltb_lt in Hb. rewrite Hb, IH. reflexivity.
Qed.

Lemma string_of_uint_digits (d : Decimal.uint) :
  List.Forall (fun c => (48 <= c <= 57)%N)
    (map N_of_ascii (list_ascii_of_string (NilEmpty.string_of_uint d))).
Proof.
  induction d; cbn [NilEmpty.string_of_uint list_ascii_of_string map];
    [constructor | constructor; [vm_compute; split; discriminate | exact IHd] ..].
Qed.

(** [str(n)] is made of decimal digits. *)
Lemma str_of_nat_digits (n : nat) :
  List.Forall (fun c => (48 <= c <= 57)%N) (str_of_nat n).
Proof.
  unfold str_of_nat, str_of_Z, u.
  assert (H : List.Forall (fun c => (48 <= c <= 57)%N)
                (map N_of_ascii
                   (list_ascii_of_string
                      (NilZero.string_of_int (Z.to_int (Z.of_nat n)))))).
  { destruct (Z.of_nat n) eqn:E; cbn [Z.to_int NilZero.string_of_int].
    - repeat constructor; vm_compute; discriminate.
    - unfold NilZero.string_of_uint.
      destruct (Pos.to_uint p) eqn:Ep;
        [repeat constructor; vm_compute; discriminate
        | rewrite <- Ep; apply string_of_uint_digits ..].
    - lia. }
  rewrite utf8_decode_ascii; [exact H|].
  eapply List.Forall_impl; [|exact H]. cbn. intros c Hc. lia.
Qed.

(* ===================================================================== *)
(** * Further properties of the rewrite of main.py *)
(* ===================================================================== *)

Lemma substring_In (needle hay : pystr) (c : N) :
  substring needle hay -> In c needle -> In c hay.
Proof.
  intros (pre & post & ->) Hin. apply in_or_app. right. apply in_or_app. left. exact Hin.
Qed.

Lemma substring_trans (a b c : pystr) : substring a b -> substring b c -> substring a c.
Proof.
  intros (p1 & q1 & ->) (p2 & q2 & ->). exists (p2 ++ p1), (q1 ++ q2).
  rewrite <- !app_assoc. reflexivity.
Qed.

Lemma not_In_literal (c : N) (s : pystr) : existsb (N.eqb c) s = false -> ~ In c s.
Proof.
  intros H Hin. assert (E : existsb (N.eqb c) s = true).
  { apply existsb_exists. exists c. split; [exact Hin | apply N.eqb_refl]. }
  congruence.
Qed.

Lemma In_literal (c : N) (s : pystr) : existsb (N.eqb c) s = true -> In c s.
Proof.
  intros H. apply existsb_exists in H. destruct H as (x & Hin & E).
  apply N.eqb_eq in E. subst x. exact Hin.
Qed.

Lemma suggestion_label : u "💡 **Suggestion:** " = u "💡 **Suggestion:**" ++ [32%N].
Proof. vm_compute. reflexivity. Qed.

Lemma need_attention_label :
  u " links need attention:**" = u " links " ++ u "need attention" ++ u ":**".
Proof. vm_compute. reflexivity. Qed.

Lemma not_In_str_of_nat (c : N) (n : nat) : (57 < c)%N -> ~ In c (str_of_nat n).
Proof.
  intros Hc Hin. pose proof (str_of_nat_digits n) as H.
  rewrite List.Forall_forall in H. specialize (H c Hin). lia.
Qed.

Lemma link_results_In env (urls : list pystr) :
  forall k r, In r (link_results env k urls) ->
    exists url outcome, r = Main.link_result_of url outcome.
Proof.
  induction urls as [|url urls IH]; intros k r Hin; [contradiction|].
  cbn [link_results] in Hin. destruct Hin as [<- | Hin]; [eauto | eauto].
Qed.

Lemma filter_not_working_nil (results : list link_result) :
  forallb is_working results = true ->
  List.filter (fun r => negb (is_working r)) results = []
  /\ List.filter is_working results = results.
Proof.
  induction results as [|r results IH]; cbn [forallb List.filter]; [split; reflexivity|].
  intros H. apply andb_prop in H. destruct H as [Hr H]. rewrite Hr. cbn [negb].
  destruct (IH H) as [H1 H2]. rewrite H1, H2. split; reflexivity.
Qed.

Lemma forallb_false_In {A} (f : A -> bool) (l : list A) :
  forallb f l = false -> exists x, In x l /\ f x = false.
Proof.
  induction l as [|a l IH]; cbn [forallb]; [discriminate|].
  destruct (f a) eqn:E; cbn [andb].
  - intros H. destruct (IH H) as (x & Hin & Hx). exists x. split; [right|]; assumption.
  - intros _. exists a. split; [left; reflexivity | exact E].
Qed.

Lemma no_issue_no_bulb (urls : list pystr) (results : list link_result) :
  ~ In 128161%N (Main.format_findings urls results []).
Proof.
  intros H. unfold Main.format_findings in H. cbv zeta in H.
  destruct results as [|r results'];
    repeat (apply in_app_or in H; destruct H as [H|H]);
    first [ revert H; apply not_In_str_of_nat; reflexivity
          | revert H; apply not_In_literal; vm_compute; reflexivity ].
Qed.

Lemma issue_marks (urls : list pystr) (working_links issues : list link_result)
  (url : pystr) (outcome : urlopen_outcome) :
  In (Main.link_result_of url outcome) issues ->
  is_working (Main.link_result_of url outcome) = false ->
  substring (u "need attention") (Main.format_findings urls working_links issues)
  /\ substring (u "💡 **Suggestion:**") (Main.format_findings urls working_links issues).
Proof.
  intros Hin Hissue.
  destruct (format_findings_issue urls working_links issues _ Hin) as [Hblock Hhead].
  split.
  - refine (substring_trans _ _ _ _ Hhead).
    exists (u " links "), (u ":**"). exact need_attention_label.
  - refine (substring_trans _ _ _ _ Hblock).
    pose proof (link_result_suggestion url outcome) as Hs.
    unfold Main.format_issue.
    destruct (r_suggestion (Main.link_result_of url outcome)) as [[|c s]|].
    + destruct Hs as [Hs _]. congruence.
    + do 8 apply substring_pre. rewrite suggestion_label.
      exists [], ([32%N] ++ (c :: s) ++ nl ++ nl).
      rewrite <- !app_assoc. reflexivity.
    + exfalso. subst outcome.
      assert (Hw : is_working (Main.link_result_of url (Response 200)) = true)
        by (apply is_working_iff; reflexivity).
      congruence.
Qed.

(** The findings of the validator name the links that need attention, with
    a suggestion, exactly when a link is not working. *)
Lemma link_validator_findings_marks env (k : nat) (document_text : pystr) :
  let findings := link_validator_findings env k document_text in
  contains (u "need attention") findings && contains (u "💡 **Suggestion:**") findings
  = negb (all_links_work env k document_text).
Proof.
  cbv zeta. unfold link_validator_findings, all_links_work. cbv zeta.
  generalize (findall_urls document_text). intros urls.
  destruct (forallb is_working (link_results env k urls)) eqn:Hall; cbn [negb].
  - apply andb_false_iff. right. apply contains_false. intros Hsub.
    assert (Hin : In 128161%N (u "💡 **Suggestion:**")).
    { apply In_literal. vm_compute. reflexivity. }
    pose proof (substring_In _ _ _ Hsub Hin) as H. clear Hsub Hin.
    destruct (filter_not_working_nil _ Hall) as [H1 H2].
    rewrite H1 in H. clear H1 H2 Hall.
    destruct urls as [|url urls'].
    + revert H. apply not_In_literal. vm_compute. reflexivity.
    + exact (no_issue_no_bulb _ _ H).
  - destruct (forallb_false_In _ _ Hall) as (issue & Hin & Hissue).
    assert (Hin' : In issue (List.filter (fun r => negb (is_working r))
                               (link_results env k urls))).
    { apply filter_In. split; [exact Hin | rewrite Hissue; reflexivity]. }
    destruct (link_results_In env urls k issue Hin) as (url0 & outcome & ->).
    destruct (issue_marks urls (List.filter is_working (link_results env k urls)) _
                url0 outcome Hin' Hissue) as [G1 G2].
    apply contains_spec in G1, G2.
    destruct urls as [|url urls']; [contradiction|].
    rewrite G1, G2. reflexivity.
Qed.

(* ===================================================================== *)
(** * The handlers of main.py *)
(* ===================================================================== *)

Lemma fetch_documentation_store env (doc_key : pystr) :
  preserves editorial_reviews (fetch_documentation env doc_key).
Proof. unfold fetch_documentation. cbv zeta. frame. Qed.

Lemma check_all_links_store env (urls : list pystr) :
  preserves editorial_reviews (Main.check_all_links env urls).
Proof. intros w. rewrite check_all_links_spec. reflexivity. Qed.

Lemma run_multi_agent_review_store env (document_text : pystr) (md : doc_metadata) :
  preserves editorial_reviews (Main.run_multi_agent_review env document_text md).
Proof.
  unfold Main.run_multi_agent_review, Main.run_content_analysis, Main.run_style_analysis,
    Main.run_link_validation, Main.run_editorial_synthesis.
  cbv zeta.
  repeat first [ apply fetch_documentation_store | apply check_all_links_store
               | frame_step ];
    try (intros ?; reflexivity).
Qed.

Lemma fetch_documentation_effects env (doc_key : pystr) :
  preserves effects (fetch_documentation env doc_key).
Proof.
  intros w. unfold effects.
  rewrite (fetch_documentation_calls env doc_key w).
  rewrite (fetch_documentation_store env doc_key w). reflexivity.
Qed.

Lemma rewrite_prompt_holds (style_guide content_guide : option pystr)
  (link_fixes doc_title doc_type original_text feedback : pystr) :
  let prompt :=
    Main.rewrite_prompt style_guide content_guide link_fixes doc_title doc_type
      original_text feedback in
  substring link_fixes prompt
  /\ substring doc_title prompt
  /\ substring original_text prompt
  /\ substring feedback prompt.
Proof.
  cbv zeta. unfold Main.rewrite_prompt.
  split; [|split; [|split]].
  - do 5 apply substring_pre. apply substring_post. apply substring_refl.
  - do 7 apply substring_pre. apply substring_post. apply substring_refl.
  - do 11 apply substring_pre. apply substring_post. apply substring_refl.
  - do 13 apply substring_pre. apply substring_post. apply substring_refl.
Qed.

Lemma generate_rewrite_spec env (original_text doc_title doc_type feedback : pystr)
  (analysis_result : option Main.analysis) (w : World) :
  let r := Main.generate_rewrite env true original_text doc_title doc_type feedback
             analysis_result w in
  link_requests (snd r) = link_requests w
  /\ editorial_reviews (snd r) = editorial_reviews w
  /\ match Main.link_fixes_for analysis_result with
     | inr e =>
       fst r = u "❌ Rewrite error: " ++ e /\ completions (snd r) = completions w
     | inl link_fixes =>
       exists style_guide content_guide,
         let request :=
           Main.rewrite_request
             (Main.rewrite_prompt style_guide content_guide link_fixes doc_title doc_type
                original_text feedback) in
         completions (snd r) = completions w ++ [request]
         /\ fst r = match chat_completions_create env (length (completions w)) request with
                    | Completion content => content
                    | APIException e => u "❌ Rewrite error: " ++ e
                    end
     end.
Proof.
  cbv zeta.
  remember (Main.generate_rewrite env true original_text doc_title doc_type feedback
              analysis_result w) as r eqn:Hr.
  unfold Main.generate_rewrite in Hr. cbn [negb] in Hr. cbv zeta in Hr.
  unfold bind at 1 in Hr.
  destruct (run_preserving effects _ w (fetch_documentation_effects env (u "style_guide")))
    as (g1 & w1 & E1 & H1).
  rewrite E1 in Hr.
  unfold bind at 1 in Hr.
  destruct (run_preserving effects _ w1 (fetch_documentation_effects env
              (u "content_classification_guide"))) as (g2 & w2 & E2 & H2).
  rewrite E2 in Hr.
  assert (H : effects w2 = effects w) by congruence.
  unfold effects, calls in H. injection H as Hc Hl Hs.
  destruct (Main.link_fixes_for analysis_result) as [link_fixes|e].
  - unfold bind at 1 in Hr. unfold chat_completions_create_call at 1 in Hr.
    rewrite Hc in Hr.
    assert (G : link_requests (snd r) = link_requests w
                /\ editorial_reviews (snd r) = editorial_reviews w
                /\ completions (snd r)
                   = completions w
                     ++ [Main.rewrite_request
                           (Main.rewrite_prompt g1 g2 link_fixes doc_title doc_type
                              original_text feedback)]
                /\ fst r = match chat_completions_create env (length (completions w))
                                   (Main.rewrite_request
                                      (Main.rewrite_prompt g1 g2 link_fixes doc_title
                                         doc_type original_text feedback)) with
                           | Completion content => content
                           | APIException e => u "❌ Rewrite error: " ++ e
                           end).
    { destruct (chat_completions_create env (length (completions w)) _) as [content|e];
        subst r; unfold ret; cbn [fst snd link_requests editorial_reviews completions
                                   set_completions];
        rewrite Hc, Hl, Hs; repeat split. }
    destruct G as (G1 & G2 & G3 & G4).
    split; [exact G1|]. split; [exact G2|]. exists g1, g2. split; assumption.
  - subst r. unfold ret. cbn [fst snd]. rewrite Hc, Hl, Hs. repeat split.
Qed.

Lemma link_fixes_of_reports (content_result style_result : agent_report)
  (findings : pystr) :
  report_agent content_result <> u "Link Validator" ->
  report_agent style_result <> u "Link Validator" ->
  Main.link_fixes_of [content_result; style_result;
                      Findings (u "Link Validator") findings]
  = if contains (u "need attention") findings
       && contains (u "💡 **Suggestion:**") findings
    then u "

LINK FIXES REQUIRED:
" ++ findings
    else [].
Proof.
  intros Hc Hs. unfold Main.link_fixes_of. cbn [fold_left].
  assert (Hskip : forall report (acc : pystr),
            report_agent report <> u "Link Validator" ->
            match report with
            | Findings agent f =>
              if bool_decide (agent = u "Link Validator")
                 && contains (u "need attention") f
                 && contains (u "💡 **Suggestion:**") f
              then u "

LINK FIXES REQUIRED:
" ++ f
              else acc
            | AgentError _ _ => acc
            end = acc).
  { intros [agent f|agent e] acc Hne; [|reflexivity]. cbn [report_agent] in Hne.
    rewrite bool_decide_eq_false_2 by exact Hne. reflexivity. }
  rewrite (Hskip content_result [] Hc), (Hskip style_result [] Hs).
  rewrite bool_decide_eq_true_2 by reflexivity. reflexivity.
Qed.

Lemma link_fixes_of_validator env (k : nat) (document_text : pystr)
  (content_result style_result : agent_report) :
  report_agent content_result = u "Content Analyzer" ->
  report_agent style_result = u "Style Guide Enforcer" ->
  Main.link_fixes_of
    [content_result; style_result;
     Findings (u "Link Validator") (link_validator_findings env k document_text)]
  = if all_links_work env k document_text then []
    else u "

LINK FIXES REQUIRED:
" ++ link_validator_findings env k document_text.
Proof.
  intros Hc Hs. rewrite link_fixes_of_reports.
  - rewrite (link_validator_findings_marks env k document_text).
    destruct (all_links_work env k document_text); reflexivity.
  - rewrite Hc. intros E. apply (f_equal (@length N)) in E. vm_compute in E. discriminate E.
  - rewrite Hs. intros E. apply (f_equal (@length N)) in E. vm_compute in E. discriminate E.
Qed.



Lemma multi_agent_analysis_spec env (text doc_title doc_type : pystr) (w : World) :
  exists content_request style_request,
    let md := {| md_title := Some doc_title; md_type := Some doc_type |} in
    let agent_reports := phase1_reports env w text content_request style_request in
    let synthesis := Main.synthesis_request text md agent_reports in
    let r := Main.multi_agent_analysis env true text doc_title doc_type w in
    completions (snd r) = completions w ++ [content_request; style_request; synthesis]
    /\ link_requests (snd r) = link_requests w ++ findall_urls text
    /\ editorial_reviews (snd r) = editorial_reviews w
    /\ fst r = match chat_completions_create env (S (S (length (completions w))))
                       synthesis with
               | Completion review =>
                 Main.AnalysisResult (Review (u "Senior Editor") review agent_reports)
               | APIException e =>
                 Main.AnalysisMessage (u "❌ Multi-agent analysis error: " ++ e)
               end.
Proof.
  remember (Main.multi_agent_analysis env true text doc_title doc_type w) as r eqn:Hr.
  unfold Main.multi_agent_analysis in Hr. cbn [negb] in Hr. cbv zeta in Hr.
  rewrite (bind_run _ _ w (set_clock_reads S w) (clock env (clock_reads w))) in Hr
    by reflexivity.
  set (w0 := set_clock_reads S w) in Hr.
  set (md := {| md_title := Some doc_title; md_type := Some doc_type |}) in *.
  destruct (run_multi_agent_review_spec env text md w0) as (c & s & Hspec).
  cbv zeta in Hspec. destruct Hspec as (Hc & Hl & Hres).
  pose proof (run_multi_agent_review_store env text md w0) as Hs.
  change (completions w0) with (completions w) in Hc, Hres.
  change (link_requests w0) with (link_requests w) in Hl, Hres.
  change (editorial_reviews w0) with (editorial_reviews w) in Hs.
  unfold bind at 1 in Hr.
  destruct (Main.run_multi_agent_review env text md w0) as [result w1].
  cbn [fst snd] in Hc, Hl, Hres, Hs.
  exists c, s. cbv zeta. unfold phase1_reports, content_report, style_report.
  destruct (chat_completions_create env (S (S (length (completions w)))) _)
    as [review|e]; subst result r; unfold ret; cbn [fst snd];
    (split; [exact Hc|split; [exact Hl|split; [exact Hs|reflexivity]]]).
Qed.


(** X18.  The rewrite without a configured client returns the notice and
    does nothing else.  With a client it sends no link request and writes
    no row; on an analysis that is a message holding the word
    [agent_reports] it returns the error text without a request to the
    model; otherwise it sends one request to gpt-4, of at most 2500 tokens,
    with a single user message that holds the link fixes, the title, the
    whole document and the feedback, and returns what the request gave, or
    the error text with the message of its exception. *)
Theorem generate_rewrite_outcome env (original_text doc_title doc_type feedback : pystr)
  (analysis_result : option Main.analysis) (w : World) :
  Main.generate_rewrite env false original_text doc_title doc_type feedback
    analysis_result w
  = (u "❌ OpenAI API not configured. Add your API key to use rewrite functionality.", w)
  /\ let r := Main.generate_rewrite env true original_text doc_title doc_type feedback
               analysis_result w in
     link_requests (snd r) = link_requests w
     /\ editorial_reviews (snd r) = editorial_reviews w
     /\ match Main.link_fixes_for analysis_result with
        | inr e =>
          fst r = u "❌ Rewrite error: " ++ e /\ completions (snd r) = completions w
        | inl link_fixes =>
          exists request prompt,
            completions (snd r) = completions w ++ [request]
            /\ model request = u "gpt-4"
            /\ max_tokens request = 2500%Z
            /\ messages request = [(u "user", prompt)]
            /\ substring link_fixes prompt
            /\ substring doc_title prompt
            /\ substring original_text prompt
            /\ substring feedback prompt
            /\ fst r = match chat_completions_create env (length (completions w))
                               request with
                       | Completion content => content
                       | APIException e => u "❌ Rewrite error: " ++ e
                       end
        end.
Proof.
  split; [reflexivity|]. cbv zeta.
  pose proof (generate_rewrite_spec env original_text doc_title doc_type feedback
                analysis_result w) as H.
  cbv zeta in H. destruct H as (Hl & Hs & H).
  split; [exact Hl|]. split; [exact Hs|].
  destruct (Main.link_fixes_for analysis_result) as [link_fixes|e]; [|exact H].
  destruct H as (g1 & g2 & Hc & Hres).
  destruct (rewrite_prompt_holds g1 g2 link_fixes doc_title doc_type original_text
              feedback) as (P1 & P2 & P3 & P4).
  eexists. eexists.
  split; [exact Hc|]. split; [reflexivity|]. split; [reflexivity|].
  split; [reflexivity|]. split; [exact P1|]. split; [exact P2|].
  split; [exact P3|]. split; [exact P4|exact Hres].
Qed.

Lemma phase1_report_agents env (w : World) (text : pystr)
  (c s : completion_request) :
  exists content_result style_result,
    phase1_reports env w text c s
    = [content_result; style_result;
       Findings (u "Link Validator")
         (link_validator_findings env (length (link_requests w)) text)]
    /\ report_agent content_result = u "Content Analyzer"
    /\ report_agent style_result = u "Style Guide Enforcer".
Proof.
  unfold phase1_reports, content_report, style_report.
  eexists. eexists. split; [reflexivity|].
  split; [destruct (chat_completions_create env (length (completions w)) c)
         |destruct (chat_completions_create env (S (length (completions w))) s)];
    reflexivity.
Qed.


(* ===================================================================== *)
(** * Further properties of the quick checks *)
(* ===================================================================== *)

Lemma filter_nil_iff {A} (f : A -> bool) (l : list A) :
  List.filter f l = [] <-> forall x, In x l -> f x = false.
Proof.
  induction l as [|a l IH]; cbn [List.filter].
  - split; [intros _ x []|reflexivity].
  - destruct (f a) eqn:E.
    + split; [discriminate|]. intros H. specialize (H a (or_introl eq_refl)). congruence.
    + rewrite IH. split.
      * intros H x [<-|Hin]; [exact E | exact (H x Hin)].
      * intros H x Hin. apply H. right. exact Hin.
Qed.

Lemma app_one_not_nil {A} (l : list A) (x : A) : l ++ [x] <> [].
Proof. destruct l; discriminate. Qed.

Lemma quick_analysis_nil env (text : pystr) :
  Main.quick_analysis env text = []
  <-> re_search_ignorecase env (u "(should be|can be|will be)\s+\w+ed") text = false
      /\ re_search_ignorecase env (u "\bwill\s+\w+") text = false
      /\ List.filter
           (fun word => re_search_ignorecase env (u "\b" ++ word ++ u "\b") text)
           [u "actually"; u "basically"; u "really"; u "very"] = []
      /\ re_search_ignorecase env (u "\b(the button|the link|the field)\b") text = false
      /\ Main.long_sentences_over 25 text = [].
Proof.
  unfold Main.quick_analysis. cbv zeta.
  generalize (Main.long_sentences_over 25 text) as long_sentences.
  generalize (re_search_ignorecase env (u "\b(the button|the link|the field)\b") text)
    as vague.
  generalize (List.filter
                (fun word => re_search_ignorecase env (u "\b" ++ word ++ u "\b") text)
                [u "actually"; u "basically"; u "really"; u "very"]) as found_fillers.
  generalize (re_search_ignorecase env (u "\bwill\s+\w+") text) as future.
  generalize (re_search_ignorecase env (u "(should be|can be|will be)\s+\w+ed") text)
    as passive.
  intros passive future found_fillers vague long_sentences.
  split.
  - intros H.
    destruct long_sentences as [|s long]; [|exfalso; exact (app_one_not_nil _ _ H)].
    destruct vague; [exfalso; exact (app_one_not_nil _ _ H)|].
    destruct found_fillers as [|f found]; [|exfalso; exact (app_one_not_nil _ _ H)].
    destruct future; [exfalso; exact (app_one_not_nil _ _ H)|].
    destruct passive; [exfalso; exact (app_one_not_nil _ _ H)|].
    repeat split.
  - intros (-> & -> & -> & -> & ->). reflexivity.
Qed.

Lemma fold_left_append_prefix (issues : list pystr) :
  forall init : pystr,
    exists rest, fold_left (fun result issue => result ++ issue ++ nl ++ nl) issues init
                 = init ++ rest.
Proof.
  induction issues as [|i issues IH]; intros init; cbn [fold_left].
  - exists []. rewrite app_nil_r. reflexivity.
  - destruct (IH (init ++ i ++ nl ++ nl)) as [rest ->].
    exists ((i ++ nl ++ nl) ++ rest). rewrite <- app_assoc. reflexivity.
Qed.

Lemma found_label : u "**Found " = 42%N :: u "*Found ".
Proof. vm_compute. reflexivity. Qed.

Lemma no_issues_label :
  u "✅ **No immediate issues found!**" = 9989%N :: u " **No immediate issues found!**".
Proof. vm_compute. reflexivity. Qed.

(** X20.  Quick Analysis reports that it found no immediate issues exactly
    when none of its rules fires: no match of the passive, the future or the
    vague-reference pattern, of none of the four filler words, and no
    sentence of more than 25 words. *)
Theorem quick_analysis_no_issues env (document_text : pystr) :
  Main.main_quick_analysis env document_text = u "✅ **No immediate issues found!**"
  <-> re_search_ignorecase env (u "(should be|can be|will be)\s+\w+ed") document_text
      = false
      /\ re_search_ignorecase env (u "\bwill\s+\w+") document_text = false
      /\ (forall word, In word [u "actually"; u "basically"; u "really"; u "very"] ->
            re_search_ignorecase env (u "\b" ++ word ++ u "\b") document_text = false)
      /\ re_search_ignorecase env (u "\b(the button|the link|the field)\b") document_text
         = false
      /\ List.Forall (fun s => (length (py_split s) <= 25)%nat)
           (re_split_sentences document_text).
Proof.
  rewrite <- filter_nil_iff.
  assert (Hlong : List.Forall (fun s => (length (py_split s) <= 25)%nat)
                    (re_split_sentences document_text)
                  <-> Main.long_sentences_over 25 document_text = []).
  { unfold Main.long_sentences_over. rewrite filter_nil_iff, List.Forall_forall.
    split; intros H s Hin; specialize (H s Hin).
    - apply Nat.ltb_ge. exact H.
    - apply Nat.ltb_ge in H. exact H. }
  rewrite Hlong, <- quick_analysis_nil.
  unfold Main.main_quick_analysis. cbv zeta.
  destruct (Main.quick_analysis env document_text) as [|issue issues].
  - split; reflexivity.
  - split; [|discriminate]. intros H. exfalso.
    destruct (fold_left_append_prefix (issue :: issues)
                (u "**Found " ++ str_of_nat (length (issue :: issues))
                   ++ u " issues:**" ++ nl ++ nl)) as [rest E].
    rewrite E in H. rewrite found_label, no_issues_label in H.
    cbn [app] in H. discriminate H.
Qed.

Lemma fold_left_if_append_length {A B} (f : A -> bool) (g : A -> B) (l : list A) :
  forall init : list B,
    length (fold_left (fun acc x => if f x then acc ++ [g x] else acc) l init)
    = (length init + length (List.filter f l))%nat.
Proof.
  induction l as [|x l IH]; intros init; cbn [fold_left List.filter].
  - rewrite Nat.add_0_r. reflexivity.
  - rewrite IH. destruct (f x); [|reflexivity].
    rewrite length_app. cbn [length]. lia.
Qed.

(** X21.  The number of issues Quick Check of app.py reports is the number
    of its nine patterns that match: the three passive patterns, the future
    pattern, the four filler words and the pattern of vague references each
    add one issue when they match; so it reports none exactly when none
    matches. *)
Theorem analyze_issue_count env (text : pystr) :
  length (App.analyze_technical_writing_issues env text)
  = (length (List.filter (fun pattern => re_search_ignorecase env pattern text)
               [u "should be\s+\w+ed"; u "can be\s+\w+ed"; u "will be\s+\w+ed"])
     + (if re_search_ignorecase env (u "\bwill\s+\w+") text then 1 else 0)
     + length (List.filter
                 (fun word => re_search_ignorecase env (u "\b" ++ word ++ u "\b") text)
                 [u "actually"; u "basically"; u "really"; u "very"])
     + (if re_search_ignorecase env (u "\bthe button\b|\bthe link\b|\bthe field\b") text
        then 1 else 0))%nat.
Proof.
  unfold App.analyze_technical_writing_issues. cbv zeta.
  generalize (re_search_ignorecase env (u "\bthe button\b|\bthe link\b|\bthe field\b") text)
    as vague.
  generalize (re_search_ignorecase env (u "\bwill\s+\w+") text) as future.
  intros future vague.
  assert (Hif : forall (b : bool) (l : list issue) (x : issue),
            length (if b then l ++ [x] else l)
            = (length l + (if b then 1 else 0))%nat).
  { intros [] l x; [rewrite length_app; reflexivity | lia]. }
  rewrite Hif.
  rewrite (fold_left_if_append_length
             (fun word => re_search_ignorecase env (u "\b" ++ word ++ u "\b") text)
             (fun word => {| issue_type := u "Wordiness";
                             priority := u "High";
                             suggestion := u "Remove unnecessary '" ++ word ++ u "'" |})).
  rewrite Hif.
  rewrite (fold_left_if_append_length
             (fun pattern => re_search_ignorecase env pattern text)
             (fun _ => {| issue_type := u "Passive Voice";
                          priority := u "High";
                          suggestion := u "Use active voice in instructions" |})).
  cbn [length]. lia.
Qed.
(* ===================================================================== *)
(** * The full review of app.py *)
(* ===================================================================== *)

Lemma fetch_documentation_review_state env (doc_key : pystr) :
  preserves review_state (fetch_documentation env doc_key).
Proof.
  intros w. unfold review_state.
  rewrite (fetch_documentation_calls env doc_key w).
  rewrite (proj1 (proj2 (proj2 (fetch_documentation_preserves env doc_key))) w).
  reflexivity.
Qed.

Lemma app_run_content_analysis_spec env (document_text : pystr) (md : doc_metadata)
  (w : World) :
  exists system_prompt user_prompt,
    let request :=
      {| model := u "gpt-4";
         messages := [(u "system", system_prompt); (u "user", user_prompt)];
         max_tokens := 1000;
         temperature := 0.2 |} in
    substring document_text user_prompt
    /\ completions (snd (App.run_content_analysis env document_text md w))
       = completions w ++ [request]
    /\ link_requests (snd (App.run_content_analysis env document_text md w))
       = link_requests w
    /\ last_review (snd (App.run_content_analysis env document_text md w))
       = last_review w
    /\ fst (App.run_content_analysis env document_text md w)
       = content_report env (length (completions w)) request.
Proof.
  remember (App.run_content_analysis env document_text md w) as r eqn:Hr.
  unfold App.run_content_analysis in Hr.
  unfold bind at 1 in Hr.
  destruct (log_system_message env _ w) as [[] w0] eqn:E0.
  assert (H0 : review_state w0 = review_state w).
  { pose proof (f_equal snd E0) as H. cbn [snd] in H. subst w0. reflexivity. }
  unfold bind at 1 in Hr.
  destruct (run_preserving review_state _ w0 (fetch_documentation_review_state env
              (u "content_classification_guide"))) as (g1 & w1 & E1 & H1).
  rewrite E1 in Hr.
  cbv zeta in Hr.
  assert (H : review_state w1 = review_state w) by congruence.
  unfold review_state, calls in H. injection H as Hc Hl Hv.
  unfold bind at 1 in Hr. unfold chat_completions_create_call at 1 in Hr.
  rewrite Hc in Hr.
  match type of Hr with
  | context [chat_completions_create env _
               {| model := _; messages := [(_, ?s); (_, ?p)];
                  max_tokens := _; temperature := _ |}] => exists s, p
  end.
  cbv zeta. split.
  { do 5 apply substring_pre. apply substring_post. apply substring_refl. }
  unfold content_report.
  destruct (chat_completions_create env (length (completions w)) _) as [a|e];
    subst r; cbn; rewrite Hc, Hl, Hv; repeat split.
Qed.

Lemma app_run_style_analysis_spec env (document_text : pystr) (md : doc_metadata)
  (w : World) :
  exists system_prompt user_prompt,
    let request :=
      {| model := u "gpt-4";
         messages := [(u "system", system_prompt); (u "user", user_prompt)];
         max_tokens := 1000;
         temperature := 0.1 |} in
    substring document_text user_prompt
    /\ completions (snd (App.run_style_analysis env document_text md w))
       = completions w ++ [request]
    /\ link_requests (snd (App.run_style_analysis env document_text md w))
       = link_requests w
    /\ last_review (snd (App.run_style_analysis env document_text md w))
       = last_review w
    /\ fst (App.run_style_analysis env document_text md w)
       = style_report env (length (completions w)) request.
Proof.
  remember (App.run_style_analysis env document_text md w) as r eqn:Hr.
  unfold App.run_style_analysis in Hr.
  unfold bind at 1 in Hr.
  destruct (log_system_message env _ w) as [[] w0] eqn:E0.
  assert (H0 : review_state w0 = review_state w).
  { pose proof (f_equal snd E0) as H. cbn [snd] in H. subst w0. reflexivity. }
  unfold bind at 1 in Hr.
  destruct (run_preserving review_state _ w0 (fetch_documentation_review_state env
              (u "style_guide"))) as (g1 & w1 & E1 & H1).
  rewrite E1 in Hr.
  cbv zeta in Hr.
  assert (H : review_state w1 = review_state w) by congruence.
  unfold review_state, calls in H. injection H as Hc Hl Hv.
  unfold bind at 1 in Hr. unfold chat_completions_create_call at 1 in Hr.
  rewrite Hc in Hr.
  match type of Hr with
  | context [chat_completions_create env _
               {| model := _; messages := [(_, ?s); (_, ?p)];
                  max_tokens := _; temperature := _ |}] => exists s, p
  end.
  cbv zeta. split.
  { do 5 apply substring_pre. apply substring_post. apply substring_refl. }
  unfold style_report.
  destruct (chat_completions_create env (length (completions w)) _) as [a|e];
    subst r; cbn; rewrite Hc, Hl, Hv; repeat split.
Qed.

Lemma app_run_editorial_synthesis_spec env (document_text : pystr) (md : doc_metadata)
  (agent_reports : list agent_report) (w : World) :
  let r := App.run_editorial_synthesis env document_text md agent_reports w in
  completions (snd r) = completions w ++ [App.synthesis_request document_text md agent_reports]
  /\ link_requests (snd r) = link_requests w
  /\ last_review (snd r) = last_review w
  /\ fst r = match chat_completions_create env (length (completions w))
                     (App.synthesis_request document_text md agent_reports) with
             | Completion review => Review (u "Senior Editor") review agent_reports
             | APIException e => EditorialError (u "Senior Editor") e
             end.
Proof.
  cbv zeta.
  remember (App.run_editorial_synthesis env document_text md agent_reports w) as r eqn:Hr.
  unfold App.run_editorial_synthesis in Hr.
  unfold bind at 1 in Hr.
  destruct (log_system_message env _ w) as [[] w1] eqn:E1.
  assert (H : review_state w1 = review_state w).
  { pose proof (f_equal snd E1) as H. cbn [snd] in H. subst w1. reflexivity. }
  unfold review_state, calls in H. injection H as Hc Hl Hv.
  unfold bind at 1 in Hr. unfold chat_completions_create_call at 1 in Hr.
  rewrite Hc in Hr.
  destruct (chat_completions_create env (length (completions w)) _) as [review|e];
    subst r; cbn; rewrite Hc, Hl, Hv; repeat split.
Qed.

Lemma app_run_multi_agent_review_spec env (document_text : pystr) (md : doc_metadata)
  (w : World) :
  exists content_request style_request,
    let agent_reports :=
      [content_report env (length (completions w)) content_request;
       style_report env (S (length (completions w))) style_request] in
    let synthesis := App.synthesis_request document_text md agent_reports in
    let r := App.run_multi_agent_review env document_text md w in
    completions (snd r) = completions w ++ [content_request; style_request; synthesis]
    /\ link_requests (snd r) = link_requests w
    /\ match chat_completions_create env (S (S (length (completions w)))) synthesis with
       | Completion review =>
         fst r = Review (u "Senior Editor") review agent_reports
         /\ last_review (snd r) = Some review
       | APIException e =>
         fst r = EditorialError (u "Senior Editor") e
         /\ last_review (snd r) = last_review w
       end.
Proof.
  remember (App.run_multi_agent_review env document_text md w) as r eqn:Hr.
  unfold App.run_multi_agent_review in Hr.
  unfold bind at 1 in Hr.
  destruct (log_system_message env _ w) as [[] w0] eqn:E0.
  assert (H0 : review_state w0 = review_state w).
  { pose proof (f_equal snd E0) as H. cbn [snd] in H. subst w0. reflexivity. }
  unfold review_state, calls in H0. injection H0 as Hc0 Hl0 Hv0.
  unfold bind at 1 in Hr.
  destruct (app_run_content_analysis_spec env document_text md w0)
    as (s1 & p1 & _ & Hc1 & Hl1 & Hv1 & Hr1).
  cbv zeta in Hc1, Hr1.
  destruct (App.run_content_analysis env document_text md w0) as [content_result w1].
  cbn [fst snd] in Hc1, Hl1, Hv1, Hr1.
  unfold bind at 1 in Hr.
  destruct (app_run_style_analysis_spec env document_text md w1)
    as (s2 & p2 & _ & Hc2 & Hl2 & Hv2 & Hr2).
  cbv zeta in Hc2, Hr2.
  destruct (App.run_style_analysis env document_text md w1) as [style_result w2].
  cbn [fst snd] in Hc2, Hl2, Hv2, Hr2.
  cbv zeta in Hr. unfold bind at 1 in Hr.
  pose proof (app_run_editorial_synthesis_spec env document_text md
                [content_result; style_result] w2) as H3.
  cbv zeta in H3. destruct H3 as (Hc3 & Hl3 & Hv3 & Hr3).
  destruct (App.run_editorial_synthesis env document_text md
              [content_result; style_result] w2) as [result w3].
  cbn [fst snd] in Hc3, Hl3, Hv3, Hr3.
  unfold bind at 1 in Hr.
  destruct (log_system_message env _ w3) as [[] w4] eqn:E4.
  assert (H4 : review_state w4 = review_state w3).
  { pose proof (f_equal snd E4) as H. cbn [snd] in H. subst w4. reflexivity. }
  unfold review_state, calls in H4. injection H4 as Hc4 Hl4 Hv4.
  assert (Hlen1 : length (completions w1) = S (length (completions w))).
  { rewrite Hc1, Hc0, length_app. cbn. lia. }
  assert (Hlen2 : length (completions w2) = S (S (length (completions w)))).
  { rewrite Hc2, length_app, Hlen1. cbn. lia. }
  rewrite Hlen1 in Hr2. rewrite Hlen2 in Hr3. rewrite Hc0 in Hr1.
  eexists. eexists. cbv zeta.
  rewrite <- Hr1, <- Hr2.
  assert (Hcomp : completions w4
                  = completions w
                    ++ [ {| model := u "gpt-4";
                            messages := [(u "system", s1); (u "user", p1)];
                            max_tokens := 1000; temperature := 0.2 |};
                         {| model := u "gpt-4";
                            messages := [(u "system", s2); (u "user", p2)];
                            max_tokens := 1000; temperature := 0.1 |};
                         App.synthesis_request document_text md
                           [content_result; style_result] ]).
  { rewrite Hc4, Hc3, Hc2, Hc1, Hc0, <- !app_assoc. reflexivity. }
  assert (Hlink : link_requests w4 = link_requests w) by congruence.
  assert (Hrev : last_review w4 = last_review w) by congruence.
  destruct (chat_completions_create env (S (S (length (completions w)))) _)
    as [review|e]; subst result r; unfold bind, App.set_last_review, ret;
    cbn [fst snd completions link_requests last_review];
    (split; [exact Hcomp|split; [exact Hlink|split; [reflexivity|]]]);
    [reflexivity | exact Hrev].
Qed.

(** X22.  The full review of app.py sends three requests to the model, the
    content analyzer's, the style enforcer's and the senior editor's, the
    last one made from the two reports of phase 1, and it sends no request to
    a link.  When the third request succeeds the result is the review with
    the two reports and the review is kept in the session as the last review;
    when it fails the result is the senior editor's error and the session
    keeps the review it had. *)
Theorem app_full_review_outcome env (document_text : pystr) (md : doc_metadata)
  (w : World) :
  exists content_request style_request,
    let agent_reports :=
      [content_report env (length (completions w)) content_request;
       style_report env (S (length (completions w))) style_request] in
    let synthesis := App.synthesis_request document_text md agent_reports in
    let r := App.run_multi_agent_review env document_text md w in
    completions (snd r) = completions w ++ [content_request; style_request; synthesis]
    /\ link_requests (snd r) = link_requests w
    /\ match chat_completions_create env (S (S (length (completions w)))) synthesis with
       | Completion review =>
         fst r = Review (u "Senior Editor") review agent_reports
         /\ last_review (snd r) = Some review
       | APIException e =>
         fst r = EditorialError (u "Senior Editor") e
         /\ last_review (snd r) = last_review w
       end.
Proof. exact (app_run_multi_agent_review_spec env document_text md w). Qed.

(** X23.  The review and the rewrite of app.py compose: after a full review
    that returned a review, a chat input with a rewrite phrase, with a
    document in the text area, sends one request whose user message holds
    that review and the whole document of the text area. *)
Theorem review_then_rewrite env (reviewed_text : pystr) (md : doc_metadata)
  (user_input document_text review : pystr) (w : World) :
  let reviewed := App.run_multi_agent_review env reviewed_text md w in
  result_review (fst reviewed) = Some review ->
  App.is_rewrite_request user_input = true ->
  document_text <> [] ->
  exists request system_prompt user_prompt,
    completions (snd (App.main_chat_input env user_input document_text (snd reviewed)))
    = completions (snd reviewed) ++ [request]
    /\ max_tokens request = 2500%Z
    /\ messages request = [(u "system", system_prompt); (u "user", user_prompt)]
    /\ substring review user_prompt
    /\ substring document_text user_prompt.
Proof.
  intros reviewed Hreview Hrewrite Hdoc.
  destruct (app_run_multi_agent_review_spec env reviewed_text md w)
    as (c & s & Hspec).
  cbv zeta in Hspec. destruct Hspec as (_ & _ & H). fold reviewed in H.
  assert (Hlast : last_review (snd reviewed) = Some review).
  { destruct (chat_completions_create env (S (S (length (completions w)))) _)
      as [review'|e]; destruct H as [Hres Hlast]; rewrite Hres in Hreview;
      cbn [result_review] in Hreview; [|discriminate Hreview].
    injection Hreview as <-. exact Hlast. }
  destruct (main_chat_input_rewrite_spec env user_input document_text review
              (snd reviewed) Hrewrite Hdoc Hlast)
    as (request & sp & up & closing & Hc & Hmax & Hmsg & Hd & Hr & _).
  exists request, sp, up.
  split; [exact Hc|]. split; [exact Hmax|]. split; [exact Hmsg|].
  split; [exact Hr | exact Hd].
Qed.

Lemma review_then_rewrite_witness :
  exists request,
    completions
      (snd (App.main_chat_input sample_env (u "Yes please, rewrite it")
              (u "The API will return user data.")
              (snd (App.run_multi_agent_review sample_env
                      (u "The API will return user data.") sample_metadata fresh_world))))
    = completions
        (snd (App.run_multi_agent_review sample_env
                (u "The API will return user data.") sample_metadata fresh_world))
      ++ [request]
    /\ max_tokens request = 2500%Z.
Proof.
  destruct (review_then_rewrite sample_env (u "The API will return user data.")
              sample_metadata (u "Yes please, rewrite it")
              (u "The API will return user data.") (u "Looks good.") fresh_world)
    as (request & _ & _ & Hc & Hmax & _).
  - vm_compute. reflexivity.
  - vm_compute. reflexivity.
  - discriminate.
  - exists request. split; [exact Hc | exact Hmax].
Defined.

(* ===================================================================== *)
(** * Every chat input of app.py *)
(* ===================================================================== *)

Lemma main_chat_input_chat_spec env (user_input document_text : pystr) (w : World) :
  takes_rewrite_branch user_input document_text w = false ->
  let context :=
    match document_text with [] => None | _ => Some (slice_to 500 document_text) end in
  exists reference_material,
    let request := App.chat_request user_input context reference_material in
    completions (snd (App.main_chat_input env user_input document_text w))
    = completions w ++ [request]
    /\ fst (App.main_chat_input env user_input document_text w)
       = match chat_completions_create env (length (completions w)) request with
         | Completion guidance => App.assistant_heading ++ nl ++ nl ++ guidance
         | APIException e => u "I apologize, but there was an error: " ++ e
         end
    /\ session_messages (snd (App.main_chat_input env user_input document_text w))
       = session_messages w
         ++ [{| role := u "user"; msg_content := user_input |};
             {| role := u "assistant";
                msg_content := fst (App.main_chat_input env user_input document_text w) |}].
Proof.
  intros Hbranch context.
  remember (App.main_chat_input env user_input document_text w) as r eqn:Hr.
  unfold App.main_chat_input in Hr. cbv zeta in Hr.
  unfold bind at 1, App.append_message at 1 in Hr.
  unfold bind at 1, get_world at 1 in Hr.
  change (last_review (set_session_messages _ w)) with (last_review w) in Hr.
  set (w0 := set_session_messages
               (fun l => l ++ [{| role := u "user"; msg_content := user_input |}]) w) in Hr.
  assert (Hchat : r = (let* response :=
                         (let* chat_result := App.handle_chat_question env user_input context in
                          match chat_result with
                          | Guidance _ guidance =>
                            ret (App.assistant_heading ++ nl ++ nl ++ guidance)
                          | ChatError _ error =>
                            ret (u "I apologize, but there was an error: " ++ error)
                          end) in
                       run App.append_message (u "assistant") response then ret response) w0).
  { rewrite Hr. subst context. unfold takes_rewrite_branch in Hbranch.
    destruct (App.is_rewrite_request user_input), document_text, (last_review w);
      first [discriminate Hbranch | reflexivity]. }
  clear Hr.
  destruct (handle_chat_question_spec env user_input context w0) as (rm & Hres & Hcomp & Hmsg).
  exists rm. cbv zeta.
  destruct (App.handle_chat_question env user_input context w0) as [chat_result w1] eqn:E.
  cbn [fst snd] in Hres, Hcomp, Hmsg.
  change (completions w0) with (completions w) in Hres, Hcomp.
  unfold bind at 1 in Hchat. unfold bind at 1 in Hchat. rewrite E in Hchat.
  destruct (chat_completions_create env (length (completions w)) _) as [guidance|e];
    subst chat_result r; unfold ret, bind, App.append_message;
    cbn [fst snd completions session_messages set_session_messages];
    rewrite Hcomp, Hmsg; subst w0; cbn [session_messages set_session_messages];
    rewrite <- app_assoc; repeat split.
Qed.

(** X24.  Every chat input costs one request to the model and adds two
    messages: whichever branch is taken, exactly one request is sent, of at
    most 2500 tokens on the rewrite branch and 800 on the chat branch, and
    the input and the reply are appended to the messages, in this order.  The
    rewrite branch is taken exactly when the input holds a rewrite phrase,
    the text area holds a document and the session holds a review. *)
Theorem chat_input_accounting env (user_input document_text : pystr) (w : World) :
  let r := App.main_chat_input env user_input document_text w in
  exists request,
    completions (snd r) = completions w ++ [request]
    /\ max_tokens request
       = (if takes_rewrite_branch user_input document_text w then 2500 else 800)%Z
    /\ session_messages (snd r)
       = session_messages w
         ++ [{| role := u "user"; msg_content := user_input |};
             {| role := u "assistant"; msg_content := fst r |}].
Proof.
  cbv zeta.
  destruct (takes_rewrite_branch user_input document_text w) eqn:Hbranch.
  - unfold takes_rewrite_branch in Hbranch.
    apply andb_prop in Hbranch. destruct Hbranch as [Hbranch Hreview].
    apply andb_prop in Hbranch. destruct Hbranch as [Hrewrite Hdoc].
    destruct (last_review w) as [review|] eqn:Hlast; [|discriminate Hreview].
    assert (Hne : document_text <> []) by (intros ->; discriminate Hdoc).
    destruct (main_chat_input_rewrite_spec env user_input document_text review w
                Hrewrite Hne Hlast)
      as (request & _ & _ & _ & Hc & Hmax & _ & _ & _ & _ & Hm).
    exists request. split; [exact Hc|]. split; [exact Hmax | exact Hm].
  - destruct (main_chat_input_chat_spec env user_input document_text w Hbranch)
      as (rm & Hc & _ & Hm).
    eexists. split; [exact Hc|]. split; [reflexivity | exact Hm].
Qed.

Lemma docs_for_question_nil (user_question : pystr) :
  App.docs_for_question user_question = []
  <-> forall word,
        In word [u "style"; u "format"; u "voice"; u "tense";
                 u "content"; u "clarity"; u "wordiness"] ->
        contains word (lower user_question) = false.
Proof.
  unfold App.docs_for_question. cbv zeta.
  set (style := existsb (fun word => contains word (lower user_question))
                  [u "style"; u "format"; u "voice"; u "tense"]).
  set (content := existsb (fun word => contains word (lower user_question))
                    [u "content"; u "clarity"; u "wordiness"]).
  assert (Hs : style = false
               <-> forall word, In word [u "style"; u "format"; u "voice"; u "tense"] ->
                     contains word (lower user_question) = false).
  { subst style. rewrite <- not_true_iff_false, existsb_exists. split.
    - intros H word Hin. destruct (contains word (lower user_question)) eqn:E;
        [exfalso; apply H; exists word; split; assumption | reflexivity].
    - intros H (word & Hin & E). rewrite (H word Hin) in E. discriminate E. }
  assert (Hc : content = false
               <-> forall word, In word [u "content"; u "clarity"; u "wordiness"] ->
                     contains word (lower user_question) = false).
  { subst content. rewrite <- not_true_iff_false, existsb_exists. split.
    - intros H word Hin. destruct (contains word (lower user_question)) eqn:E;
        [exfalso; apply H; exists word; split; assumption | reflexivity].
    - intros H (word & Hin & E). rewrite (H word Hin) in E. discriminate E. }
  split.
  - intros H.
    assert (Hfalse : style = false /\ content = false).
    { destruct style, content; try discriminate H. split; reflexivity. }
    destruct Hfalse as [H1 H2]. rewrite Hs in H1. rewrite Hc in H2.
    intros word Hin.
    change [u "style"; u "format"; u "voice"; u "tense";
            u "content"; u "clarity"; u "wordiness"]
      with ([u "style"; u "format"; u "voice"; u "tense"]
              ++ [u "content"; u "clarity"; u "wordiness"]) in Hin.
    apply in_app_or in Hin. destruct Hin as [Hin|Hin]; [exact (H1 word Hin)|exact (H2 word Hin)].
  - intros H.
    assert (H1 : style = false).
    { apply Hs. intros word Hin. apply H. 
      change [u "style"; u "format"; u "voice"; u "tense";
              u "content"; u "clarity"; u "wordiness"]
        with ([u "style"; u "format"; u "voice"; u "tense"]
                ++ [u "content"; u "clarity"; u "wordiness"]).
      apply in_or_app. left. exact Hin. }
    assert (H2 : content = false).
    { apply Hc. intros word Hin. apply H.
      change [u "style"; u "format"; u "voice"; u "tense";
              u "content"; u "clarity"; u "wordiness"]
        with ([u "style"; u "format"; u "voice"; u "tense"]
                ++ [u "content"; u "clarity"; u "wordiness"]).
      apply in_or_app. right. exact Hin. }
    rewrite H1, H2. reflexivity.
Qed.

(** X25.  A question that, in lower case, holds none of the seven key words
    is answered without looking at the documentation: no documentation
    request is sent, the cache is not touched, and the one request to the
    model is the chat request with empty reference material, whose system
    message says that general knowledge is used. *)
Theorem chat_without_keywords env (user_question : pystr) (context : option pystr)
  (w : World) :
  (forall word,
     In word [u "style"; u "format"; u "voice"; u "tense";
              u "content"; u "clarity"; u "wordiness"] ->
     contains word (lower user_question) = false) ->
  let r := App.handle_chat_question env user_question context w in
  let request := App.chat_request user_question context [] in
  docs_requests (snd r) = docs_requests w
  /\ DOCS_CACHE (snd r) = DOCS_CACHE w
  /\ completions (snd r) = completions w ++ [request]
  /\ (exists system_prompt user_prompt,
        messages request = [(u "system", system_prompt); (u "user", user_prompt)]
        /\ substring (u "Using general technical writing knowledge") system_prompt
        /\ substring user_question user_prompt)
  /\ fst r = match chat_completions_create env (length (completions w)) request with
             | Completion guidance => Guidance (u "Chat Assistant") guidance
             | APIException e => ChatError (u "Chat Assistant") e
             end.
Proof.
  intros Hnone. apply docs_for_question_nil in Hnone. cbv zeta.
  remember (App.handle_chat_question env user_question context w) as r eqn:Hr.
  unfold App.handle_chat_question in Hr. cbv zeta in Hr. rewrite Hnone in Hr.
  cbn [for_each] in Hr.
  unfold bind at 1 in Hr.
  destruct (log_system_message env _ w) as [[] w1] eqn:E1.
  assert (H1 : docs_requests w1 = docs_requests w /\ DOCS_CACHE w1 = DOCS_CACHE w
               /\ completions w1 = completions w).
  { pose proof (f_equal snd E1) as H. cbn [snd] in H. subst w1. repeat split. }
  destruct H1 as (Hd & Hk & Hc).
  unfold bind at 1 in Hr. unfold ret at 1 in Hr.
  unfold bind at 1 in Hr. unfold chat_completions_create_call at 1 in Hr.
  rewrite Hc in Hr.
  assert (Hprompt : exists system_prompt user_prompt,
            messages (App.chat_request user_question context [])
            = [(u "system", system_prompt); (u "user", user_prompt)]
            /\ substring (u "Using general technical writing knowledge") system_prompt
            /\ substring user_question user_prompt).
  { unfold App.chat_request. cbv zeta. cbn [messages or_else].
    eexists. eexists. split; [reflexivity|]. split.
    + apply substring_pre. apply substring_post. apply substring_refl.
    + apply substring_pre. apply substring_post. apply substring_refl. }
  destruct (chat_completions_create env (length (completions w)) _) as [guidance|e];
    subst r; unfold bind, log_system_message, bind, datetime_now, ret;
    cbn [fst snd docs_requests DOCS_CACHE completions set_system_logs set_clock_reads
         set_completions];
    rewrite Hd, Hk, Hc;
    (split; [reflexivity|split; [reflexivity|split; [reflexivity|split;
       [exact Hprompt|reflexivity]]]]).
Qed.

Lemma chat_without_keywords_witness :
  docs_requests (snd (App.handle_chat_question sample_env (u "How long should a title be?")
                        None fresh_world))
  = docs_requests fresh_world.
Proof.
  refine (proj1 (chat_without_keywords sample_env (u "How long should a title be?")
                   None fresh_world _)).
  intros word Hin.
  repeat (destruct Hin as [<-|Hin]; [vm_compute; reflexivity|]).
  contradiction.
Defined.

(* ===================================================================== *)
(** * The buttons and the activity panel of the sidebar *)
(* ===================================================================== *)

(** X26.  Clear Cache empties the cache, so the next fetch of a key of
    [DOCUMENTATION_URLS] sends a request to its URL whatever the clock reads
    and however fresh the entry was, and returns what that request gives. *)
Theorem clear_cache_forces_refetch env (doc_key url : pystr) (w : World) :
  dict_get DOCUMENTATION_URLS doc_key = Some url ->
  let w1 := snd (clear_cache env w) in
  let r := fetch_documentation env doc_key w1 in
  DOCS_CACHE w1 = ∅
  /\ docs_requests (snd r) = docs_requests w ++ [url]
  /\ fst r = match requests_get env (length (docs_requests w)) url with
             | ResponseText content => Some content
             | RequestException e => None
             end.
Proof.
  intros Hurl w1 r.
  assert (Hempty : DOCS_CACHE w1 = ∅) by reflexivity.
  assert (Hreq : docs_requests w1 = docs_requests w) by reflexivity.
  assert (Hnone : DOCS_CACHE w1 !! doc_key = None).
  { rewrite Hempty. apply lookup_empty. }
  destruct (first_fetch env doc_key url w1 Hnone Hurl) as [H1 H2].
  fold r in H1, H2. rewrite Hreq in H1, H2.
  split; [exact Hempty|]. split; [exact H1|].
  destruct (requests_get env (length (docs_requests w)) url); destruct H2 as [H2 _];
    exact H2.
Qed.

Lemma clear_cache_forces_refetch_witness :
  docs_requests
    (snd (fetch_documentation sample_env (u "style_guide")
            (snd (clear_cache sample_env (cached_world)))))
  = docs_requests cached_world ++ [GITHUB_REPO_BASE ++ u "/handbook/style-guide.md"].
Proof.
  refine (proj1 (proj2 (clear_cache_forces_refetch sample_env (u "style_guide")
            (GITHUB_REPO_BASE ++ u "/handbook/style-guide.md") cached_world _))).
  vm_compute. reflexivity.
Defined.

(** X27.  New Session forgets the review: right after it no chat input takes
    the rewrite branch, whatever it says; the input goes to the chat
    assistant, and the messages of the session are that input and its
    reply only. *)
Theorem new_session_forgets_review env (user_input document_text : pystr) (w : World) :
  let w1 := snd (App.new_session w) in
  let r := App.main_chat_input env user_input document_text w1 in
  let context :=
    match document_text with [] => None | _ => Some (slice_to 500 document_text) end in
  takes_rewrite_branch user_input document_text w1 = false
  /\ exists reference_material,
       completions (snd r)
       = completions w ++ [App.chat_request user_input context reference_material]
       /\ session_messages (snd r)
          = [{| role := u "user"; msg_content := user_input |};
             {| role := u "assistant"; msg_content := fst r |}].
Proof.
  intros w1 r context.
  assert (Hbranch : takes_rewrite_branch user_input document_text w1 = false).
  { unfold takes_rewrite_branch. cbn [last_review w1 App.new_session snd].
    rewrite andb_false_r. reflexivity. }
  split; [exact Hbranch|].
  destruct (main_chat_input_chat_spec env user_input document_text w1 Hbranch)
    as (rm & Hc & _ & Hm).
  exists rm. split; [exact Hc | exact Hm].
Qed.

Lemma contains_char (c : N) (s : pystr) : contains [c] s = true <-> In c s.
Proof.
  rewrite contains_spec. split.
  - intros (pre & post & ->). apply in_or_app. right. left. reflexivity.
  - intros H. apply in_split in H. destruct H as (pre & post & ->).
    exists pre, post. reflexivity.
Qed.

Lemma after_first_app (sep : N) (pre post : pystr) :
  ~ In sep pre -> after_first sep (pre ++ sep :: post) = post.
Proof.
  induction pre as [|c pre IH]; intros Hnot; cbn [app after_first].
  - rewrite N.eqb_refl. reflexivity.
  - destruct (c =? sep)%N eqn:E.
    + apply N.eqb_eq in E. exfalso. apply Hnot. left. exact E.
    + apply IH. intros H. apply Hnot. right. exact H.
Qed.

Lemma rstrip_app (a b : pystr) (c : N) :
  is_space c = false -> rstrip (a ++ c :: b) = a ++ c :: rstrip b.
Proof.
  intros Hc. induction a as [|x a IH]; cbn [app rstrip].
  - rewrite Hc. destruct (rstrip b); reflexivity.
  - rewrite IH. destruct a; reflexivity.
Qed.

Lemma rstrip_idempotent (s : pystr) : rstrip (rstrip s) = rstrip s.
Proof.
  induction s as [|c s IH]; [reflexivity|]. cbn [rstrip].
  destruct (rstrip s) as [|y r] eqn:E.
  - destruct (is_space c) eqn:Ec; [reflexivity|]. cbn [rstrip]. rewrite Ec. reflexivity.
  - change (rstrip (c :: y :: r))
      with (match rstrip (y :: r) with
            | [] => if is_space c then [] else [c]
            | r' => c :: r'
            end).
    rewrite IH. reflexivity.
Qed.

Lemma lstrip_app (a b : pystr) (c : N) :
  is_space c = false -> lstrip (a ++ c :: b) = lstrip a ++ c :: b.
Proof.
  intros Hc. induction a as [|x a IH]; cbn [app lstrip].
  - rewrite Hc. reflexivity.
  - destruct (is_space x); [exact IH | reflexivity].
Qed.

Lemma lstrip_In (c : N) (s : pystr) : In c (lstrip s) -> In c s.
Proof.
  induction s as [|x s IH]; cbn [lstrip]; [tauto|].
  destruct (is_space x); [intros H; right; exact (IH H) | tauto].
Qed.

Lemma strip_space_cons (c : N) (s : pystr) :
  is_space c = true -> strip (c :: s) = strip s.
Proof.
  intros Hc. unfold strip. cbn [rstrip]. rewrite Hc.
  destruct (rstrip s) as [|y r]; [reflexivity|]. cbn [lstrip]. rewrite Hc. reflexivity.
Qed.

(** What the panel shows for a line [[timestamp] agent: text]. *)
Lemma clean_log_line (timestamp agent text : pystr) :
  ~ In 93%N timestamp ->
  ~ In 58%N agent ->
  clean_log (u "[" ++ timestamp ++ u "] " ++ agent ++ u ": " ++ text) = strip text.
Proof.
  intros Hts Hagent. unfold clean_log. cbv zeta.
  change (u "]") with [93%N]. change (u ":") with [58%N].
  change (u "[") with [91%N]. change (u "] ") with [93%N; 32%N].
  change (u ": ") with [58%N; 32%N].
  assert (Hline : [91%N] ++ timestamp ++ [93%N; 32%N] ++ agent ++ [58%N; 32%N] ++ text
                  = (91%N :: timestamp) ++ 93%N :: (32%N :: agent ++ 58%N :: 32%N :: text)).
  { reflexivity. }
  rewrite Hline. clear Hline.
  assert (Hin : contains [93%N]
                  ((91%N :: timestamp) ++ 93%N :: 32%N :: agent ++ 58%N :: 32%N :: text)
                = true).
  { apply contains_char. apply in_or_app. right. left. reflexivity. }
  rewrite Hin. clear Hin.
  rewrite after_first_app
    by (intros [H|H]; [discriminate H | exact (Hts H)]).
  assert (Hstrip : strip (32%N :: agent ++ 58%N :: 32%N :: text)
                   = lstrip agent ++ 58%N :: rstrip (32%N :: text)).
  { unfold strip.
    change (32%N :: agent ++ 58%N :: 32%N :: text)
      with ((32%N :: agent) ++ 58%N :: 32%N :: text).
    rewrite (rstrip_app (32%N :: agent) (32%N :: text) 58%N) by reflexivity.
    change (lstrip ((32%N :: agent) ++ 58%N :: rstrip (32%N :: text)))
      with (lstrip (agent ++ 58%N :: rstrip (32%N :: text))).
    apply lstrip_app. reflexivity. }
  rewrite Hstrip. clear Hstrip.
  assert (Hin : contains [58%N] (lstrip agent ++ 58%N :: rstrip (32%N :: text)) = true).
  { apply contains_char. apply in_or_app. right. left. reflexivity. }
  rewrite Hin. clear Hin.
  rewrite after_first_app by (intros H; exact (Hagent (lstrip_In _ _ H))).
  unfold strip at 1. rewrite rstrip_idempotent.
  change (lstrip (rstrip (32%N :: text))) with (strip (32%N :: text)).
  apply strip_space_cons. reflexivity.
Qed.

(** X28.  The activity panel shows the text of a logged message: for the
    line that [log_system_message] appends for [agent: text], when the
    timestamp holds no closing bracket and the agent's name no colon, the
    panel shows [text] without the white space around it. *)
Theorem activity_panel_shows_text env (agent text : pystr) (w : World) :
  contains (u "]") (strftime env (u "%H:%M:%S") (clock env (clock_reads w))) = false ->
  contains (u ":") agent = false ->
  exists line,
    system_logs (snd (log_system_message env (agent ++ u ": " ++ text) w))
    = system_logs w ++ [line]
    /\ clean_log line = strip text.
Proof.
  intros Hts Hagent.
  eexists. split; [reflexivity|].
  apply clean_log_line.
  - intros H. apply (contains_char 93) in H. change [93%N] with (u "]") in H. congruence.
  - intros H. apply (contains_char 58) in H. change [58%N] with (u ":") in H. congruence.
Qed.

Lemma activity_panel_shows_text_witness :
  exists line,
    system_logs (snd (log_system_message sample_env
                        (u "Link Validator" ++ u ": " ++ u "Starting link validation")
                        fresh_world))
    = system_logs fresh_world ++ [line]
    /\ clean_log line = strip (u "Starting link validation").
Proof.
  apply (activity_panel_shows_text sample_env (u "Link Validator")
           (u "Starting link validation") fresh_world).
  - vm_compute. reflexivity.
  - vm_compute. reflexivity.
Defined.

(* ===================================================================== *)
(** * The reviews with a warm cache *)
(* ===================================================================== *)

Lemma preserves_if_ret {A B} (P : B -> Prop) (f : World -> B) (a : A) :
  preserves_if P f (ret a).
Proof. intros w _. reflexivity. Qed.

Lemma preserves_if_bind {A B C} (P : C -> Prop) (f : World -> C) (c : M A) (k : A -> M B) :
  preserves_if P f c -> (forall a, preserves_if P f (k a)) -> preserves_if P f (bind c k).
Proof.
  intros Hc Hk w HP. unfold bind. specialize (Hc w HP).
  destruct (c w) as [a w']. cbn [snd] in Hc.
  rewrite <- Hc in HP. rewrite (Hk a w' HP). exact Hc.
Qed.

Lemma preserves_preserves_if {A B} (P : B -> Prop) (f : World -> B) (c : M A) :
  preserves f c -> preserves_if P f c.
Proof. intros H w _. apply H. Qed.

Lemma log_docs env (message : pystr) : preserves docs (log_system_message env message).
Proof. intros w. reflexivity. Qed.

Lemma completion_docs env (request : completion_request) :
  preserves docs (chat_completions_create_call env request).
Proof. intros w. reflexivity. Qed.

Lemma check_all_links_docs env (urls : list pystr) :
  preserves docs (Main.check_all_links env urls).
Proof. intros w. rewrite check_all_links_spec. reflexivity. Qed.

Lemma fetch_documentation_warm env (doc_key : pystr) :
  In doc_key (map fst DOCUMENTATION_URLS) ->
  preserves_if (warm_cache env) docs (fetch_documentation env doc_key).
Proof.
  intros Hin w Hwarm. destruct (Hwarm doc_key Hin) as (entry & Hentry & Hfresh).
  cbn [docs fst] in Hentry.
  destruct (fetch_documentation_cached env doc_key w entry Hentry (Hfresh _))
    as (_ & Hreq & _ & _ & Hcache).
  unfold docs. rewrite Hreq, Hcache. reflexivity.
Qed.

Ltac warm_step :=
  first
    [ apply preserves_if_ret
    | apply preserves_preserves_if; first [apply log_docs | apply completion_docs
                                          | apply check_all_links_docs]
    | apply fetch_documentation_warm; vm_compute; tauto
    | apply preserves_if_bind; [|intros ?]
    | match goal with
      | |- preserves_if _ _ (match ?x with _ => _ end) => destruct x
      | |- preserves_if _ _ (let '(_, _) := ?x in _) => destruct x
      end ].

Lemma main_review_warm env (document_text : pystr) (md : doc_metadata) :
  preserves_if (warm_cache env) docs (Main.run_multi_agent_review env document_text md).
Proof.
  unfold Main.run_multi_agent_review, Main.run_content_analysis, Main.run_style_analysis,
    Main.run_link_validation, Main.run_editorial_synthesis.
  cbv zeta. repeat warm_step.
Qed.

Lemma app_review_warm env (document_text : pystr) (md : doc_metadata) :
  preserves_if (warm_cache env) docs (App.run_multi_agent_review env document_text md).
Proof.
  unfold App.run_multi_agent_review, App.run_content_analysis, App.run_style_analysis,
    App.run_editorial_synthesis.
  cbv zeta. repeat warm_step.
  all: intros w _; reflexivity.
Qed.

Lemma main_rewrite_warm env (original_text doc_title doc_type feedback : pystr)
  (analysis_result : option Main.analysis) :
  preserves_if (warm_cache env) docs
    (Main.generate_rewrite env true original_text doc_title doc_type feedback
       analysis_result).
Proof.
  unfold Main.generate_rewrite. cbn [negb]. cbv zeta. repeat warm_step.
Qed.



(* ===================================================================== *)
(** * The parts of a link *)
(* ===================================================================== *)

Lemma take_until_split (stop : N -> bool) (s : pystr) :
  s = take_until stop s ++ skipn (length (take_until stop s)) s.
Proof.
  induction s as [|c s IH]; [reflexivity|]. cbn [take_until].
  destruct (stop c); [reflexivity|]. cbn [length skipn app]. rewrite <- IH. reflexivity.
Qed.

Lemma take_until_none (stop : N -> bool) (s : pystr) :
  forallb (fun c => negb (stop c)) (take_until stop s) = true.
Proof.
  induction s as [|c s IH]; [reflexivity|]. cbn [take_until].
  destruct (stop c) eqn:E; [reflexivity|]. cbn [forallb]. rewrite E, IH. reflexivity.
Qed.

Lemma take_until_prefix (stop : N -> bool) (s : pystr) :
  exists tail, s = take_until stop s ++ tail.
Proof. eexists. apply take_until_split. Qed.

Lemma prefix_trans (a b c : pystr) :
  (exists t, b = a ++ t) -> (exists t, c = b ++ t) -> exists t, c = a ++ t.
Proof. intros [t1 ->] [t2 ->]. exists (t1 ++ t2). rewrite app_assoc. reflexivity. Qed.

Lemma firstn_app_minus (a b : pystr) :
  firstn (length (a ++ b) - length b) (a ++ b) = a.
Proof.
  rewrite length_app.
  replace (length a + length b - length b)%nat with (length a) by lia.
  induction a as [|x a IH]; cbn [length firstn app].
  - destruct b; reflexivity.
  - rewrite IH. reflexivity.
Qed.

Lemma params_prefix (s : pystr) :
  let last_segment := rev (take_until (is_char "/") (rev s)) in
  exists tail,
    s = (firstn (length s - length last_segment) s
           ++ take_until (is_char ";") last_segment) ++ tail.
Proof.
  cbv zeta. set (last := rev (take_until (is_char "/") (rev s))).
  destruct (take_until_prefix (is_char "/") (rev s)) as [tail Htail].
  assert (E : s = rev tail ++ last).
  { rewrite <- (rev_involutive s). rewrite Htail at 1. rewrite rev_app_distr.
    reflexivity. }
  assert (Hs : firstn (length s - length last) s = rev tail).
  { rewrite E. apply firstn_app_minus. }
  rewrite Hs.
  destruct (take_until_prefix (is_char ";") last) as [tail' Htail'].
  exists tail'. rewrite <- app_assoc, <- Htail'. exact E.
Qed.

(** The result of [urlparse] on [scheme://body], for a scheme that
    [urlsplit] accepts and leaves as it is. *)
Lemma urlparse_with_scheme (sch body : pystr) :
  take_until (is_char ":") (sch ++ u "://" ++ body) = sch ->
  match sch with
  | c :: _ => ascii_alpha c && forallb scheme_char sch
  | [] => false
  end = true ->
  lower sch = sch ->
  scheme (urlparse (sch ++ u "://" ++ body)) = sch
  /\ netloc (urlparse (sch ++ u "://" ++ body)) = take_until is_delim body
  /\ exists tail,
       skipn (length (take_until is_delim body)) body
       = path (urlparse (sch ++ u "://" ++ body)) ++ tail.
Proof.
  intros Hcolon Hscheme Hlower.
  unfold urlparse. cbv zeta. rewrite Hcolon, Hscheme, Hlower.
  assert (Hlen : (length sch <? length (sch ++ u "://" ++ body))%nat = true).
  { apply Nat.ltb_lt. rewrite !length_app. change (length (u "://")) with 3%nat. lia. }
  rewrite Hlen. cbn [andb].
  assert (Hskip : skipn (S (length sch)) (sch ++ u "://" ++ body) = u "//" ++ body).
  { change (u "://") with (58%N :: u "//"). 
    replace (sch ++ (58%N :: u "//") ++ body) with ((sch ++ [58%N]) ++ u "//" ++ body)
      by (rewrite <- app_assoc; reflexivity).
    replace (S (length sch)) with (length (sch ++ [58%N]))
      by (rewrite length_app; cbn [length]; lia).
    rewrite skipn_app, skipn_all, Nat.sub_diag. reflexivity. }
  rewrite Hskip.
  change (startswith (u "//") (u "//" ++ body)) with true. cbv iota.
  change (skipn 2 (u "//" ++ body)) with body.
  change (skipn (2 + length (take_until is_delim body)) (u "//" ++ body))
    with (skipn (length (take_until is_delim body)) body).
  cbn [scheme netloc path].
  split; [reflexivity|]. split; [reflexivity|].
  set (rest := skipn (length (take_until is_delim body)) body).
  set (no_fragment := take_until (is_char "#") rest).
  set (no_query := take_until (is_char "?") no_fragment).
  assert (Hq : exists t, rest = no_query ++ t).
  { apply (prefix_trans _ no_fragment); apply take_until_prefix. }
  destruct (existsb _ uses_params); [|exact Hq].
  apply (prefix_trans _ no_query); [|exact Hq].
  apply (params_prefix no_query).
Qed.

(** X30.  The parts [urlparse] gives for a link of a document, when the
    link is made of ASCII characters and holds no opening square bracket (so
    that [urlsplit] does not raise): the scheme is [http] or [https]; the
    host holds none of the characters [/], [?] and [#]; the link is the
    scheme, [://], the host and a rest; and the path is a prefix of that
    rest.  So the site that the suggestion for a 404 tells to check manually,
    [scheme://host], is the beginning of the link. *)
Theorem link_parts (url : pystr) :
  url_pattern url ->
  forallb (fun c => (c <? 128)%N && negb (is_char "[" c)) url = true ->
  let parsed := urlparse url in
  (scheme parsed = u "http" \/ scheme parsed = u "https")
  /\ forallb (fun c => negb (is_delim c)) (netloc parsed) = true
  /\ exists rest tail,
       url = scheme parsed ++ u "://" ++ netloc parsed ++ rest
       /\ rest = path parsed ++ tail.
Proof.
  intros (body & _ & _ & Hurl) _. cbv zeta.
  assert (H : exists sch,
            (sch = u "http" \/ sch = u "https")
            /\ url = sch ++ u "://" ++ body
            /\ take_until (is_char ":") (sch ++ u "://" ++ body) = sch
            /\ match sch with
               | c :: _ => ascii_alpha c && forallb scheme_char sch
               | [] => false
               end = true
            /\ lower sch = sch).
  { destruct Hurl as [-> | ->].
    - exists (u "http"). split; [left; reflexivity|]. repeat split; reflexivity.
    - exists (u "https"). split; [right; reflexivity|]. repeat split; reflexivity. }
  destruct H as (sch & Hsch & -> & Hcolon & Hscheme & Hlower).
  destruct (urlparse_with_scheme sch body Hcolon Hscheme Hlower)
    as (Hs & Hn & tail & Hp).
  rewrite Hs, Hn. split; [exact Hsch|]. split; [apply take_until_none|].
  exists (skipn (length (take_until is_delim body)) body), tail.
  split; [|exact Hp].
  rewrite <- take_until_split. reflexivity.
Qed.

Lemma link_parts_witness :
  scheme (urlparse (u "https://example.com/missing")) = u "http"
  \/ scheme (urlparse (u "https://example.com/missing")) = u "https".
Proof.
  refine (proj1 (link_parts (u "https://example.com/missing") _ _)).
  - exists (u "example.com/missing").
    split; [discriminate|]. split; [vm_compute; reflexivity|].
    right. vm_compute. reflexivity.
  - vm_compute. reflexivity.
Defined.
